(** * Sherlock Mail: a shallow embedding of the scoring, identity and probing code

    The development follows [sherlock_mail.py].  Python values are modelled
    as follows.

    - [str] is a Rocq [string].  The embedding covers the strings of ASCII
      characters, those for which [PyStr.ascii_only] holds: on them Python's
      Unicode-aware operations ([isdigit], [isalpha], [\d], [lower],
      [capitalize]) are the ones on [0-9], [a-z] and [A-Z] defined here.
      Outside ASCII they differ ([c.isdigit()] holds of a superscript two,
      [\d] matches every decimal digit of Unicode, [isalpha] holds of
      accented letters), so a statement that rests on one of them takes
      [ascii_only] of the text concerned as a hypothesis.  Lengths,
      [split], [replace], membership and the explicit classes of the
      patterns ([[a-z]], [[0-9_]], [[^@]], ...) work character by character
      and need no such restriction.
    - [int] is [Z]; [len] returns a [Z].
    - The outside world (WHOIS, DNS, HTTP, the clock) is a record of oracles,
      [World]; a call that raises is the outcome [Raise].
    - [try]/[except], mutable locals and dictionaries are threaded through a
      small state-and-exception monad; dictionaries keyed by platform name
      are [gmap string _]. *)

From Stdlib Require Import ZArith Lia Bool Ascii String List DecimalString.
From stdpp Require Import gmap strings list.

Local Open Scope Z_scope.

(** ** Python strings *)

Module PyStr.

Definition len (s : string) : Z := Z.of_nat (String.length s).

Definition code (c : ascii) : N := N_of_ascii c.

(** [lo <= c <= hi] on character codes, as in a class range [lo-hi]. *)
Definition in_range (lo hi c : ascii) : bool :=
  ((code lo <=? code c) && (code c <=? code hi))%N.

Definition is_lower (c : ascii) : bool := in_range "a" "z" c.
Definition is_upper (c : ascii) : bool := in_range "A" "Z" c.
Definition is_alpha (c : ascii) : bool := is_lower c || is_upper c.
(** The class [[0-9]]; on an ASCII character also [c.isdigit()] and the
    class [\d]. *)
Definition is_digit (c : ascii) : bool := in_range "0" "9" c.

Definition newline : ascii := ascii_of_N 10.

Definition to_lower (c : ascii) : ascii :=
  if is_upper c then ascii_of_N (code c + 32) else c.
Definition to_upper (c : ascii) : ascii :=
  if is_lower c then ascii_of_N (code c - 32) else c.

Fixpoint map_chars (f : ascii -> ascii) (s : string) : string :=
  match s with
  | EmptyString => EmptyString
  | String c s' => String (f c) (map_chars f s')
  end.

(** [s.lower()] of an ASCII string. *)
Definition lower (s : string) : string := map_chars to_lower s.

(** [s.capitalize()] of an ASCII string: first character upper-cased, the
    rest lower-cased. *)
Definition capitalize (s : string) : string :=
  match s with
  | EmptyString => EmptyString
  | String c s' => String (to_upper c) (lower s')
  end.

Fixpoint any_char (p : ascii -> bool) (s : string) : bool :=
  match s with
  | EmptyString => false
  | String c s' => p c || any_char p s'
  end.

Fixpoint all_chars (p : ascii -> bool) (s : string) : bool :=
  match s with
  | EmptyString => true
  | String c s' => p c && all_chars p s'
  end.

(** The ASCII characters, and the strings made of them: the texts on which
    the Unicode-aware methods above are the ones defined here. *)
Definition is_ascii (c : ascii) : bool := (code c <? 128)%N.

Definition ascii_only (s : string) : bool := all_chars is_ascii s.

Fixpoint filter_chars (p : ascii -> bool) (s : string) : string :=
  match s with
  | EmptyString => EmptyString
  | String c s' =>
      if p c then String c (filter_chars p s') else filter_chars p s'
  end.

(** [c in s] for a one-character [c]. *)
Definition has_char (c : ascii) (s : string) : bool :=
  any_char (Ascii.eqb c) s.

Fixpoint starts_with (p s : string) : bool :=
  match p, s with
  | EmptyString, _ => true
  | String a p', String b s' => Ascii.eqb a b && starts_with p' s'
  | String _ _, EmptyString => false
  end.

(** [sub in s] *)
Fixpoint contains (sub s : string) : bool :=
  starts_with sub s ||
  match s with
  | EmptyString => false
  | String _ s' => contains sub s'
  end.

Fixpoint drop (n : nat) (s : string) : string :=
  match n, s with
  | O, _ => s
  | S n', String _ s' => drop n' s'
  | S _, EmptyString => EmptyString
  end.

Fixpoint take (n : nat) (s : string) : string :=
  match n, s with
  | S n', String c s' => String c (take n' s')
  | _, _ => EmptyString
  end.

(** [s.split(sep)] for a one-character separator: never an empty list. *)
Fixpoint split (sep : ascii) (s : string) : list string :=
  match s with
  | EmptyString => [EmptyString]
  | String c s' =>
      if Ascii.eqb c sep then EmptyString :: split sep s'
      else match split sep s' with
           | h :: t => String c h :: t
           | [] => [String c EmptyString]
           end
  end.

(** [sep.join(parts)] *)
Fixpoint join (sep : string) (parts : list string) : string :=
  match parts with
  | [] => EmptyString
  | [p] => p
  | p :: rest => p +:+ sep +:+ join sep rest
  end.

(** [s.replace(old, "")] for a non-empty [old]: every non-overlapping
    occurrence, scanning from the left, is deleted.  [skip] counts the
    characters of the current occurrence still to be dropped. *)
Fixpoint delete_from (old : string) (skip : nat) (s : string) : string :=
  match s with
  | EmptyString => EmptyString
  | String c s' =>
      match skip with
      | S k => delete_from old k s'
      | O =>
          if starts_with old s
          then delete_from old (Nat.pred (String.length old)) s'
          else String c (delete_from old O s')
      end
  end.

Definition delete_all (old s : string) : string := delete_from old O s.

(** Truthiness of a [str]. *)
Definition nonempty (s : string) : bool :=
  match s with EmptyString => false | String _ _ => true end.

(** [parts[-1]] of a non-empty list, [""] standing for the impossible
    empty case. *)
Definition last_part (parts : list string) : string :=
  List.last parts EmptyString.

Definition first_part (parts : list string) : string :=
  List.hd EmptyString parts.

End PyStr.

(** ** The fragment of Python's [re] the program uses *)

Module Re.
Import PyStr.

Inductive regex : Type :=
| Chr (c : ascii)               (* a literal character: [\.], [@], [1] ... *)
| Cls (p : ascii -> bool)       (* a character class: [[a-z]], [\d], [[^@]] *)
| Seq (r1 r2 : regex)           (* concatenation *)
| Alt (r1 r2 : regex)           (* [r1|r2] *)
| Plus (p : ascii -> bool)      (* [[...]+], greedy *)
| Bol                           (* [^] *)
| Eol.                          (* [$] *)

(** [$] matches at the end of the string and just before a final newline. *)
Definition at_eol (s : string) : bool :=
  match s with
  | EmptyString => true
  | String c EmptyString => Ascii.eqb c newline
  | _ => false
  end.

(** Greedy [[...]+]: take as many characters as possible, give them back
    one at a time while the continuation fails. *)
Fixpoint plus_loop {A} (p : ascii -> bool) (s : string)
         (k : string -> option A) : option A :=
  match s with
  | EmptyString => None
  | String c s' =>
      if p c then
        match plus_loop p s' k with
        | Some r => Some r
        | None => k s'
        end
      else None
  end.

(** Backtracking matcher in continuation-passing style.  [bol] tells
    whether the current position is the start of the subject string; the
    continuation receives that flag and the rest of the subject. *)
Fixpoint run {A} (r : regex) (bol : bool) (s : string)
         (k : bool -> string -> option A) : option A :=
  match r with
  | Chr c =>
      match s with
      | String a s' => if Ascii.eqb a c then k false s' else None
      | EmptyString => None
      end
  | Cls p =>
      match s with
      | String a s' => if p a then k false s' else None
      | EmptyString => None
      end
  | Seq r1 r2 => run r1 bol s (fun b s' => run r2 b s' k)
  | Alt r1 r2 =>
      match run r1 bol s k with
      | Some x => Some x
      | None => run r2 bol s k
      end
  | Plus p => plus_loop p s (k false)
  | Bol => if bol then k bol s else None
  | Eol => if at_eol s then k bol s else None
  end.

(** The text a match starting at the head of [s] consumed, if any. *)
Definition match_at (r : regex) (bol : bool) (s : string) : option string :=
  match run r bol s (fun _ rest => Some rest) with
  | Some rest => Some (take (String.length s - String.length rest) s)
  | None => None
  end.

(** [re.match(r, s)]: the match object's [group()], or [None]. *)
Definition match_ (r : regex) (s : string) : option string :=
  match_at r true s.

Fixpoint search_from (r : regex) (bol : bool) (s : string) : option string :=
  match match_at r bol s with
  | Some g => Some g
  | None =>
      match s with
      | EmptyString => None
      | String _ s' => search_from r false s'
      end
  end.

(** [re.search(r, s)]: the leftmost match's [group()], or [None]. *)
Definition search (r : regex) (s : string) : option string :=
  search_from r true s.

(** [re.sub(r, "", s)] for a pattern that never matches the empty string:
    every leftmost non-overlapping match is deleted. *)
Fixpoint sub_from (r : regex) (bol : bool) (skip : nat) (s : string) : string :=
  match s with
  | EmptyString => EmptyString
  | String c s' =>
      match skip with
      | S k => sub_from r false k s'
      | O =>
          match match_at r bol s with
          | Some g => sub_from r false (Nat.pred (String.length g)) s'
          | None => String c (sub_from r false O s')
          end
      end
  end.

Definition sub_empty (r : regex) (s : string) : string := sub_from r true O s.

(** Truthiness of a match object. *)
Definition matched (m : option string) : bool :=
  match m with Some _ => true | None => false end.

End Re.

(** ** Exceptions and mutable state *)

Module Exc.

(** What a call can do: return a value or raise an [Exception]. *)
Inductive outcome (A : Type) : Type :=
| Ret (a : A)
| Raise.
Arguments Ret {A} a.
Arguments Raise {A}.

(** A computation over mutable state [S]; the state survives a raise, as
    assignments made before an exception do. *)
Definition M (S A : Type) : Type := S -> outcome A * S.

Definition ret {S A} (a : A) : M S A := fun s => (Ret a, s).

Definition bind {S A B} (m : M S A) (f : A -> M S B) : M S B :=
  fun s =>
    match m s with
    | (Ret a, s') => f a s'
    | (Raise, s') => (Raise, s')
    end.

Definition raise {S A} : M S A := fun s => (Raise, s).

(** An outside call, or any expression that may raise. *)
Definition lift {S A} (o : outcome A) : M S A := fun s => (o, s).

Definition get {S} : M S S := fun s => (Ret s, s).
Definition modify {S} (f : S -> S) : M S unit := fun s => (Ret tt, f s).

(** [try: body except Exception: handler] *)
Definition try_except {S A} (body handler : M S A) : M S A :=
  fun s =>
    match body s with
    | (Ret a, s') => (Ret a, s')
    | (Raise, s') => handler s'
    end.

(** [if c: body] *)
Definition when {S} (c : bool) (body : M S unit) : M S unit :=
  if c then body else ret tt.

Definition eval {S A} (m : M S A) (s : S) : outcome A := fst (m s).
Definition exec {S A} (m : M S A) (s : S) : S := snd (m s).

End Exc.

Import Exc.

Declare Scope py_scope.
Delimit Scope py_scope with py.
Notation "x <- m ;; k" := (bind m (fun x => k))
  (at level 100, m at next level, right associativity) : py_scope.
Notation "m ;;; k" := (bind m (fun _ => k))
  (at level 100, right associativity) : py_scope.
Open Scope py_scope.

(** ** The outside world *)

(** A creation date as the WHOIS client hands it out: a parsed datetime
    (microseconds on the local clock) or the registrar's text left
    unparsed, from which [datetime.now()] cannot be subtracted. *)
Inductive date_value : Type :=
| Datetime (t : Z)
| Unparsed (s : string).

Inductive creation : Type :=
| NoDate                          (* [None] *)
| OneDate (d : date_value)
| DateList (l : list date_value).

Record whois_entry : Type := {
  creation_date : creation;
  org : option string;
  country : option string
}.

Inductive rdtype : Type := MX | TXT.

(** An HTTP response as the program looks at it: the status code, the body
    [text], and what the HTML parser makes of that body: the page's [title]
    ([None]: no title element; [Some None]: a title element whose [.string]
    is [None]; [Some (Some t)]: its text) and the stripped text of the first
    element with a given tag and class. *)
Record response : Type := {
  status_code : Z;
  text : string;
  soup_title : option (option string);
  soup_find : string -> string -> option string
}.

Record World : Type := {
  now : Z;                                        (* [datetime.now()] *)
  whois : string -> outcome whois_entry;          (* [whois.whois(domain)] *)
  resolve : string -> rdtype -> outcome (list string);
                                (* [dns.resolver.resolve], records as [str] *)
  http_get : string -> outcome response           (* [requests.get(url, ...)] *)
}.

Definition usec_per_day : Z := 86400000000.

(** Truthiness of [w.creation_date]. *)
Definition creation_truthy (c : creation) : bool :=
  match c with
  | NoDate => false
  | OneDate (Datetime _) => true
  | OneDate (Unparsed s) => PyStr.nonempty s
  | DateList l => match l with [] => false | _ :: _ => true end
  end.

(** [c[0] if isinstance(c, list) else c]; indexing an empty list raises. *)
Definition first_date (c : creation) : outcome (option date_value) :=
  match c with
  | NoDate => Ret None
  | OneDate d => Ret (Some d)
  | DateList [] => Raise
  | DateList (d :: _) => Ret (Some d)
  end.

(** [(datetime.now() - d).days]: whole days, rounded down; raises when [d]
    is not a datetime. *)
Definition days_since (now : Z) (d : option date_value) : outcome Z :=
  match d with
  | Some (Datetime t) => Ret ((now - t) / usec_per_day)
  | _ => Raise
  end.

(** ** The investigator object *)

Record SherlockMail : Type := {
  email : string;
  username : string;
  domain : string
}.

(** [email.split('@')[i]] *)
Definition split_at (e : string) (i : nat) : outcome string :=
  match nth_error (PyStr.split "@" e) i with
  | Some s => Ret s
  | None => Raise
  end.

(** The attributes [__init__] takes from the address: [self.email],
    [self.username] and [self.domain].  [split('@')[1]] raises when the
    address has no [@]. *)
Definition init (e : string) : outcome SherlockMail :=
  match split_at e 0, split_at e 1 with
  | Ret u, Ret d => Ret {| email := e; username := u; domain := d |}
  | _, _ => Raise
  end.

(** Sequencing of calls that may raise, outside any mutable state. *)
Definition and_then {A B} (o : outcome A) (k : A -> outcome B) : outcome B :=
  match o with
  | Ret a => k a
  | Raise => Raise
  end.

(** What [__init__] does next: it loads the sentiment pipeline and the
    spaCy model, and makes sure of two NLTK resources.  Every one of these
    calls reaches for files or the network and may raise. *)
Inductive lookup : Type :=
| Found            (* [nltk.data.find] returns *)
| LookupError      (* it raises [LookupError] *)
| OtherError.      (* it raises another exception *)

Record Loader : Type := {
  pipeline : string -> outcome unit;      (* [pipeline('sentiment-analysis')] *)
  spacy_load : string -> outcome unit;    (* [spacy.load('en_core_web_sm')] *)
  nltk_data_find : string -> lookup;      (* [nltk.data.find(resource)] *)
  nltk_download : string -> outcome unit  (* [nltk.download(package)] *)
}.

(** [try: nltk.data.find(resource)] / [except LookupError:
    nltk.download(package)] *)
Definition ensure_resource (l : Loader) (resource package : string)
  : outcome unit :=
  match nltk_data_find l resource with
  | Found => Ret tt
  | LookupError => nltk_download l package
  | OtherError => Raise
  end.

Definition load_models (l : Loader) : outcome unit :=
  and_then (pipeline l "sentiment-analysis") (fun _ =>
  and_then (spacy_load l "en_core_web_sm") (fun _ =>
  and_then (ensure_resource l "tokenizers/punkt" "punkt") (fun _ =>
  ensure_resource l "corpora/stopwords" "stopwords"))).

(** [SherlockMail(email)], the whole of [__init__]: the attributes, then
    the models. *)
Definition construct (l : Loader) (e : string) : outcome SherlockMail :=
  and_then (init e) (fun self =>
  and_then (load_models l) (fun _ => Ret self)).

Inductive level : Type := Low | Medium | High.

Definition level_name (l : level) : string :=
  match l with Low => "Low" | Medium => "Medium" | High => "High" end.

Definition level_rank (l : level) : Z :=
  match l with Low => 0 | Medium => 1 | High => 2 end.

Definition level_le (a b : level) : bool := level_rank a <=? level_rank b.

(** [str(n)] for an [int]. *)
Definition str_of_int (n : Z) : string :=
  NilZero.string_of_int (Z.to_int n).

Declare Scope re_scope.
Delimit Scope re_scope with re.
Infix ">>" := Re.Seq (at level 60, right associativity) : re_scope.

Import PyStr.

(** The class [[._-]]. *)
Definition is_separator (c : ascii) : bool :=
  Ascii.eqb c "." || Ascii.eqb c "_" || Ascii.eqb c "-".

(** The class [[a-zA-Z0-9._-]]. *)
Definition is_clean (c : ascii) : bool :=
  is_alpha c || is_digit c || is_separator c.

(** The class [[0-9_]]. *)
Definition is_digit_or_underscore (c : ascii) : bool :=
  is_digit c || Ascii.eqb c "_".

(** The class [[^@]]. *)
Definition not_at (c : ascii) : bool := negb (Ascii.eqb c "@").

(** [^[a-zA-Z]+\.[a-zA-Z]+] *)
Definition professional_email_pattern : Re.regex :=
  (Re.Bol >> Re.Plus is_alpha >> Re.Chr "." >> Re.Plus is_alpha)%re.

(** [^[a-zA-Z]+$] *)
Definition simple_email_pattern : Re.regex :=
  (Re.Bol >> Re.Plus is_alpha >> Re.Eol)%re.

(** [^[a-zA-Z0-9._-]+$] *)
Definition clean_pattern : Re.regex :=
  (Re.Bol >> Re.Plus is_clean >> Re.Eol)%re.

(** [(19|20)\d{2}] on ASCII text, where [\d] is [[0-9]]. *)
Definition year_pattern : Re.regex :=
  (Re.Alt (Re.Chr "1" >> Re.Chr "9") (Re.Chr "2" >> Re.Chr "0")
   >> Re.Cls is_digit >> Re.Cls is_digit)%re.

(** [[^@]+@[^@]+\.[^@]+] *)
Definition email_pattern : Re.regex :=
  (Re.Plus not_at >> Re.Chr "@" >> Re.Plus not_at >> Re.Chr "." >> Re.Plus not_at)%re.

(** ** [analyze_email_reputation] *)

Record reputation_state : Type := {
  reputation_score : Z;
  rep_factors : list string
}.

Record reputation : Type := {
  rep_score : Z;                 (* ["score"] *)
  rep_factor_list : list string; (* ["factors"] *)
  rep_risk_level : level         (* ["risk_level"] *)
}.

(** [reputation_score += n; factors.append(f)] *)
Definition add_reputation (n : Z) (f : string) : M reputation_state unit :=
  modify (fun st => {| reputation_score := reputation_score st + n;
                       rep_factors := rep_factors st ++ [f] |}).

(** The four [bool(re.search(...))] summed up. *)
Definition char_types (u : string) : Z :=
  Z.b2z (Re.matched (Re.search (Re.Cls is_lower) u)) +
  Z.b2z (Re.matched (Re.search (Re.Cls is_upper) u)) +
  Z.b2z (Re.matched (Re.search (Re.Cls is_digit) u)) +
  Z.b2z (Re.matched (Re.search (Re.Cls is_separator) u)).

Definition reputation_body (w : World) (self : SherlockMail)
  : M reputation_state reputation :=
  (* Domain age factor *)
  try_except
    (e <- lift (whois w (domain self));;
     when (creation_truthy (creation_date e))
       (created <- lift (first_date (creation_date e));;
        domain_age <- lift (days_since (now w) created);;
        when (domain_age >? 365)
          (add_reputation 20
             ("Domain age: " +:+ str_of_int domain_age +:+ " days"))))
    (ret tt);;;
  (* Email pattern factor *)
  (if Re.matched (Re.match_ professional_email_pattern (username self))
   then add_reputation 15 "Professional email pattern"
   else when (Re.matched (Re.match_ simple_email_pattern (username self)))
          (add_reputation 10 "Simple email pattern"));;;
  (* Length factor *)
  when ((6 <=? len (username self)) && (len (username self) <=? 24))
    (add_reputation 10 "Appropriate length");;;
  (* Character variety *)
  add_reputation (char_types (username self) * 5)
    ("Character variety: " +:+ str_of_int (char_types (username self))
       +:+ " types");;;
  st <- get;;
  ret {| rep_score := Z.min (reputation_score st) 100;
         rep_factor_list := rep_factors st;
         rep_risk_level :=
           if reputation_score st >? 70 then Low
           else if reputation_score st >? 40 then Medium
           else High |}.

Definition analyze_email_reputation (w : World) (self : SherlockMail)
  : outcome reputation :=
  eval (reputation_body w self) {| reputation_score := 0; rep_factors := [] |}.

(** ** [analyze_professional_score] *)

Record professional_state : Type := {
  prof_score_acc : Z;
  prof_factors_acc : list string
}.

Record professional : Type := {
  prof_score : Z;
  prof_factors : list string;
  prof_level : level
}.

Definition add_professional (n : Z) (f : string) : M professional_state unit :=
  modify (fun st => {| prof_score_acc := prof_score_acc st + n;
                       prof_factors_acc := prof_factors_acc st ++ [f] |}).

Definition professional_domains : list string :=
  ["gmail.com"; "outlook.com"; "yahoo.com"; "icloud.com"].

Definition professional_body (self : SherlockMail)
  : M professional_state professional :=
  (* Check for full name pattern *)
  when (has_char "." (username self))
    (let parts := split "." (username self) in
     when ((Nat.eqb (List.length parts) 2)
           && forallb (fun p => len p >? 2) parts)
       (add_professional 25 "Full name format (firstname.lastname)"));;;
  (* Check for common professional domains *)
  when (existsb (String.eqb (domain self)) professional_domains)
    (add_professional 15 ("Professional domain (" +:+ domain self +:+ ")"));;;
  (* Check for length appropriateness *)
  when ((6 <=? len (username self)) && (len (username self) <=? 30))
    (add_professional 10 "Appropriate length");;;
  (* Check for clean formatting *)
  when (Re.matched (Re.match_ clean_pattern (username self)))
    (add_professional 15 "Clean character usage");;;
  (* Check for no numbers in username *)
  when (negb (any_char is_digit (username self)))
    (add_professional 15 "No numeric characters");;;
  st <- get;;
  ret {| prof_score := prof_score_acc st;
         prof_factors := prof_factors_acc st;
         prof_level :=
           if prof_score_acc st >=? 70 then High
           else if prof_score_acc st >=? 40 then Medium
           else Low |}.

Definition analyze_professional_score (self : SherlockMail)
  : outcome professional :=
  eval (professional_body self) {| prof_score_acc := 0; prof_factors_acc := [] |}.

(** ** [analyze_security_risks] *)

Record security_state : Type := {
  risks : list string;
  risk_level : level
}.

Record security : Type := {
  sec_risks : list string;
  sec_level : level;
  sec_recommendations : list string
}.

(** The texts of the risks. *)
Definition risk_short_username : string := "Short username (easier to guess)".
Definition risk_contains_numbers : string :=
  "Contains numbers (potential birth year/date)".
Definition risk_full_name : string :=
  "Contains full name (potential privacy concern)".
Definition risk_young_domain : string := "Domain less than 1 year old".
Definition risk_unverified_domain : string := "Unable to verify domain age".

Definition add_risk (r : string) : M security_state unit :=
  modify (fun st => {| risks := risks st ++ [r]; risk_level := risk_level st |}).

Definition set_level (l : level) : M security_state unit :=
  modify (fun st => {| risks := risks st; risk_level := l |}).

Definition rule_short_username (self : SherlockMail) : M security_state unit :=
  when (len (username self) <? 6)
    (add_risk risk_short_username;;; set_level Medium).

Definition rule_contains_numbers (self : SherlockMail) : M security_state unit :=
  when (any_char is_digit (username self))
    (add_risk risk_contains_numbers).

Definition rule_full_name (self : SherlockMail) : M security_state unit :=
  when (has_char "." (username self))
    (add_risk risk_full_name;;; set_level Medium).

(** The [try] block on the domain's age with its [except] clause. *)
Definition rule_domain_age (w : World) (self : SherlockMail)
  : M security_state unit :=
  try_except
    (e <- lift (whois w (domain self));;
     when (creation_truthy (creation_date e))
       (created <- lift (first_date (creation_date e));;
        domain_age <- lift (days_since (now w) created);;
        when (domain_age <? 365)
          (add_risk risk_young_domain;;; set_level High)))
    (add_risk risk_unverified_domain;;; set_level Medium).

(** The rules in the order the function runs them. *)
Definition security_rules (w : World) (self : SherlockMail)
  : list (M security_state unit) :=
  [rule_short_username self; rule_contains_numbers self;
   rule_full_name self; rule_domain_age w self].

Fixpoint sequence_ {S} (ms : list (M S unit)) : M S unit :=
  match ms with
  | [] => ret tt
  | m :: rest => m;;; sequence_ rest
  end.

Definition security_body (w : World) (self : SherlockMail)
  : M security_state security :=
  sequence_ (security_rules w self);;;
  st <- get;;
  ret {| sec_risks := risks st;
         sec_level := risk_level st;
         sec_recommendations :=
           match risks st with
           | _ :: _ =>
               ["Use 2FA where available";
                "Avoid using personal information in email";
                "Consider using an email alias for public services"]
           | [] => ["Good security practices detected"]
           end |}.

Definition security_init : security_state := {| risks := []; risk_level := Low |}.

Definition analyze_security_risks (w : World) (self : SherlockMail)
  : outcome security :=
  eval (security_body w self) security_init.

(** The value of [risk_level] at the start and after each rule, along the
    run of [analyze_security_risks]. *)
Fixpoint levels_after (ms : list (M security_state unit)) (st : security_state)
  : list level :=
  match ms with
  | [] => []
  | m :: rest => risk_level (exec m st) :: levels_after rest (exec m st)
  end.

Definition security_levels (w : World) (self : SherlockMail) : list level :=
  Low :: levels_after (security_rules w self) security_init.

(** The level the rule behind a flag assigns ([None]: the rule leaves the
    level alone). *)
Definition demanded_level (flag : string) : option level :=
  if String.eqb flag risk_short_username then Some Medium
  else if String.eqb flag risk_full_name then Some Medium
  else if String.eqb flag risk_young_domain then Some High
  else if String.eqb flag risk_unverified_domain then Some Medium
  else None.

(** ** [analyze_personal_info]: basic information *)

Record basic_state : Type := {
  possible_birth_year : option string;   (* [basic_info["possible_birth_year"]] *)
  name_parts : list string
}.

(** One turn of the loop over [username_parts]. *)
Definition scan_part (st : basic_state) (part : string) : basic_state :=
  let year_match := Re.search year_pattern part in
  let birth_year :=
    match year_match with
    | Some y => Some y
    | None => possible_birth_year st
    end in
  let part :=
    match year_match with
    | Some y => delete_all y part
    | None => part
    end in
  let cleaned_part := Re.sub_empty (Re.Cls is_digit_or_underscore) part in
  {| possible_birth_year := birth_year;
     name_parts :=
       if nonempty cleaned_part
       then name_parts st ++ [capitalize cleaned_part]
       else name_parts st |}.

Record possible_name : Type := {
  pn_first : string;          (* ["first"] *)
  pn_last : option string;    (* ["last"] *)
  pn_full : string            (* ["full"] *)
}.

Record basic_info : Type := {
  birth_year : option string;
  fragments : list string;
  name_guess : option possible_name   (* [basic_info["possible_name"]] *)
}.

Definition derive_basic_info (self : SherlockMail) : basic_info :=
  let username_parts := split "." (username self) in
  let st :=
    if (1 <=? List.length username_parts)%nat
    then fold_left scan_part username_parts
           {| possible_birth_year := None; name_parts := [] |}
    else {| possible_birth_year := None; name_parts := [] |} in
  {| birth_year := possible_birth_year st;
     fragments := name_parts st;
     name_guess :=
       match name_parts st with
       | [] => None
       | _ :: _ =>
           Some {| pn_first := first_part (name_parts st);
                   pn_last := if (1 <? List.length (name_parts st))%nat
                           then Some (last_part (name_parts st)) else None;
                   pn_full := join " " (name_parts st) |}
       end |}.

(** ** [analyze_personal_info]: social profile discovery *)

(** [template if len(username_parts) > 1 else None] *)
Definition if_many (parts : list string) (url : string) : option string :=
  if (1 <? List.length parts)%nat then Some url else None.

Definition social_platforms (self : SherlockMail)
  : list (string * list (option string)) :=
  let u := username self in
  let parts := split "." u in
  let p0 := first_part parts in
  let pl := last_part parts in
  [ ("LinkedIn",
      [ Some ("https://www.linkedin.com/in/" +:+ u);
        Some ("https://www.linkedin.com/in/" +:+ join "-" parts);
        if_many parts ("https://www.linkedin.com/in/" +:+ p0 +:+ "-" +:+ pl) ]);
    ("Twitter",
      [ Some ("https://twitter.com/" +:+ u);
        if_many parts ("https://twitter.com/" +:+ p0 +:+ "_" +:+ pl) ]);
    ("GitHub",
      [ Some ("https://github.com/" +:+ u);
        if_many parts ("https://github.com/" +:+ p0 +:+ pl) ]);
    ("Instagram",
      [ Some ("https://www.instagram.com/" +:+ u);
        if_many parts ("https://www.instagram.com/" +:+ p0 +:+ "_" +:+ pl) ]);
    ("Medium",
      [ Some ("https://medium.com/@" +:+ u);
        if_many parts ("https://medium.com/@" +:+ p0 +:+ "." +:+ pl) ]);
    ("Dev.to",
      [ Some ("https://dev.to/" +:+ u);
        if_many parts ("https://dev.to/" +:+ p0 +:+ pl) ]);
    ("Stack Overflow",
      [ Some ("https://stackoverflow.com/users/" +:+ u);
        if_many parts ("https://stackoverflow.com/users/" +:+ join "-" parts) ]);
    ("Behance",
      [ Some ("https://www.behance.net/" +:+ u);
        if_many parts ("https://www.behance.net/" +:+ p0 +:+ pl) ]);
    ("Dribbble",
      [ Some ("https://dribbble.com/" +:+ u);
        if_many parts ("https://dribbble.com/" +:+ p0 +:+ pl) ]);
    ("Facebook",
      [ Some ("https://www.facebook.com/" +:+ u);
        if_many parts ("https://www.facebook.com/" +:+ join "." parts) ]);
    ("YouTube",
      [ Some ("https://www.youtube.com/@" +:+ u);
        if_many parts ("https://www.youtube.com/@" +:+ p0 +:+ pl) ]);
    ("Reddit",
      [ Some ("https://www.reddit.com/user/" +:+ u);
        if_many parts ("https://www.reddit.com/user/" +:+ p0 +:+ "_" +:+ pl) ]);
    ("Kaggle",
      [ Some ("https://www.kaggle.com/" +:+ u);
        if_many parts ("https://www.kaggle.com/" +:+ p0 +:+ pl) ]);
    ("PyPI",
      [ Some ("https://pypi.org/user/" +:+ u);
        if_many parts ("https://pypi.org/user/" +:+ p0 +:+ pl) ]) ].

(** The dictionary [personal_info["social_profiles"]], each profile itself
    a dictionary of strings, together with the URLs handed to
    [requests.get] so far, oldest first. *)
Record probe_state : Type := {
  social_profiles : gmap string (gmap string string);
  requested : list string
}.

Definition negative_markers : list string :=
  ["not found"; "error"; "404"; "page doesn't exist"].

(** [soup.title.string if soup.title else ""]; [None] is Python's [None]. *)
Definition page_title (r : response) : option string :=
  match soup_title r with
  | None => Some EmptyString
  | Some t => t
  end.

(** [title.lower()] raises on [None]. *)
Definition title_lower (title : option string) : outcome string :=
  match title with
  | Some t => Ret (lower t)
  | None => Raise
  end.

(** [if element: profile[key] = element.text.strip()] *)
Definition set_field (key : string) (element : option string)
           (profile : gmap string string) : gmap string string :=
  match element with
  | Some text => <[key := text]> profile
  | None => profile
  end.

(** Platform-specific data extraction. *)
Definition extract (platform : string) (r : response)
           (profile : gmap string string) : gmap string string :=
  if String.eqb platform "GitHub" then
    set_field "bio" (soup_find r "div" "p-note user-profile-bio")
      (set_field "contributions" (soup_find r "h2" "f4 text-normal mb-2")
         (set_field "repos" (soup_find r "span" "Counter") profile))
  else if String.eqb platform "LinkedIn" then
    set_field "location"
      (soup_find r "span" "text-body-small inline t-black--light break-words")
      (set_field "headline" (soup_find r "div" "text-body-medium") profile)
  else if String.eqb platform "Twitter" then
    set_field "bio" (soup_find r "div" "bio")
      (set_field "followers" (soup_find r "span" "followers-count") profile)
  else profile.

Definition found_profile (self : SherlockMail) (platform url title : string)
           (r : response) : gmap string string :=
  extract platform r
    (<["title" := title]>
       (<["username" := username self]>
          (<["status" := "Found"]> (<["url" := url]> ∅)))).

Definition log_request (url : string) : M probe_state unit :=
  modify (fun st => {| social_profiles := social_profiles st;
                       requested := requested st ++ [url] |}).

Definition set_profile (platform : string) (p : gmap string string)
  : M probe_state unit :=
  modify (fun st => {| social_profiles := <[platform := p]> (social_profiles st);
                       requested := requested st |}).

(** How the body of a [for] loop ends. *)
Inductive control : Type := Next | Break.

(** The [try] statement inside the loop over a platform's URLs. *)
Definition probe_url (w : World) (self : SherlockMail) (platform url : string)
  : M probe_state control :=
  try_except
    (log_request url;;;
     response <- lift (http_get w url);;
     if status_code response =? 200 then
       let title := page_title response in
       lowered <- lift (title_lower title);;
       if negb (existsb (fun term => contains term lowered) negative_markers)
       then
         set_profile platform
           (found_profile self platform url (default EmptyString title) response);;;
         ret Break
       else ret Next
     else ret Next)
    (ret Next).

(** [for url in urls: if url is None: continue ...] *)
Fixpoint for_urls {S} (body : string -> M S control) (urls : list (option string))
  : M S unit :=
  match urls with
  | [] => ret tt
  | None :: rest => for_urls body rest
  | Some url :: rest =>
      c <- body url;;
      match c with
      | Break => ret tt
      | Next => for_urls body rest
      end
  end.

Fixpoint for_platforms {S} (body : string -> list (option string) -> M S unit)
         (platforms : list (string * list (option string))) : M S unit :=
  match platforms with
  | [] => ret tt
  | (platform, urls) :: rest => body platform urls;;; for_platforms body rest
  end.

Definition discover_profiles (w : World) (self : SherlockMail)
  : M probe_state unit :=
  for_platforms (fun platform urls => for_urls (probe_url w self platform) urls)
    (social_platforms self).

Definition probe_init : probe_state :=
  {| social_profiles := ∅; requested := [] |}.

(** ** [analyze_personal_info]: domain analysis *)

(** The dictionary [dns_info]; a field is [None] while its key is absent.
    [spf_record] and [dmarc_record] hold a record or Python's [None]. *)
Record dns_info : Type := {
  mx_records : option (list string);
  txt_records : option (list string);
  spf_record : option (option string);
  dmarc_record : option (option string)
}.

Definition dns_empty : dns_info :=
  {| mx_records := None; txt_records := None;
     spf_record := None; dmarc_record := None |}.

Definition set_mx (v : list string) : M dns_info unit :=
  modify (fun d => {| mx_records := Some v; txt_records := txt_records d;
                      spf_record := spf_record d; dmarc_record := dmarc_record d |}).
Definition set_txt (v : list string) : M dns_info unit :=
  modify (fun d => {| mx_records := mx_records d; txt_records := Some v;
                      spf_record := spf_record d; dmarc_record := dmarc_record d |}).
Definition set_spf (v : option string) : M dns_info unit :=
  modify (fun d => {| mx_records := mx_records d; txt_records := txt_records d;
                      spf_record := Some v; dmarc_record := dmarc_record d |}).
Definition set_dmarc (v : option string) : M dns_info unit :=
  modify (fun d => {| mx_records := mx_records d; txt_records := txt_records d;
                      spf_record := spf_record d; dmarc_record := Some v |}).

(** [next((r for r in records if marker in r), None)] *)
Definition next_containing (marker : string) (records : list string)
  : option string :=
  List.find (contains marker) records.

(** [bool(dns_info.get(key))] for a key holding a record or [None]. *)
Definition truthy_record (v : option (option string)) : bool :=
  match v with
  | Some (Some r) => nonempty r
  | _ => false
  end.

Record email_security : Type := {
  has_spf : bool;
  has_dmarc : bool;
  mx_providers : list string
}.

Inductive domain_analysis : Type :=
| DomainInfo (name : string)
             (created : option date_value)   (* the value rendered by [str] *)
             (organization country : option string)
             (dns : dns_info)
             (security : email_security)
| DomainError (name : string) (error : string).

(** DNS records analysis: the three lookups with their handlers. *)
Definition dns_records_analysis (w : World) (domain : string) : M dns_info unit :=
  try_except
    (mx <- lift (resolve w domain MX);; set_mx mx)
    (set_mx []);;;
  try_except
    (txt <- lift (resolve w domain TXT);;
     set_txt txt;;;
     (* Check for SPF and DMARC *)
     set_spf (next_containing "v=spf1" txt);;;
     try_except
       (dmarc <- lift (resolve w ("_dmarc." +:+ domain) TXT);;
        set_dmarc (next_containing "v=DMARC1" dmarc))
       (set_dmarc None))
    (set_txt []).

Definition domain_body (w : World) (domain : string) : M dns_info domain_analysis :=
  try_except
    (domain_info <- lift (whois w domain);;
     dns_records_analysis w domain;;;
     dns <- get;;
     created <- lift (first_date (creation_date domain_info));;
     ret (DomainInfo domain created (org domain_info) (country domain_info) dns
            {| has_spf := truthy_record (spf_record dns);
               has_dmarc := truthy_record (dmarc_record dns);
               mx_providers := default [] (mx_records dns) |}))
    (ret (DomainError domain "Could not fetch domain information")).

(** The "Enhanced domain analysis" block for a given domain. *)
Definition analyze_domain (w : World) (domain : string) : outcome domain_analysis :=
  eval (domain_body w domain) dns_empty.

(** [email_security.get('has_spf')], as the report reads it. *)
Definition reported_spf (d : domain_analysis) : bool :=
  match d with
  | DomainInfo _ _ _ _ _ sec => has_spf sec
  | DomainError _ _ => false
  end.

Definition reported_dmarc (d : domain_analysis) : bool :=
  match d with
  | DomainInfo _ _ _ _ _ sec => has_dmarc sec
  | DomainError _ _ => false
  end.

(** ** [analyze_personal_info] as a whole *)

Record personal_info : Type := {
  pi_basic_info : basic_info;
  pi_social_profiles : gmap string (gmap string string);
  pi_domain_analysis : domain_analysis;
  pi_breach_urls : list string;
  pi_tech_urls : list string
}.

Definition breach_urls (self : SherlockMail) : list string :=
  [ "https://haveibeenpwned.com/account/" +:+ email self;
    "https://ghostproject.fr/search/" +:+ email self;
    "https://dehashed.com/search?query=" +:+ email self;
    "https://intelx.io/?s=" +:+ email self;
    "https://leakcheck.io/search?query=" +:+ email self ].

Definition tech_urls (self : SherlockMail) : list string :=
  [ "https://npm.io/~" +:+ username self;
    "https://rubygems.org/profiles/" +:+ username self;
    "https://hub.docker.com/u/" +:+ username self;
    "https://wordpress.org/support/users/" +:+ username self;
    "https://gitlab.com/" +:+ username self ].

Definition analyze_personal_info (w : World) (self : SherlockMail)
  : outcome personal_info :=
  let basic := derive_basic_info self in
  match discover_profiles w self probe_init with
  | (Raise, _) => Raise
  | (Ret _, probes) =>
      match split_at (email self) 1 with
      | Raise => Raise
      | Ret domain =>
          match analyze_domain w domain with
          | Raise => Raise
          | Ret analysis =>
              Ret {| pi_basic_info := basic;
                     pi_social_profiles := social_profiles probes;
                     pi_domain_analysis := analysis;
                     pi_breach_urls := breach_urls self;
                     pi_tech_urls := tech_urls self |}
          end
      end
  end.

(** ** [analyze_social_footprint] *)

Record footprint_entry : Type := {
  fp_found : bool;
  fp_url : option string;
  fp_status : string
}.

(** [visibility_score] is kept in tenths of a point, so that the 12.5 each
    platform adds is the integer 125. *)
Record footprint : Type := {
  fp_platforms : gmap string footprint_entry;
  visibility_score : Z;
  fp_risk_level : level;
  fp_recommendations : list string
}.

Definition footprint_platforms (self : SherlockMail) : list (string * string) :=
  [ ("GitHub", "https://api.github.com/search/users?q=" +:+ email self);
    ("LinkedIn", "https://www.linkedin.com/pub/dir/?email=" +:+ email self);
    ("Twitter", "https://twitter.com/" +:+ username self);
    ("Instagram", "https://www.instagram.com/" +:+ username self);
    ("Facebook", "https://www.facebook.com/" +:+ username self);
    ("Medium", "https://medium.com/@" +:+ username self);
    ("Dev.to", "https://dev.to/" +:+ username self);
    ("Stack Overflow", "https://stackoverflow.com/users/" +:+ username self) ].

Definition set_entry (platform : string) (e : footprint_entry) : M footprint unit :=
  modify (fun f => {| fp_platforms := <[platform := e]> (fp_platforms f);
                      visibility_score := visibility_score f;
                      fp_risk_level := fp_risk_level f;
                      fp_recommendations := fp_recommendations f |}).

Definition add_visibility (n : Z) : M footprint unit :=
  modify (fun f => {| fp_platforms := fp_platforms f;
                      visibility_score := visibility_score f + n;
                      fp_risk_level := fp_risk_level f;
                      fp_recommendations := fp_recommendations f |}).

Definition rate_visibility (l : level) (r : string) : M footprint unit :=
  modify (fun f => {| fp_platforms := fp_platforms f;
                      visibility_score := visibility_score f;
                      fp_risk_level := l;
                      fp_recommendations := fp_recommendations f ++ [r] |}).

Definition check_platform (w : World) (platform url : string) : M footprint unit :=
  try_except
    (response <- lift (http_get w url);;
     when (status_code response =? 200)
       (set_entry platform
          {| fp_found := true; fp_url := Some url; fp_status := "Active" |};;;
        add_visibility 125))
    (set_entry platform
       {| fp_found := false; fp_url := None;
          fp_status := "Not found or private" |}).

Fixpoint for_each {S A} (body : A -> M S unit) (l : list A) : M S unit :=
  match l with
  | [] => ret tt
  | x :: rest => body x;;; for_each body rest
  end.

Definition footprint_body (w : World) (self : SherlockMail) : M footprint footprint :=
  for_each (fun p => check_platform w (fst p) (snd p)) (footprint_platforms self);;;
  f <- get;;
  (* Calculate risk level based on visibility *)
  (if visibility_score f >=? 750
   then rate_visibility High "Consider reducing public social media presence"
   else if visibility_score f >=? 500
   then rate_visibility Medium "Review privacy settings on social media"
   else rate_visibility (fp_risk_level f) "Good privacy practices detected");;;
  get.

Definition footprint_init : footprint :=
  {| fp_platforms := ∅; visibility_score := 0;
     fp_risk_level := Low; fp_recommendations := [] |}.

Definition analyze_social_footprint (w : World) (self : SherlockMail)
  : outcome footprint :=
  eval (footprint_body w self) footprint_init.

(** ** [main] *)

(** How [main] ends: [sys.exit(code)], handing the investigator built from
    the e-mail to [run_investigation], or an exception out of the
    constructor, which nothing catches. *)
Inductive main_result : Type :=
| SysExit (code : Z)
| RunInvestigation (investigator : SherlockMail)
| Uncaught.

(** [argv] is [sys.argv], program name included. *)
Definition main (l : Loader) (argv : list string) : main_result :=
  if negb (Nat.eqb (List.length argv) 2) then SysExit 1
  else
    let email := nth 1 argv EmptyString in
    if negb (Re.matched (Re.match_ email_pattern email)) then SysExit 1
    else
      match construct l email with
      | Ret investigator => RunInvestigation investigator
      | Raise => Uncaught
      end.

(** The status the process ends with: the argument of [sys.exit], 1 after
    an [Exception] that nothing catches, 0 when [main] returns.
    [investigate] is the call [investigator.run_investigation()], which
    returns or raises; [main] has no handler around it, nor around the
    constructor. *)
Definition exit_status (l : Loader) (investigate : SherlockMail -> outcome unit)
           (argv : list string) : Z :=
  match main l argv with
  | SysExit code => code
  | Uncaught => 1
  | RunInvestigation investigator =>
      match investigate investigator with
      | Ret _ => 0
      | Raise => 1
      end
  end.


(** ** Proof tools *)

Ltac unfold_monad :=
  unfold bind, ret, lift, raise, try_except, when, modify, get, eval, exec in *.

(** The tests of the scoring functions, turned into variables to case on. *)
Ltac abstract_professional_tests self :=
  generalize (existsb (String.eqb (domain self)) professional_domains);
  generalize ((6 <=? len (username self)) && (len (username self) <=? 30));
  generalize (Re.matched (Re.match_ clean_pattern (username self))).

Ltac abstract_security_tests w self :=
  generalize (len (username self) <? 6);
  generalize (any_char is_digit (username self));
  generalize (has_char "." (username self)).

(** ** Plain-language counterparts used in the statements *)

(** The longest prefix of [s] made of [p]-characters, and what follows. *)
Fixpoint span (p : ascii -> bool) (s : string) : string * string :=
  match s with
  | EmptyString => (EmptyString, EmptyString)
  | String c s' =>
      if p c then (String c (fst (span p s')), snd (span p s'))
      else (EmptyString, s)
  end.

(** [s] ends with the character [c]. *)
Fixpoint ends_with (c : ascii) (s : string) : bool :=
  match s with
  | EmptyString => false
  | String a EmptyString => Ascii.eqb a c
  | String _ s' => ends_with c s'
  end.

(** A username shaped like [first.last...]: letters, a dot, a letter. *)
Definition two_fragment_shape (u : string) : bool :=
  nonempty (fst (span is_alpha u)) &&
  match snd (span is_alpha u) with
  | String d (String c _) => Ascii.eqb d "." && is_alpha c
  | _ => false
  end.

(** A username that is one word of letters. *)
Definition single_alpha_token (u : string) : bool :=
  nonempty u && all_chars is_alpha u.

(** The domain's age in whole days, when the WHOIS answer yields one: the
    lookup returned, a creation date is there and it is a datetime. *)
Definition known_domain_age (w : World) (d : string) : option Z :=
  match whois w d with
  | Ret e =>
      if creation_truthy (creation_date e) then
        match first_date (creation_date e) with
        | Ret created =>
            match days_since (now w) created with
            | Ret age => Some age
            | Raise => None
            end
        | Raise => None
        end
      else None
  | Raise => None
  end.

(** How many of the classes lowercase, uppercase, digit and separator occur
    in [u]. *)
Definition class_count (u : string) : Z :=
  Z.b2z (any_char is_lower u) + Z.b2z (any_char is_upper u) +
  Z.b2z (any_char is_digit u) + Z.b2z (any_char is_separator u).

(** The reputation total in the words of the specification. *)
Definition reputation_formula (w : World) (self : SherlockMail) : Z :=
  0
  + match known_domain_age w (domain self) with
    | Some age => if age >? 365 then 20 else 0
    | None => 0
    end
  + (if two_fragment_shape (username self) then 15
     else if single_alpha_token (username self) then 10 else 0)
  + (if (6 <=? len (username self)) && (len (username self) <=? 24)
     then 10 else 0)
  + 5 * class_count (username self).

(** The level as the specification reads it off the total ... *)
Definition claimed_reputation_level (total : Z) : level :=
  if total >? 70 then High else if total >? 40 then Medium else Low.

(** ... and the risk level the program reports for it. *)
Definition reputation_risk_level (total : Z) : level :=
  if total >? 70 then Low else if total >? 40 then Medium else High.

Definition reputation_init : reputation_state :=
  {| reputation_score := 0; rep_factors := [] |}.

(** [reputation_score] when the function reaches its [return]. *)
Definition reputation_total (w : World) (self : SherlockMail) : Z :=
  reputation_score (exec (reputation_body w self) reputation_init).

(** The same total with the program's own tests. *)
Definition reputation_sum (w : World) (self : SherlockMail) : Z :=
  match known_domain_age w (domain self) with
  | Some age => if age >? 365 then 20 else 0
  | None => 0
  end
  + (if Re.matched (Re.match_ professional_email_pattern (username self)) then 15
     else if Re.matched (Re.match_ simple_email_pattern (username self)) then 10
     else 0)
  + (if (6 <=? len (username self)) && (len (username self) <=? 24)
     then 10 else 0)
  + char_types (username self) * 5.

(** A world without network: every outside call raises. *)
Definition offline : World :=
  {| now := 0;
     whois := fun _ => Raise;
     resolve := fun _ _ => Raise;
     http_get := fun _ => Raise |}.

(** The investigator for [user@host], as [__init__] builds it. *)
Definition investigator (user host : string) : SherlockMail :=
  {| email := user +:+ "@" +:+ host; username := user; domain := host |}.

(** "Exactly two fragments, each longer than 2 characters", on the name
    fragments of the identity ... *)
Definition identity_full_name_format (self : SherlockMail) : bool :=
  let parts := fragments (derive_basic_info self) in
  Nat.eqb (List.length parts) 2 && forallb (fun p => len p >? 2) parts.

(** ... and on the raw pieces of the username between dots. *)
Definition raw_full_name_format (self : SherlockMail) : bool :=
  let parts := split "." (username self) in
  Nat.eqb (List.length parts) 2 && forallb (fun p => len p >? 2) parts.

(** The professional score in the words of the specification, for a given
    reading of the full-name test. *)
Definition professional_formula (full_name : bool) (self : SherlockMail) : Z :=
  (if full_name then 25 else 0)
  + (if existsb (String.eqb (domain self)) professional_domains then 15 else 0)
  + (if (6 <=? len (username self)) && (len (username self) <=? 30)
     then 10 else 0)
  + (if nonempty (username self) && all_chars is_clean (username self)
     then 15 else 0)
  + (if any_char is_digit (username self) then 0 else 15).

Definition professional_level (score : Z) : level :=
  if score >=? 70 then High else if score >=? 40 then Medium else Low.

Definition professional_init : professional_state :=
  {| prof_score_acc := 0; prof_factors_acc := [] |}.

(** The factors list, rule by rule. *)
Definition professional_factor_list (self : SherlockMail) : list string :=
  (if raw_full_name_format self
   then ["Full name format (firstname.lastname)"] else [])
  ++ (if existsb (String.eqb (domain self)) professional_domains
      then ["Professional domain (" +:+ domain self +:+ ")"] else [])
  ++ (if (6 <=? len (username self)) && (len (username self) <=? 30)
      then ["Appropriate length"] else [])
  ++ (if Re.matched (Re.match_ clean_pattern (username self))
      then ["Clean character usage"] else [])
  ++ (if any_char is_digit (username self)
      then [] else ["No numeric characters"]).

(** What the [try] block on the domain's age comes to. *)
Inductive age_verdict : Type :=
| Young         (* the age is known and below 365 days *)
| Unverified    (* the lookup, or the reading of its date, raised *)
| Settled.      (* no creation date, or an age of 365 days or more *)

Definition domain_age_verdict (w : World) (d : string) : age_verdict :=
  match whois w d with
  | Ret e =>
      if creation_truthy (creation_date e) then
        match first_date (creation_date e) with
        | Ret created =>
            match days_since (now w) created with
            | Ret age => if age <? 365 then Young else Settled
            | Raise => Unverified
            end
        | Raise => Unverified
        end
      else Settled
  | Raise => Unverified
  end.

(** The risks in the order their rules fire. *)
Definition security_risk_list (w : World) (self : SherlockMail) : list string :=
  (if len (username self) <? 6 then [risk_short_username] else [])
  ++ (if any_char is_digit (username self) then [risk_contains_numbers] else [])
  ++ (if has_char "." (username self) then [risk_full_name] else [])
  ++ match domain_age_verdict w (domain self) with
     | Young => [risk_young_domain]
     | Unverified => [risk_unverified_domain]
     | Settled => []
     end.

(** The highest level a fired rule asks for. *)
Definition security_level_of (w : World) (self : SherlockMail) : level :=
  match domain_age_verdict w (domain self) with
  | Young => High
  | Unverified => Medium
  | Settled =>
      if (len (username self) <? 6) || has_char "." (username self)
      then Medium else Low
  end.

(** A list of levels that never goes down. *)
Fixpoint nondecreasing (ls : list level) : bool :=
  match ls with
  | a :: (b :: _) as rest => level_le a b && nondecreasing rest
  | _ => true
  end.

(** Every flag's rule is honoured by the level [l]. *)
Definition honours (l : level) (flag : string) : bool :=
  match demanded_level flag with
  | Some d => level_le d l
  | None => true
  end.

(** The records a lookup hands over, with the empty default of its handler. *)
Definition records_or_empty (o : outcome (list string)) : list string :=
  match o with
  | Ret l => l
  | Raise => []
  end.

(** [dns_info] once the three lookups have run: each with its own default,
    the DMARC lookup made only under a TXT lookup that returned. *)
Definition dns_outcome (w : World) (d : string) : dns_info :=
  {| mx_records := Some (records_or_empty (resolve w d MX));
     txt_records := Some (records_or_empty (resolve w d TXT));
     spf_record :=
       match resolve w d TXT with
       | Ret txt => Some (next_containing "v=spf1" txt)
       | Raise => None
       end;
     dmarc_record :=
       match resolve w d TXT with
       | Ret _ =>
           match resolve w ("_dmarc." +:+ d) TXT with
           | Ret recs => Some (next_containing "v=DMARC1" recs)
           | Raise => Some None
           end
       | Raise => None
       end |}.

Definition security_outcome (w : World) (d : string) : email_security :=
  {| has_spf := truthy_record (spf_record (dns_outcome w d));
     has_dmarc := truthy_record (dmarc_record (dns_outcome w d));
     mx_providers := records_or_empty (resolve w d MX) |}.

(** The DNS part of a domain analysis, when it has one. *)
Definition dns_fields (a : domain_analysis) : option dns_info :=
  match a with
  | DomainInfo _ _ _ _ dns _ => Some dns
  | DomainError _ _ => None
  end.

(** DNS answers for [example.com]: one mail exchanger, an SPF policy, and
    no [_dmarc] name. *)
Definition example_dns (name : string) (t : rdtype) : outcome (list string) :=
  if String.eqb name "example.com" then
    match t with
    | MX => Ret ["0 mail.example.com."]
    | TXT => Ret ["v=spf1 include:_spf.example.com ~all"]
    end
  else Raise.

(** WHOIS is unreachable, DNS answers. *)
Definition whois_down : World :=
  {| now := 0;
     whois := fun _ => Raise;
     resolve := example_dns;
     http_get := fun _ => Raise |}.

(** WHOIS answers with a creation date 1000 days back, DNS answers. *)
Definition whois_up : World :=
  {| now := 1000 * usec_per_day;
     whois := fun _ => Ret {| creation_date := DateList [Datetime 0; Datetime 5];
                              org := Some "Example Org";
                              country := Some "US" |};
     resolve := example_dns;
     http_get := fun _ => Raise |}.

(** The test a response has to pass to count as a profile: status 200 and
    a title text (empty when the page has no title element) that, in lower
    case, contains none of the negative markers. *)
Definition is_profile_page (r : response) : bool :=
  (status_code r =? 200) &&
  match page_title r with
  | Some t => negb (existsb (fun term => contains term (lower t)) negative_markers)
  | None => false
  end.

(** The response that makes [url] a positive match, if the request returns
    one. *)
Definition positive_match (w : World) (url : string) : option response :=
  match http_get w url with
  | Ret r => if is_profile_page r then Some r else None
  | Raise => None
  end.

(** The candidate URLs of a platform, in declared order: the entries of its
    list that are not [None]. *)
Definition candidates (urls : list (option string)) : list string :=
  omap id urls.

(** The profile recorded for a matching candidate. *)
Definition profile_of (self : SherlockMail) (platform url : string) (r : response)
  : gmap string string :=
  found_profile self platform url (default EmptyString (page_title r)) r.

(** The first positive match among candidates, in order. *)
Fixpoint first_match (w : World) (cands : list string) : option (string * response) :=
  match cands with
  | [] => None
  | u :: rest =>
      match positive_match w u with
      | Some r => Some (u, r)
      | None => first_match w rest
      end
  end.

(** The candidates that get requested: all up to and including the first
    positive match. *)
Fixpoint tried (w : World) (cands : list string) : list string :=
  match cands with
  | [] => []
  | u :: rest =>
      match positive_match w u with
      | Some _ => [u]
      | None => u :: tried w rest
      end
  end.

(** A page with the given status, body and title, and no other element the
    program looks for. *)
Definition page (status : Z) (body : string) (title : option (option string))
  : response :=
  {| status_code := status; text := body;
     soup_title := title; soup_find := fun _ _ => None |}.

(** The profile test as the specification words it: status 200, and none
    of the negative markers in the page's title or body. *)
Definition claimed_profile_page (r : response) : bool :=
  (status_code r =? 200) &&
  negb (existsb
          (fun term =>
             contains term (lower (default EmptyString (page_title r)))
             || contains term (lower (text r)))
          negative_markers).

Definition profile_html : string :=
  "<html><head><title>Profile</title></head><body></body></html>".

Definition missing_html : string :=
  "<html><head><title>Not Found</title></head><body></body></html>".

Definition error_link_html : string :=
  "<html><head><title>John Doe</title></head><body><a>Report an error</a></body></html>".

(** Every URL answers 200 with a page titled "John Doe" whose body has a
    link "Report an error". *)
Definition error_in_body : World :=
  {| now := 0;
     whois := fun _ => Raise;
     resolve := fun _ _ => Raise;
     http_get := fun _ => Ret (page 200 error_link_html (Some (Some "John Doe"))) |}.

(** Every URL answers 200 with the title "Profile". *)
Definition all_found : World :=
  {| now := 0;
     whois := fun _ => Raise;
     resolve := fun _ _ => Raise;
     http_get := fun _ => Ret (page 200 profile_html (Some (Some "Profile"))) |}.

(** Every URL answers 404. *)
Definition all_missing : World :=
  {| now := 0;
     whois := fun _ => Raise;
     resolve := fun _ _ => Raise;
     http_get := fun _ => Ret (page 404 missing_html (Some (Some "Not Found"))) |}.

(** What [analyze_personal_info] leaves in [social_profiles]. *)
Definition discovered (w : World) (self : SherlockMail)
  : gmap string (gmap string string) :=
  social_profiles (exec (discover_profiles w self) probe_init).

(** The platform names of a catalog, in order. *)
Definition platform_names {A} (catalog : list (string * A)) : list string :=
  map fst catalog.

(** The entry [analyze_social_footprint] writes for a request that raised. *)
Definition not_found_entry : footprint_entry :=
  {| fp_found := false; fp_url := None; fp_status := "Not found or private" |}.

Definition active_entry (url : string) : footprint_entry :=
  {| fp_found := true; fp_url := Some url; fp_status := "Active" |}.

(** What one platform's check leaves under its name. *)
Definition checked_entry (w : World) (url : string) (before : option footprint_entry)
  : option footprint_entry :=
  match http_get w url with
  | Ret r => if status_code r =? 200 then Some (active_entry url) else before
  | Raise => Some not_found_entry
  end.

(** The footprint after one platform's check. *)
Definition footprint_after (w : World) (platform url : string) (f : footprint)
  : footprint :=
  match http_get w url with
  | Ret r =>
      if status_code r =? 200 then
        {| fp_platforms := <[platform := active_entry url]> (fp_platforms f);
           visibility_score := visibility_score f + 125;
           fp_risk_level := fp_risk_level f;
           fp_recommendations := fp_recommendations f |}
      else f
  | Raise =>
      {| fp_platforms := <[platform := not_found_entry]> (fp_platforms f);
         visibility_score := visibility_score f;
         fp_risk_level := fp_risk_level f;
         fp_recommendations := fp_recommendations f |}
  end.

(** The footprint after the loop over the platforms. *)
Definition footprint_checked (w : World) (self : SherlockMail) : footprint :=
  fold_left (fun f p => footprint_after w (fst p) (snd p) f)
    (footprint_platforms self) footprint_init.

(** A birth year: 19 or 20 followed by two digits. *)
Definition is_birth_year (y : string) : bool :=
  match y with
  | String a (String b (String c (String d EmptyString))) =>
      ((Ascii.eqb a "1" && Ascii.eqb b "9") || (Ascii.eqb a "2" && Ascii.eqb b "0"))
      && is_digit c && is_digit d
  | _ => false
  end.

(** The leftmost birth year written in [s]. *)
Fixpoint first_year (s : string) : option string :=
  if is_birth_year (take 4 s) then Some (take 4 s)
  else match s with
       | EmptyString => None
       | String _ s' => first_year s'
       end.

(** The name fragment a piece of the username gives: its birth year, if it
    has one, is deleted wherever it occurs, digits and underscores are
    dropped, and what is left, unless empty, is capitalised. *)
Definition name_fragment (part : string) : option string :=
  let part :=
    match first_year part with
    | Some y => delete_all y part
    | None => part
    end in
  let cleaned := filter_chars (fun c => negb (is_digit_or_underscore c)) part in
  if nonempty cleaned then Some (capitalize cleaned) else None.

(** The birth years of the pieces of the username between dots, in order. *)
Definition fragment_years (u : string) : list string :=
  omap first_year (split "." u).

(** The birth year as the specification has it: the first match across
    fragments ... *)
Definition claimed_birth_year (u : string) : option string :=
  head (fragment_years u).

(** ... and the one the loop is left with: the last. *)
Definition kept_birth_year (u : string) : option string :=
  last (fragment_years u).

Definition basic_init : basic_state :=
  {| possible_birth_year := None; name_parts := [] |}.

(** The text of [e] before its first [@] ... *)
Definition local_part (e : string) : string := fst (span not_at e).

(** ... what follows that [@] ... *)
Definition after_at (e : string) : string :=
  match snd (span not_at e) with
  | EmptyString => EmptyString
  | String _ rest => rest
  end.

(** ... and the text between the first [@] and the second, or the end. *)
Definition host_part (e : string) : string := fst (span not_at (after_at e)).

(** The pattern can only end a match sooner, never look at the end of the
    string: it has no [$]. *)
Fixpoint eol_free (r : Re.regex) : bool :=
  match r with
  | Re.Seq r1 r2 | Re.Alt r1 r2 => eol_free r1 && eol_free r2
  | Re.Eol => false
  | _ => true
  end.

Definition accepted (e : string) : bool :=
  Re.matched (Re.match_ email_pattern e).

(** A text without [@]. *)
Definition at_free (s : string) : Prop := has_char "@" s = false.

(** The addresses the specification lets through, in words: some text, an
    [@], some text, a dot, some text, the three texts non-empty and without
    [@]; then anything at all. *)
Definition address_prefix (e : string) : Prop :=
  exists user host tld rest,
    e = user +:+ "@" +:+ host +:+ "." +:+ tld +:+ rest /\
    nonempty user = true /\ at_free user /\
    nonempty host = true /\ at_free host /\
    nonempty tld = true /\ at_free tld.

(** One of the two NLTK resources cannot be had. *)
Definition resource_fails (l : Loader) (resource package : string) : Prop :=
  nltk_data_find l resource = OtherError \/
  (nltk_data_find l resource = LookupError /\ nltk_download l package = Raise).

(** Everything is installed. *)
Definition ready : Loader :=
  {| pipeline := fun _ => Ret tt;
     spacy_load := fun _ => Ret tt;
     nltk_data_find := fun _ => Found;
     nltk_download := fun _ => Ret tt |}.

(** The spaCy model [en_core_web_sm] is not installed. *)
Definition missing_model : Loader :=
  {| pipeline := fun _ => Ret tt;
     spacy_load := fun _ => Raise;
     nltk_data_find := fun _ => Found;
     nltk_download := fun _ => Ret tt |}.

(** The NLTK resources are missing and cannot be downloaded. *)
Definition no_network : Loader :=
  {| pipeline := fun _ => Ret tt;
     spacy_load := fun _ => Ret tt;
     nltk_data_find := fun _ => LookupError;
     nltk_download := fun _ => Raise |}.


(** ** The language models and parsers behind the text analysis *)

(** A Python [float] that is a number: [mantissa * 2 ^ exponent]. *)
Record py_float : Type := { mantissa : Z; exponent : Z }.

Definition float_zero : py_float := {| mantissa := 0; exponent := 0 |}.

(** One result of the sentiment pipeline. *)
Record sentiment : Type := {
  sent_label : string;     (* ["label"] *)
  sent_score : py_float    (* ["score"] *)
}.

(** A named entity of a parsed document. *)
Record entity : Type := {
  ent_text : string;       (* [ent.text] *)
  ent_label : string       (* [ent.label_] *)
}.

Record document : Type := {
  ents : list entity;      (* [doc.ents] *)
  lang_ : string           (* [doc.lang_] *)
}.

(** One item of a GitHub user search; a field is [None] when its key is
    missing. *)
Record search_item : Type := {
  item_login : option string;
  item_html_url : option string;
  item_type : option string
}.

(** The JSON object of a GitHub user search. *)
Record search_result : Type := {
  total_count : option Z;
  items : option (list search_item)
}.

Record Models : Type := {
  nlp : string -> outcome document;                  (* [self.nlp(text)] *)
  sentiment_analyzer : string -> outcome (list sentiment);
  stopwords_english : outcome (list string);         (* [stopwords.words('english')] *)
  word_tokenize : string -> outcome (list string);
  tfidf_features : string -> outcome (list string);
      (* [TfidfVectorizer(max_features=10)] fitted on one document, then
         [get_feature_names_out()] *)
  get_text : response -> string;   (* [soup.get_text(separator=' ', strip=True)] *)
  json : response -> outcome search_result           (* [response.json()] *)
}.

(** ** [analyze_name_patterns] *)

Record name_info : Type := {
  entities : list entity;          (* text and type of each kept entity *)
  possible_names : list string;
  language_pattern : string
}.

(** [s.replace('.', ' ')] *)
Definition dots_to_spaces (s : string) : string :=
  map_chars (fun c => if Ascii.eqb c "." then " "%char else c) s.

(** [s.isalpha()] of an ASCII string. *)
Definition isalpha (s : string) : bool := nonempty s && all_chars is_alpha s.

Definition keep_entity (acc : list entity) (ent : entity) : list entity :=
  if existsb (String.eqb (ent_label ent)) ["PERSON"; "ORG"]
  then acc ++ [ent] else acc.

Definition keep_name (acc : list string) (part : string) : list string :=
  if isalpha part && (len part >? 2) then acc ++ [part] else acc.

Definition analyze_name_patterns (m : Models) (self : SherlockMail)
  : outcome name_info :=
  and_then (nlp m (dots_to_spaces (username self))) (fun doc =>
  Ret {| entities := fold_left keep_entity (ents doc) [];
         possible_names := fold_left keep_name (split "." (username self)) [];
         language_pattern := lang_ doc |}).

(** ** [analyze_content_sentiment] *)

Definition unknown_sentiment : sentiment :=
  {| sent_label := "UNKNOWN"; sent_score := float_zero |}.

(** [result[0]] raises on an empty list; the handler covers both calls. *)
Definition analyze_content_sentiment (m : Models) (text : string) : sentiment :=
  match sentiment_analyzer m text with
  | Ret (first :: _) => first
  | Ret [] => unknown_sentiment
  | Raise => unknown_sentiment
  end.

(** ** [extract_keywords] *)

Definition is_keyword (stop_words : list string) (w : string) : bool :=
  negb (existsb (String.eqb w) stop_words) && (len w >? 2).

Definition extract_keywords (m : Models) (text : string) : outcome (list string) :=
  and_then (stopwords_english m) (fun stop_words =>
  and_then (word_tokenize m (lower text)) (fun word_tokens =>
  (* Filter out stop words and short terms *)
  let keywords := List.filter (is_keyword stop_words) word_tokens in
  (* Use TF-IDF to find important terms *)
  match tfidf_features m (join " " keywords) with
  | Ret feature_names => Ret feature_names
  | Raise => Ret (firstn 10 keywords)
  end)).

(** ** [analyze_social_presence] *)

Definition presence_platforms (self : SherlockMail) : list (string * list string) :=
  [ ("Twitter",
      [ "https://twitter.com/" +:+ username self;
        "https://twitter.com/search?q=" +:+ email self ]);
    ("Instagram", [ "https://www.instagram.com/" +:+ username self ]);
    ("LinkedIn",
      [ "https://www.linkedin.com/search/results/all/?keywords=" +:+ email self ]);
    ("GitHub",
      [ "https://github.com/" +:+ username self;
        "https://api.github.com/search/users?q=" +:+ email self ]);
    ("Medium", [ "https://medium.com/@" +:+ username self ]) ].

Record profile_data : Type := {
  pf_username : string;
  pf_profile : string;
  pf_type : string
}.

(** The dictionary [platform_data]; [pd_sentiment] is [None] while it is
    the empty dictionary, [pd_errors] tells whether the key ["errors"] has
    been set (to the text of some exception). *)
Record platform_data : Type := {
  pd_urls : list string;
  pd_sentiment : option sentiment;
  pd_keywords : list string;
  pd_profile_data : option profile_data;
  pd_errors : bool
}.

Definition platform_data_init : platform_data :=
  {| pd_urls := []; pd_sentiment := None; pd_keywords := [];
     pd_profile_data := None; pd_errors := false |}.

Definition append_url (url : string) : M platform_data unit :=
  modify (fun d => {| pd_urls := pd_urls d ++ [url];
                      pd_sentiment := pd_sentiment d;
                      pd_keywords := pd_keywords d;
                      pd_profile_data := pd_profile_data d;
                      pd_errors := pd_errors d |}).

Definition set_sentiment (s : sentiment) : M platform_data unit :=
  modify (fun d => {| pd_urls := pd_urls d;
                      pd_sentiment := Some s;
                      pd_keywords := pd_keywords d;
                      pd_profile_data := pd_profile_data d;
                      pd_errors := pd_errors d |}).

Definition set_keywords (k : list string) : M platform_data unit :=
  modify (fun d => {| pd_urls := pd_urls d;
                      pd_sentiment := pd_sentiment d;
                      pd_keywords := k;
                      pd_profile_data := pd_profile_data d;
                      pd_errors := pd_errors d |}).

Definition set_profile_data (p : profile_data) : M platform_data unit :=
  modify (fun d => {| pd_urls := pd_urls d;
                      pd_sentiment := pd_sentiment d;
                      pd_keywords := pd_keywords d;
                      pd_profile_data := Some p;
                      pd_errors := pd_errors d |}).

Definition set_errors : M platform_data unit :=
  modify (fun d => {| pd_urls := pd_urls d;
                      pd_sentiment := pd_sentiment d;
                      pd_keywords := pd_keywords d;
                      pd_profile_data := pd_profile_data d;
                      pd_errors := true |}).

(** [d[key]] on a dictionary read from JSON. *)
Definition subscript {A} (v : option A) : outcome A :=
  match v with
  | Some a => Ret a
  | None => Raise
  end.

(** The body of [for item in data['items']]. *)
Definition record_item (item : search_item) : M platform_data unit :=
  login <- lift (subscript (item_login item));;
  html_url <- lift (subscript (item_html_url item));;
  type <- lift (subscript (item_type item));;
  set_profile_data
    {| pf_username := login; pf_profile := html_url; pf_type := type |}.

(** The [try] statement inside the loop over a platform's URLs. *)
Definition visit_url (m : Models) (w : World) (platform url : string)
  : M platform_data unit :=
  try_except
    (response <- lift (http_get w url);;
     when (status_code response =? 200)
       (append_url url;;;
        (* Extract text content *)
        let text_content := get_text m response in
        (* Analyze content *)
        set_sentiment (analyze_content_sentiment m (take 512 text_content));;;
        keywords <- lift (extract_keywords m text_content);;
        set_keywords keywords;;;
        (* Special handling for GitHub *)
        when (String.eqb platform "GitHub" && contains "api" url)
          (data <- lift (json m response);;
           when (default 0 (total_count data) >? 0)
             (items <- lift (subscript (items data));;
              for_each record_item items))))
    set_errors.

(** One platform: its URLs are visited in order, and its data kept when
    [platform_data["urls"]] is not empty. *)
Definition visit_platform (m : Models) (w : World)
           (social_analysis : gmap string platform_data) (p : string * list string)
  : outcome (gmap string platform_data) :=
  match for_each (visit_url m w (fst p)) (snd p) platform_data_init with
  | (Ret _, platform_data) =>
      Ret match pd_urls platform_data with
          | _ :: _ => <[fst p := platform_data]> social_analysis
          | [] => social_analysis
          end
  | (Raise, _) => Raise
  end.

Fixpoint visit_platforms (m : Models) (w : World)
         (platforms : list (string * list string))
         (social_analysis : gmap string platform_data)
  : outcome (gmap string platform_data) :=
  match platforms with
  | [] => Ret social_analysis
  | p :: rest =>
      and_then (visit_platform m w social_analysis p) (visit_platforms m w rest)
  end.

Definition analyze_social_presence (m : Models) (w : World) (self : SherlockMail)
  : outcome (gmap string platform_data) :=
  visit_platforms m w (presence_platforms self) ∅.

(** ** [run_investigation]: the loop over the tasks *)

Inductive task_result : Type :=
| NameResult (n : name_info)
| ReputationResult (r : reputation)
| SocialResult (s : gmap string platform_data)
| PersonalResult (p : personal_info).

(** [len(result)]: every result is a dictionary; the name and reputation
    dictionaries have three keys, the personal one seven, the social one a
    key per platform kept. *)
Definition dict_len (r : task_result) : Z :=
  match r with
  | NameResult _ => 3
  | ReputationResult _ => 3
  | SocialResult s => Z.of_nat (size s)
  | PersonalResult _ => 7
  end.

Record run_state : Type := {
  results : gmap string task_result;   (* [self.results] *)
  stat_sources : Z;                    (* [stats["sources"]] *)
  stat_patterns : Z;                   (* [stats["patterns"]] *)
  stat_confidence : Z                  (* [stats["confidence"]] *)
}.

Definition run_init : run_state :=
  {| results := ∅; stat_sources := 0; stat_patterns := 0; stat_confidence := 0 |}.

(** The body of the [try] for one task; [str_lines] counts the pieces of
    [str(result).split('\n')]. *)
Definition record_result (str_lines : task_result -> Z) (desc : string)
           (result : task_result) : M run_state unit :=
  modify (fun st =>
    {| results := <[desc := result]> (results st);
       stat_sources := stat_sources st + dict_len result;
       stat_patterns := stat_patterns st + str_lines result;
       stat_confidence := Z.min 100 (stat_confidence st + 33) |}).

Definition run_task (str_lines : task_result -> Z)
           (t : string * outcome task_result) : M run_state unit :=
  try_except
    (result <- lift (snd t);;
     record_result str_lines (fst t) result)
    (ret tt).

(** [f(x)] wrapped into a task result. *)
Definition as_task {A} (wrap : A -> task_result) (o : outcome A)
  : outcome task_result :=
  and_then o (fun a => Ret (wrap a)).

(** The four tasks; the descriptions are kept byte for byte. *)
Definition tasks (m : Models) (w : World) (self : SherlockMail)
  : list (string * outcome task_result) :=
  [ ("🧠 Analyzing name patterns...",
      as_task NameResult (analyze_name_patterns m self));
    ("⭐ Calculating reputation score...",
      as_task ReputationResult (analyze_email_reputation w self));
    ("🌐 Investigating social presence...",
      as_task SocialResult (analyze_social_presence m w self));
    ("👥 Gathering personal information...",
      as_task PersonalResult (analyze_personal_info w self)) ].

Definition run_tasks (m : Models) (str_lines : task_result -> Z)
           (w : World) (self : SherlockMail) : M run_state unit :=
  for_each (run_task str_lines) (tasks m w self).

(** ** [create_detailed_report] *)

Record detailed_report : Type := {
  dr_email : string;
  dr_username : string;
  dr_domain : string;
  dr_timestamp : Z;
  dr_professional_score : professional;
  dr_security_analysis : security;
  dr_social_footprint : footprint;
  dr_name_analysis : name_info;
  dr_reputation : reputation;
  dr_tool_version : string
}.

Definition create_detailed_report (m : Models) (w : World) (self : SherlockMail)
  : outcome detailed_report :=
  and_then (analyze_professional_score self) (fun professional_score =>
  and_then (analyze_security_risks w self) (fun security_analysis =>
  and_then (analyze_social_footprint w self) (fun social_footprint =>
  and_then (analyze_name_patterns m self) (fun name_analysis =>
  and_then (analyze_email_reputation w self) (fun reputation =>
  Ret {| dr_email := email self;
         dr_username := username self;
         dr_domain := domain self;
         dr_timestamp := now w;
         dr_professional_score := professional_score;
         dr_security_analysis := security_analysis;
         dr_social_footprint := social_footprint;
         dr_name_analysis := name_analysis;
         dr_reputation := reputation;
         dr_tool_version := "1.0.0" |}))))).


(** ** Further notions used in the statements *)

(** Goes through the entries of a literal catalog, dropping those whose
    name differs. *)
Ltac catalog_cases H :=
  repeat (destruct H as [H|H]; [try discriminate H|]); [|destruct H].

Ltac abstract_reputation_tests self :=
  generalize (Re.matched (Re.match_ professional_email_pattern (username self)));
  generalize (Re.matched (Re.match_ simple_email_pattern (username self)));
  generalize ((6 <=? len (username self)) && (len (username self) <=? 24)).

(** The URLs handed to [requests.get] by [analyze_personal_info]. *)
Definition requests_made (w : World) (self : SherlockMail) : list string :=
  requested (exec (discover_profiles w self) probe_init).

(** The request to [url] returns with status 200. *)
Definition answers_200 (w : World) (url : string) : bool :=
  match http_get w url with
  | Ret r => status_code r =? 200
  | Raise => false
  end.

(** A small set of models: no entity found, English, one positive
    sentiment, tokens cut at spaces are not available, so the keyword
    tools raise. *)
Definition plain_models : Models :=
  {| nlp := fun _ => Ret {| ents := []; lang_ := "en" |};
     sentiment_analyzer :=
       fun _ => Ret [{| sent_label := "POSITIVE";
                        sent_score := {| mantissa := 1; exponent := 0 |} |}];
     stopwords_english := Ret ["the"; "and"];
     word_tokenize := fun _ => Ret ["the"; "quick"; "brown"; "fox"; "and"; "me"];
     tfidf_features := fun _ => Raise;
     get_text := fun r => text r;
     json := fun _ => Raise |}.

(** Models whose parser raises. *)
Definition broken_models : Models :=
  {| nlp := fun _ => Raise;
     sentiment_analyzer := fun _ => Raise;
     stopwords_english := Raise;
     word_tokenize := fun _ => Raise;
     tfidf_features := fun _ => Raise;
     get_text := fun r => text r;
     json := fun _ => Raise |}.

(** How many platforms of [analyze_social_footprint] answer 200. *)
Definition active_count (w : World) (self : SherlockMail) : Z :=
  Z.of_nat (List.length (List.filter (fun p => answers_200 w (snd p))
                           (footprint_platforms self))).

(** The factors of the reputation, rule by rule. *)
Definition reputation_factor_list (w : World) (self : SherlockMail) : list string :=
  match known_domain_age w (domain self) with
  | Some age =>
      if age >? 365
      then ["Domain age: " +:+ str_of_int age +:+ " days"] else []
  | None => []
  end
  ++ (if Re.matched (Re.match_ professional_email_pattern (username self))
      then ["Professional email pattern"]
      else if Re.matched (Re.match_ simple_email_pattern (username self))
      then ["Simple email pattern"] else [])
  ++ (if (6 <=? len (username self)) && (len (username self) <=? 24)
      then ["Appropriate length"] else [])
  ++ ["Character variety: " +:+ str_of_int (char_types (username self))
        +:+ " types"].

(** The recommendations that go with a list of risks. *)
Definition recommendations_for (risks : list string) : list string :=
  match risks with
  | _ :: _ =>
      ["Use 2FA where available";
       "Avoid using personal information in email";
       "Consider using an email alias for public services"]
  | [] => ["Good security practices detected"]
  end.

(** A WHOIS service that knows every domain as created at time 0, seen at
    day [days]. *)
Definition aged (days : Z) : World :=
  {| now := days * usec_per_day;
     whois := fun _ => Ret {| creation_date := OneDate (Datetime 0);
                              org := None; country := None |};
     resolve := fun _ _ => Raise;
     http_get := fun _ => Raise |}.

(** A WHOIS service that answers with an empty list of creation dates. *)
Definition dateless : World :=
  {| now := 0;
     whois := fun _ => Ret {| creation_date := DateList [];
                              org := None; country := None |};
     resolve := fun _ _ => Raise;
     http_get := fun _ => Raise |}.

(** A piece of the username with its digits and underscores dropped. *)
Definition stripped (part : string) : string :=
  filter_chars (fun c => negb (is_digit_or_underscore c)) part.

(** The name fragment a piece gives when nothing but that stripping and the
    capitalisation is done. *)
Definition plain_fragment (part : string) : option string :=
  if nonempty (stripped part) then Some (capitalize (stripped part)) else None.

(** The guess [possible_name] built from the name fragments. *)
Definition name_of_fragments (parts : list string) : option possible_name :=
  match parts with
  | [] => None
  | _ :: _ =>
      Some {| pn_first := first_part parts;
              pn_last := if (1 <? List.length parts)%nat
                         then Some (last_part parts) else None;
              pn_full := join " " parts |}
  end.

(** Digits, underscores and dots: the characters that leave no trace in
    the name fragments. *)
Definition is_nameless (c : ascii) : bool :=
  is_digit_or_underscore c || Ascii.eqb c ".".

(** * Properties *)

(** ** Strings, character classes and patterns in plain terms *)

Lemma append_cons (c : ascii) (a b : string) :
  String c a +:+ b = String c (a +:+ b).
Proof. reflexivity. Qed.

Lemma append_nil_l (a : string) : EmptyString +:+ a = a.
Proof. reflexivity. Qed.

Lemma search_class (p : ascii -> bool) (s : string) (b : bool) :
  Re.matched (Re.search_from (Re.Cls p) b s) = any_char p s.
Proof.
  revert b; induction s as [|c s IH]; intros b; simpl.
  - reflexivity.
  - unfold Re.match_at; simpl. destruct (p c); simpl; [reflexivity|apply IH].
Qed.

Lemma span_app p s : fst (span p s) +:+ snd (span p s) = s.
Proof.
  induction s as [|c s IH]; simpl; [reflexivity|].
  destruct (p c); simpl; [|reflexivity].
  now rewrite append_cons, IH.
Qed.

Lemma span_all p s : all_chars p (fst (span p s)) = true.
Proof.
  induction s as [|c s IH]; simpl; [reflexivity|].
  destruct (p c) eqn:E; simpl; [now rewrite E|reflexivity].
Qed.

(** A greedy run followed by something that cannot start with a character
    of the class: giving characters back never helps, only the full run
    counts. *)
Lemma plus_loop_stop {A} p s (k : string -> option A) :
  (forall c t, p c = true -> k (String c t) = None) ->
  Re.plus_loop p s k =
    if nonempty (fst (span p s)) then k (snd (span p s)) else None.
Proof.
  intros Hk. induction s as [|c s IH]; simpl; [reflexivity|].
  destruct (p c) eqn:E; simpl; [|reflexivity].
  rewrite IH. destruct s as [|c' s']; simpl; [reflexivity|].
  destruct (p c') eqn:E'; simpl.
  - rewrite (Hk _ _ E'). now destruct (k (snd (span p s'))).
  - reflexivity.
Qed.

Lemma span_none p s : fst (span p s) = EmptyString -> snd (span p s) = s.
Proof.
  destruct s as [|c s]; simpl; [reflexivity|].
  destruct (p c); simpl; [discriminate|reflexivity].
Qed.

(** A greedy run followed by something that never fails keeps the full run. *)
Lemma plus_loop_greedy {A} p s (k : string -> option A) :
  (forall t, k t <> None) ->
  Re.plus_loop p s k =
    if nonempty (fst (span p s)) then k (snd (span p s)) else None.
Proof.
  intros Hk. induction s as [|c s IH]; simpl; [reflexivity|].
  destruct (p c) eqn:E; simpl; [|reflexivity].
  rewrite IH. destruct (fst (span p s)) eqn:Ef; simpl.
  - now rewrite (span_none _ _ Ef).
  - destruct (k (snd (span p s))) eqn:Ek; [reflexivity|]. now apply Hk in Ek.
Qed.

Lemma all_chars_span p s : all_chars p s = negb (nonempty (snd (span p s))).
Proof.
  induction s as [|c s IH]; simpl; [reflexivity|].
  destruct (p c); simpl; [apply IH|reflexivity].
Qed.

Lemma nonempty_span_all p s :
  all_chars p s = true -> nonempty (fst (span p s)) = nonempty s.
Proof.
  destruct s as [|c s]; simpl; [reflexivity|].
  destruct (p c); simpl; [reflexivity|discriminate].
Qed.

Lemma ends_with_span p c s :
  nonempty (snd (span p s)) = true ->
  ends_with c s = ends_with c (snd (span p s)).
Proof.
  induction s as [|a s IH]; simpl; [reflexivity|].
  destruct (p a) eqn:E; simpl; [|reflexivity].
  intros H. rewrite <- (IH H). destruct s; [discriminate H|reflexivity].
Qed.

(** Without a final line feed, [$] is the end of the string. *)
Lemma at_eol_span p s :
  ends_with newline s = false ->
  Re.at_eol (snd (span p s)) = negb (nonempty (snd (span p s))).
Proof.
  intros H. destruct (snd (span p s)) as [|a t] eqn:E; [reflexivity|].
  rewrite (ends_with_span p) in H by now rewrite E.
  rewrite E in H. simpl in *. destruct t; [exact H|reflexivity].
Qed.

(** [^[...]+$] in plain terms: a non-empty run of class characters up to
    the end of the line. *)
Lemma anchored_run_match p s :
  p newline = false ->
  Re.matched (Re.match_ (Re.Bol >> Re.Plus p >> Re.Eol)%re s) =
    nonempty (fst (span p s)) && Re.at_eol (snd (span p s)).
Proof.
  intros Hp. unfold Re.match_, Re.match_at. simpl.
  rewrite plus_loop_stop.
  - destruct (nonempty _); [|reflexivity]. simpl.
    now destruct (Re.at_eol _).
  - intros c t Hc. destruct t; [|reflexivity]. simpl.
    destruct (Ascii.eqb_spec c newline) as [->|]; [congruence|reflexivity].
Qed.

Lemma anchored_run_plain p s :
  p newline = false ->
  ends_with newline s = false ->
  Re.matched (Re.match_ (Re.Bol >> Re.Plus p >> Re.Eol)%re s) =
    nonempty s && all_chars p s.
Proof.
  intros Hp Hs. rewrite anchored_run_match by exact Hp.
  rewrite (at_eol_span p s Hs), all_chars_span.
  destruct (nonempty (snd (span p s))) eqn:E; simpl.
  - now rewrite !andb_false_r.
  - rewrite !andb_true_r. apply nonempty_span_all.
    now rewrite all_chars_span, E.
Qed.

Lemma professional_pattern_plain u :
  Re.matched (Re.match_ professional_email_pattern u) = two_fragment_shape u.
Proof.
  unfold Re.match_, Re.match_at, professional_email_pattern, two_fragment_shape.
  simpl. rewrite plus_loop_stop.
  - destruct (nonempty _); [|reflexivity]. simpl.
    destruct (snd (span is_alpha u)) as [|d t]; [reflexivity|].
    destruct (Ascii.eqb d "."); [|now destruct t]. simpl.
    rewrite plus_loop_greedy by discriminate.
    destruct t as [|c t]; [reflexivity|]. simpl.
    now destruct (is_alpha c).
  - intros c t Hc. destruct (Ascii.eqb_spec c "."); [subst; discriminate Hc|reflexivity].
Qed.

Lemma simple_pattern_plain u :
  ends_with newline u = false ->
  Re.matched (Re.match_ simple_email_pattern u) = single_alpha_token u.
Proof. intros H. now apply anchored_run_plain. Qed.

Lemma clean_pattern_plain u :
  ends_with newline u = false ->
  Re.matched (Re.match_ clean_pattern u) = nonempty u && all_chars is_clean u.
Proof. intros H. now apply anchored_run_plain. Qed.

(** ** Reputation *)

Lemma char_types_plain u : char_types u = class_count u.
Proof. unfold char_types, class_count, Re.search. now rewrite !search_class. Qed.

Lemma class_count_bounds u : 0 <= class_count u <= 4.
Proof.
  unfold class_count.
  destruct (any_char is_lower u), (any_char is_upper u),
    (any_char is_digit u), (any_char is_separator u); simpl; lia.
Qed.

(** The run of [analyze_email_reputation]: it always reaches its [return],
    with the sum of the four contributions as total. *)
Lemma reputation_body_run w self :
  exists fs,
    reputation_body w self reputation_init =
      (Ret {| rep_score := Z.min (reputation_sum w self) 100;
              rep_factor_list := fs;
              rep_risk_level := reputation_risk_level (reputation_sum w self) |},
       {| reputation_score := reputation_sum w self; rep_factors := fs |}).
Proof.
  unfold reputation_body, reputation_sum, known_domain_age, add_reputation,
    reputation_risk_level, reputation_init.
  unfold_monad.
  destruct (whois w (domain self)) as [e|]; simpl;
    [destruct (creation_truthy (creation_date e)); simpl;
     [destruct (first_date (creation_date e)) as [cd|]; simpl;
      [destruct (days_since (now w) cd) as [age|]; simpl;
       [destruct (age >? 365); simpl|]|]|]|];
    destruct (Re.matched (Re.match_ professional_email_pattern (username self)));
    simpl;
    try destruct (Re.matched (Re.match_ simple_email_pattern (username self)));
    simpl;
    destruct ((6 <=? len (username self)) && (len (username self) <=? 24));
    simpl; eexists; reflexivity.
Qed.

Lemma reputation_sum_bound w self : reputation_sum w self <= 65.
Proof.
  unfold reputation_sum. rewrite char_types_plain.
  pose proof (class_count_bounds (username self)).
  destruct (known_domain_age w (domain self)) as [age|];
    [destruct (age >? 365)|];
    destruct (Re.matched (Re.match_ professional_email_pattern (username self)));
    try destruct (Re.matched (Re.match_ simple_email_pattern (username self)));
    destruct ((6 <=? len (username self)) && (len (username self) <=? 24));
    lia.
Qed.

Lemma reputation_sum_formula w self :
  ends_with newline (username self) = false ->
  reputation_sum w self = reputation_formula w self.
Proof.
  intros H. unfold reputation_sum, reputation_formula.
  rewrite professional_pattern_plain, (simple_pattern_plain _ H), char_types_plain.
  lia.
Qed.

(** C9: the raw reputation total never exceeds 65 = 20 + 15 + 10 + 20, so
    the clamp to 100 returns it unchanged, the test [reputation_score > 70]
    is false on every run and the reported risk level is never Low. *)
Theorem reputation_total_at_most_65 (w : World) (self : SherlockMail) :
  exists r,
    analyze_email_reputation w self = Ret r /\
    reputation_total w self <= 65 /\
    rep_score r = reputation_total w self /\
    (reputation_total w self >? 70) = false /\
    (rep_risk_level r = Medium \/ rep_risk_level r = High).
Proof.
  destruct (reputation_body_run w self) as [fs Hrun].
  pose proof (reputation_sum_bound w self) as Hb.
  unfold analyze_email_reputation, reputation_total, eval, exec.
  fold reputation_init. rewrite Hrun. simpl.
  eexists; split; [reflexivity|]. simpl.
  repeat split; try lia.
  unfold reputation_risk_level.
  destruct (reputation_sum w self >? 70) eqn:E70; [lia|].
  destruct (reputation_sum w self >? 40); [now left|now right].
Qed.

(** C1 (amended): for a username that does not end in a line feed, the
    score is the specification's sum (20 for a known domain age above 365
    days, 15 for the first.last shape or else 10 for a single alphabetic
    token, 10 for a length within [6,24], 5 per character class present)
    clamped to 100, and the reported risk level is Low above 70, Medium
    above 40 and High otherwise. *)
Theorem reputation_score_formula (w : World) (self : SherlockMail) :
  ends_with newline (username self) = false ->
  exists r,
    analyze_email_reputation w self = Ret r /\
    reputation_total w self = reputation_formula w self /\
    rep_score r = Z.min (reputation_formula w self) 100 /\
    rep_risk_level r = reputation_risk_level (reputation_formula w self).
Proof.
  intros H.
  destruct (reputation_body_run w self) as [fs Hrun].
  unfold analyze_email_reputation, reputation_total, eval, exec.
  fold reputation_init. rewrite Hrun. simpl.
  rewrite (reputation_sum_formula w self H).
  eexists; repeat split; reflexivity.
Qed.

Lemma reputation_score_formula_witness :
  ends_with newline (username (investigator "john.doe" "example.com")) = false /\
  exists r,
    analyze_email_reputation offline (investigator "john.doe" "example.com") = Ret r /\
    reputation_total offline (investigator "john.doe" "example.com") =
      reputation_formula offline (investigator "john.doe" "example.com") /\
    rep_score r =
      Z.min (reputation_formula offline (investigator "john.doe" "example.com")) 100 /\
    rep_risk_level r =
      reputation_risk_level
        (reputation_formula offline (investigator "john.doe" "example.com")).
Proof.
  split; [reflexivity|].
  apply (reputation_score_formula offline (investigator "john.doe" "example.com")).
  reflexivity.
Defined.

(** C1 as stated fails on the level: for [john.doe2019@example.com] with no
    WHOIS answer the total is 40 and the program reports High, where the
    claim's reading (High above 70, Medium above 40, Low otherwise) gives
    Low. *)
Lemma reputation_level_counterexample :
  analyze_email_reputation offline (investigator "john.doe2019" "example.com") =
    Ret {| rep_score := 40;
           rep_factor_list :=
             ["Professional email pattern"; "Appropriate length";
              "Character variety: 3 types"];
           rep_risk_level := High |} /\
  reputation_formula offline (investigator "john.doe2019" "example.com") = 40 /\
  claimed_reputation_level
    (reputation_formula offline (investigator "john.doe2019" "example.com")) = Low.
Proof. repeat split; vm_compute; reflexivity. Qed.

(** ** Professional score *)

Lemma split_no_sep c s : has_char c s = false -> split c s = [s].
Proof.
  unfold has_char. induction s as [|a s IH]; simpl; [reflexivity|].
  rewrite (Ascii.eqb_sym c a). destruct (Ascii.eqb a c); simpl; [discriminate|].
  intros H. now rewrite (IH H).
Qed.

Lemma raw_full_name_needs_dot self :
  has_char "." (username self) && raw_full_name_format self =
    raw_full_name_format self.
Proof.
  destruct (has_char "." (username self)) eqn:E; [reflexivity|].
  unfold raw_full_name_format. now rewrite (split_no_sep _ _ E).
Qed.

(** The sum of the awards with the program's own tests. *)
Lemma professional_body_run self :
  professional_body self professional_init =
    let total :=
      (if raw_full_name_format self then 25 else 0)
      + (if existsb (String.eqb (domain self)) professional_domains then 15 else 0)
      + (if (6 <=? len (username self)) && (len (username self) <=? 30)
         then 10 else 0)
      + (if Re.matched (Re.match_ clean_pattern (username self)) then 15 else 0)
      + (if any_char is_digit (username self) then 0 else 15) in
    (Ret {| prof_score := total;
            prof_factors := professional_factor_list self;
            prof_level := professional_level total |},
     {| prof_score_acc := total;
        prof_factors_acc := professional_factor_list self |}).
Proof.
  unfold professional_body, professional_factor_list, professional_level,
    professional_init, add_professional.
  rewrite <- (raw_full_name_needs_dot self).
  unfold raw_full_name_format. unfold_monad.
  generalize (has_char "." (username self)) as c0.
  generalize (Nat.eqb (List.length (split "." (username self))) 2
              && forallb (fun p => len p >? 2) (split "." (username self))) as c1.
  generalize (existsb (String.eqb (domain self)) professional_domains) as c2.
  generalize ((6 <=? len (username self)) && (len (username self) <=? 30)) as c3.
  generalize (Re.matched (Re.match_ clean_pattern (username self))) as c4.
  generalize (any_char is_digit (username self)) as c5.
  intros [] [] [] [] [] []; reflexivity.
Qed.

Lemma full_name_factor_iff self :
  In "Full name format (firstname.lastname)" (professional_factor_list self) <->
  raw_full_name_format self = true.
Proof.
  unfold professional_factor_list. abstract_professional_tests self.
  generalize (any_char is_digit (username self)).
  destruct (raw_full_name_format self); intros [] [] [] []; simpl;
    rewrite ?append_cons; intuition discriminate.
Qed.

Lemma no_numeric_factor_iff self :
  In "No numeric characters" (professional_factor_list self) <->
  any_char is_digit (username self) = false.
Proof.
  unfold professional_factor_list. abstract_professional_tests self.
  generalize (raw_full_name_format self).
  destruct (any_char is_digit (username self)); intros [] [] [] []; simpl;
    rewrite ?append_cons; intuition discriminate.
Qed.

(** C8 (amended): for a username of ASCII characters that does not end in
    a line feed, the professional score is 25 when the username, cut at its dots, gives
    exactly two raw pieces each longer than 2 characters, plus 15 for one
    of the four mail providers, plus 10 for a length within [6,30], plus 15
    for a non-empty username of letters, digits and [. _ -] only, plus 15
    for a username without digits; the level is High from 70, Medium from
    40 and Low below; "Full name format" and "No numeric characters" are
    listed exactly when their tests hold. *)
Theorem professional_score_formula (self : SherlockMail) :
  ascii_only (username self) = true ->
  ends_with newline (username self) = false ->
  exists r,
    analyze_professional_score self = Ret r /\
    prof_score r = professional_formula (raw_full_name_format self) self /\
    prof_level r = professional_level (prof_score r) /\
    (In "Full name format (firstname.lastname)" (prof_factors r) <->
     raw_full_name_format self = true) /\
    (In "No numeric characters" (prof_factors r) <->
     any_char is_digit (username self) = false).
Proof.
  intros _ H. unfold analyze_professional_score, eval. fold professional_init.
  rewrite professional_body_run. cbv zeta. simpl fst.
  eexists; split; [reflexivity|]. cbn [prof_score prof_level prof_factors].
  rewrite (clean_pattern_plain _ H).
  repeat split; try apply full_name_factor_iff; try apply no_numeric_factor_iff.
Qed.

Lemma professional_score_formula_witness :
  ascii_only (username (investigator "john.doe2019" "example.com")) = true /\
  ends_with newline (username (investigator "john.doe2019" "example.com")) = false /\
  exists r,
    analyze_professional_score (investigator "john.doe2019" "example.com") = Ret r /\
    prof_score r = 50 /\
    prof_level r = Medium /\
    In "Full name format (firstname.lastname)" (prof_factors r) /\
    ~ In "No numeric characters" (prof_factors r).
Proof.
  split; [reflexivity|]. split; [reflexivity|].
  destruct (professional_score_formula
              (investigator "john.doe2019" "example.com") eq_refl eq_refl)
    as (r & Hr & Hs & Hl & Hf & Hn).
  exists r. split; [exact Hr|].
  split; [rewrite Hs; reflexivity|].
  split; [rewrite Hl, Hs; reflexivity|].
  split; [apply Hf; reflexivity|].
  intros Hin. apply Hn in Hin. discriminate Hin.
Defined.

(** C8 as stated fails on the full-name award: the identity derived from
    [john.doe.1985@gmail.com] has exactly the two name fragments John and
    Doe, yet the username has three pieces between dots and no 25 points
    are given. *)
Lemma professional_fragments_counterexample :
  fragments (derive_basic_info (investigator "john.doe.1985" "gmail.com")) =
    ["John"; "Doe"] /\
  identity_full_name_format (investigator "john.doe.1985" "gmail.com") = true /\
  professional_formula true (investigator "john.doe.1985" "gmail.com") = 65 /\
  analyze_professional_score (investigator "john.doe.1985" "gmail.com") =
    Ret {| prof_score := 40;
           prof_factors :=
             ["Professional domain (gmail.com)"; "Appropriate length";
              "Clean character usage"];
           prof_level := Medium |}.
Proof. repeat split; vm_compute; reflexivity. Qed.

(** ** Security risks *)

(** C7: [analyze_security_risks] always returns.  Its rules fire in
    sequence: a username shorter than 6 and a dot in the username ask for
    Medium, a domain younger than 365 days for High, a failed age lookup
    for Medium with the flag "Unable to verify domain age".  Along the run
    the level starts at Low and never goes down from one rule to the next
    (so a level that reached High stays High); the returned level is the
    last one of that run, it is the highest level a fired rule asks for,
    and it is at least the level of every rule whose flag is returned. *)
Theorem security_level_only_escalates (w : World) (self : SherlockMail) :
  exists r,
    analyze_security_risks w self = Ret r /\
    sec_risks r = security_risk_list w self /\
    sec_level r = security_level_of w self /\
    hd_error (security_levels w self) = Some Low /\
    nondecreasing (security_levels w self) = true /\
    List.last (security_levels w self) Low = sec_level r /\
    forallb (honours (sec_level r)) (sec_risks r) = true.
Proof.
  unfold analyze_security_risks, security_levels, security_body, security_rules,
    security_init, rule_short_username, rule_contains_numbers, rule_full_name,
    rule_domain_age, add_risk, set_level, security_risk_list, security_level_of,
    domain_age_verdict.
  abstract_security_tests w self. intros c3 c2 c1.
  unfold_monad.
  destruct (whois w (domain self)) as [e|]; simpl;
    [destruct (creation_truthy (creation_date e)); simpl;
     [destruct (first_date (creation_date e)) as [cd|]; simpl;
      [destruct (days_since (now w) cd) as [age|]; simpl;
       [destruct (age <? 365); simpl|]|]|]|];
    destruct c1, c2, c3; simpl; eexists; repeat split; reflexivity.
Qed.

(** ** Domain analysis *)

Lemma dns_records_analysis_run w d :
  dns_records_analysis w d dns_empty = (Ret tt, dns_outcome w d).
Proof.
  unfold dns_records_analysis, dns_outcome, dns_empty,
    set_mx, set_txt, set_spf, set_dmarc.
  unfold_monad.
  destruct (resolve w d MX); simpl;
    (destruct (resolve w d TXT); simpl;
     [destruct (resolve w ("_dmarc." +:+ d) TXT); simpl|]); reflexivity.
Qed.

(** The analysis in closed form: the error record when the WHOIS lookup or
    the reading of its creation date raises, the full record otherwise. *)
Lemma analyze_domain_run w d :
  analyze_domain w d =
    Ret match whois w d with
        | Ret e =>
            match first_date (creation_date e) with
            | Ret created =>
                DomainInfo d created (org e) (country e)
                  (dns_outcome w d) (security_outcome w d)
            | Raise => DomainError d "Could not fetch domain information"
            end
        | Raise => DomainError d "Could not fetch domain information"
        end.
Proof.
  unfold analyze_domain, domain_body, eval.
  unfold bind at 1. unfold try_except, lift.
  destruct (whois w d) as [e|]; [|reflexivity].
  unfold bind. rewrite dns_records_analysis_run. unfold get, ret.
  destruct (first_date (creation_date e)); reflexivity.
Qed.

Lemma next_containing_some marker records r :
  next_containing marker records = Some r ->
  In r records /\ contains marker r = true.
Proof. apply find_some. Qed.

(** A record found by its marker is a non-empty string, hence truthy. *)
Lemma truthy_next_containing c m records :
  truthy_record (Some (next_containing (String c m) records)) =
    existsb (contains (String c m)) records.
Proof.
  unfold next_containing. induction records as [|r rest IH]; [reflexivity|].
  cbn [find existsb]. destruct (contains (String c m) r) eqn:E.
  - destruct r; [discriminate E|reflexivity].
  - exact IH.
Qed.

Lemma existsb_contains marker records :
  existsb (contains marker) records = true ->
  exists r, In r records /\ contains marker r = true.
Proof. intros H. apply existsb_exists in H. exact H. Qed.

(** C6: the domain analysis always returns; it reports SPF only if the TXT
    lookup of the domain returned a record containing [v=spf1], and DMARC
    only if the TXT lookup of [_dmarc.<domain>] returned a record containing
    [v=DMARC1]; when that lookup raises, DMARC is reported false. *)
Theorem spf_dmarc_only_if_marker (w : World) (d : string) :
  exists a,
    analyze_domain w d = Ret a /\
    (reported_spf a = true ->
     exists txt r, resolve w d TXT = Ret txt /\ In r txt /\
                   contains "v=spf1" r = true) /\
    (reported_dmarc a = true ->
     exists recs r, resolve w ("_dmarc." +:+ d) TXT = Ret recs /\ In r recs /\
                    contains "v=DMARC1" r = true) /\
    (resolve w ("_dmarc." +:+ d) TXT = Raise -> reported_dmarc a = false).
Proof.
  rewrite analyze_domain_run. eexists; split; [reflexivity|].
  destruct (whois w d) as [e|]; [|repeat split; try discriminate; reflexivity].
  destruct (first_date (creation_date e)) as [created|];
    [|repeat split; try discriminate; reflexivity].
  unfold reported_spf, reported_dmarc, security_outcome, dns_outcome.
  cbn [has_spf has_dmarc spf_record dmarc_record].
  destruct (resolve w d TXT) as [txt|];
    [|repeat split; try discriminate; reflexivity].
  repeat split.
  - rewrite truthy_next_containing. intros H.
    apply existsb_contains in H as (r & Hin & Hr). eauto.
  - destruct (resolve w ("_dmarc." +:+ d) TXT) as [recs|]; [|discriminate].
    rewrite truthy_next_containing. intros H.
    apply existsb_contains in H as (r & Hin & Hr). eauto.
  - intros ->. reflexivity.
Qed.

Lemma spf_dmarc_only_if_marker_witness :
  exists a,
    analyze_domain whois_up "example.com" = Ret a /\
    reported_spf a = true /\
    reported_dmarc a = false /\
    exists txt r, resolve whois_up "example.com" TXT = Ret txt /\ In r txt /\
                  contains "v=spf1" r = true.
Proof.
  destruct (spf_dmarc_only_if_marker whois_up "example.com")
    as (a & Ha & Hspf & _ & Hdmarc).
  exists a. split; [exact Ha|].
  assert (Hs : reported_spf a = true).
  { rewrite analyze_domain_run in Ha. injection Ha as <-. reflexivity. }
  split; [exact Hs|]. split; [apply Hdmarc; reflexivity|].
  apply Hspf, Hs.
Defined.

(** C4 (amended): the domain analysis never raises.  When the WHOIS lookup
    raises, the result is the error record, without registration fields and
    without MX, TXT, SPF or DMARC fields.  When it returns (and its
    creation date can be read), the registration fields are those of the
    answer and the DNS fields are always there: each of the MX and TXT
    lookups has its own empty-list default, SPF is looked for in the TXT
    records, and the DMARC lookup, made after a TXT lookup that returned,
    defaults to no record. *)
Theorem domain_steps_defaulted (w : World) (d : string) :
  (exists a, analyze_domain w d = Ret a) /\
  (whois w d = Raise ->
   analyze_domain w d = Ret (DomainError d "Could not fetch domain information")) /\
  (forall e created,
     whois w d = Ret e ->
     first_date (creation_date e) = Ret created ->
     analyze_domain w d =
       Ret (DomainInfo d created (org e) (country e)
              (dns_outcome w d) (security_outcome w d)) /\
     mx_records (dns_outcome w d) = Some (records_or_empty (resolve w d MX)) /\
     txt_records (dns_outcome w d) = Some (records_or_empty (resolve w d TXT)) /\
     has_spf (security_outcome w d) =
       existsb (contains "v=spf1") (records_or_empty (resolve w d TXT)) /\
     has_dmarc (security_outcome w d) =
       match resolve w d TXT with
       | Ret _ =>
           existsb (contains "v=DMARC1")
             (records_or_empty (resolve w ("_dmarc." +:+ d) TXT))
       | Raise => false
       end).
Proof.
  rewrite analyze_domain_run. split; [eauto|]. split.
  - intros ->. reflexivity.
  - intros e created -> ->. split; [reflexivity|].
    split; [reflexivity|]. split; [reflexivity|].
    unfold security_outcome, dns_outcome.
    cbn [has_spf has_dmarc spf_record dmarc_record]. split.
    + destruct (resolve w d TXT) as [txt|]; [|reflexivity].
      apply truthy_next_containing.
    + destruct (resolve w d TXT) as [txt|]; [|reflexivity].
      destruct (resolve w ("_dmarc." +:+ d) TXT) as [recs|]; [|reflexivity].
      apply truthy_next_containing.
Qed.

Lemma domain_steps_defaulted_witness :
  whois whois_down "example.com" = Raise /\
  analyze_domain whois_down "example.com" =
    Ret (DomainError "example.com" "Could not fetch domain information") /\
  analyze_domain whois_up "example.com" =
    Ret (DomainInfo "example.com" (Some (Datetime 0))
           (Some "Example Org") (Some "US")
           (dns_outcome whois_up "example.com")
           (security_outcome whois_up "example.com")) /\
  security_outcome whois_up "example.com" =
    {| has_spf := true; has_dmarc := false;
       mx_providers := ["0 mail.example.com."] |}.
Proof.
  split; [reflexivity|]. split.
  - apply (domain_steps_defaulted whois_down "example.com"). reflexivity.
  - split; [|reflexivity].
    apply (proj2 (proj2 (domain_steps_defaulted whois_up "example.com"))
             {| creation_date := DateList [Datetime 0; Datetime 5];
                org := Some "Example Org"; country := Some "US" |}
             (Some (Datetime 0))); reflexivity.
Defined.

(** C4 as stated fails: with the WHOIS service down and DNS answering for
    [example.com], the analysis is the bare error record; the MX, TXT and
    DMARC lookups are never made and none of their fields is produced. *)
Lemma whois_failure_counterexample :
  whois whois_down "example.com" = Raise /\
  resolve whois_down "example.com" MX = Ret ["0 mail.example.com."] /\
  resolve whois_down "example.com" TXT =
    Ret ["v=spf1 include:_spf.example.com ~all"] /\
  analyze_domain whois_down "example.com" =
    Ret (DomainError "example.com" "Could not fetch domain information") /\
  dns_fields (DomainError "example.com" "Could not fetch domain information") =
    None.
Proof. repeat split. Qed.

(** ** Probing candidate URLs *)

(** One request: the candidate is recorded and the loop left exactly when
    the response is a profile page; any other response, and any exception,
    moves on to the next candidate. *)
Lemma probe_url_run w self platform url st :
  probe_url w self platform url st =
    match positive_match w url with
    | Some r =>
        (Ret Break,
         {| social_profiles :=
              <[platform := profile_of self platform url r]> (social_profiles st);
            requested := requested st ++ [url] |})
    | None =>
        (Ret Next,
         {| social_profiles := social_profiles st;
            requested := requested st ++ [url] |})
    end.
Proof.
  unfold probe_url, positive_match, is_profile_page, profile_of, title_lower,
    log_request, set_profile.
  unfold_monad. cbn [fst snd].
  destruct (http_get w url) as [r|]; [|reflexivity].
  destruct (status_code r =? 200); [|reflexivity].
  destruct (page_title r) as [t|] eqn:Et; [|reflexivity].
  destruct (existsb (fun term => contains term (lower t)) negative_markers);
    cbv beta iota delta [andb negb]; rewrite ?Et; reflexivity.
Qed.

Lemma candidates_some u urls : candidates (Some u :: urls) = u :: candidates urls.
Proof. reflexivity. Qed.

Lemma candidates_none urls : candidates (None :: urls) = candidates urls.
Proof. reflexivity. Qed.

Lemma for_urls_run w self platform urls st :
  for_urls (probe_url w self platform) urls st =
    (Ret tt,
     {| social_profiles :=
          match first_match w (candidates urls) with
          | Some (u, r) =>
              <[platform := profile_of self platform u r]> (social_profiles st)
          | None => social_profiles st
          end;
        requested := requested st ++ tried w (candidates urls) |}).
Proof.
  revert st. induction urls as [|[url|] urls IH]; intros st.
  - simpl. unfold ret. rewrite app_nil_r. now destruct st.
  - rewrite candidates_some. cbn [for_urls first_match tried]. unfold bind.
    rewrite probe_url_run.
    destruct (positive_match w url) as [r|].
    + reflexivity.
    + rewrite IH. cbn [social_profiles requested].
      now rewrite <- app_assoc.
  - rewrite candidates_none. apply IH.
Qed.

Lemma first_match_split w pre u r post :
  Forall (fun c => positive_match w c = None) pre ->
  positive_match w u = Some r ->
  first_match w (pre ++ u :: post) = Some (u, r) /\
  tried w (pre ++ u :: post) = pre ++ [u].
Proof.
  intros Hpre Hu. induction Hpre as [|c pre Hc _ IH]; simpl.
  - now rewrite Hu.
  - rewrite Hc. destruct IH as [-> ->]. now split.
Qed.

Lemma first_match_none w cands :
  Forall (fun c => positive_match w c = None) cands ->
  first_match w cands = None /\ tried w cands = cands.
Proof.
  intros H. induction H as [|c cands Hc _ IH]; simpl; [now split|].
  rewrite Hc. destruct IH as [-> ->]. now split.
Qed.

Lemma first_match_some w cands u r :
  first_match w cands = Some (u, r) -> In u cands /\ positive_match w u = Some r.
Proof.
  induction cands as [|c cands IH]; simpl; [discriminate|].
  destruct (positive_match w c) as [r'|] eqn:E.
  - intros [= <- <-]. split; [now left|exact E].
  - intros H. destruct (IH H). split; [now right|assumption].
Qed.

(** C5 (amended): a request counts as a positive match exactly when it
    returns a response with status 200 whose title text (empty when the
    page has no title element; the body is not looked at), in lower case,
    contains none of "not found", "error", "404", "page doesn't exist"
    ([positive_match]; a title element without a string makes the request
    count as failed).  The candidates of a platform are requested in
    declared order, the first positive match is recorded for the platform
    and no later candidate is requested, whether it would match or not;
    without a positive match all candidates are requested and nothing is
    recorded. *)
Theorem first_positive_match_wins (w : World) (self : SherlockMail)
        (platform : string) (urls : list (option string)) (st : probe_state) :
  (forall pre u r post,
     candidates urls = pre ++ u :: post ->
     Forall (fun c => positive_match w c = None) pre ->
     positive_match w u = Some r ->
     for_urls (probe_url w self platform) urls st =
       (Ret tt,
        {| social_profiles :=
             <[platform := profile_of self platform u r]> (social_profiles st);
           requested := requested st ++ pre ++ [u] |})) /\
  (Forall (fun c => positive_match w c = None) (candidates urls) ->
   for_urls (probe_url w self platform) urls st =
     (Ret tt,
      {| social_profiles := social_profiles st;
         requested := requested st ++ candidates urls |})).
Proof.
  split.
  - intros pre u r post Hc Hpre Hu. rewrite for_urls_run, Hc.
    destruct (first_match_split w pre u r post Hpre Hu) as [-> ->].
    reflexivity.
  - intros Hall. rewrite for_urls_run.
    destruct (first_match_none w _ Hall) as [-> ->]. reflexivity.
Qed.


Lemma first_positive_match_wins_witness :
  positive_match all_found "https://github.com/johndoe" =
    Some (page 200 profile_html (Some (Some "Profile"))) /\
  for_urls (probe_url all_found (investigator "john.doe" "example.com") "GitHub")
    [Some "https://github.com/john.doe"; Some "https://github.com/johndoe"]
    probe_init =
    (Ret tt,
     {| social_profiles :=
          <["GitHub" :=
              profile_of (investigator "john.doe" "example.com") "GitHub"
                "https://github.com/john.doe" (page 200 profile_html (Some (Some "Profile")))]>
            ∅;
        requested := ["https://github.com/john.doe"] |}) /\
  for_urls (probe_url all_missing (investigator "john.doe" "example.com") "GitHub")
    [Some "https://github.com/john.doe"; Some "https://github.com/johndoe"]
    probe_init =
    (Ret tt,
     {| social_profiles := ∅;
        requested := ["https://github.com/john.doe";
                      "https://github.com/johndoe"] |}).
Proof.
  split; [reflexivity|]. split.
  - apply (proj1 (first_positive_match_wins all_found
                    (investigator "john.doe" "example.com") "GitHub"
                    [Some "https://github.com/john.doe";
                     Some "https://github.com/johndoe"] probe_init)
             [] "https://github.com/john.doe"
             (page 200 profile_html (Some (Some "Profile")))
             ["https://github.com/johndoe"]).
    + reflexivity.
    + constructor.
    + reflexivity.
  - apply (proj2 (first_positive_match_wins all_missing
                    (investigator "john.doe" "example.com") "GitHub"
                    [Some "https://github.com/john.doe";
                     Some "https://github.com/johndoe"] probe_init)).
    repeat constructor.
Defined.

(** C5 as stated fails on the body: a page answered with status 200 and
    titled "John Doe" has the marker "error" in its body, so the test on
    title and body rejects it, yet the probe records it as GitHub's
    profile. *)
Lemma body_marker_counterexample :
  http_get error_in_body "https://github.com/john.doe" =
    Ret (page 200 error_link_html (Some (Some "John Doe"))) /\
  contains "error" (lower error_link_html) = true /\
  claimed_profile_page (page 200 error_link_html (Some (Some "John Doe"))) = false /\
  for_urls (probe_url error_in_body (investigator "john.doe" "example.com") "GitHub")
    [Some "https://github.com/john.doe"; Some "https://github.com/johndoe"]
    probe_init =
    (Ret tt,
     {| social_profiles :=
          <["GitHub" :=
              profile_of (investigator "john.doe" "example.com") "GitHub"
                "https://github.com/john.doe"
                (page 200 error_link_html (Some (Some "John Doe")))]> ∅;
        requested := ["https://github.com/john.doe"] |}).
Proof. repeat split; vm_compute; reflexivity. Qed.

(** ** One result per platform *)

Lemma for_platforms_run w self catalog st :
  eval (for_platforms
          (fun platform urls => for_urls (probe_url w self platform) urls)
          catalog) st = Ret tt.
Proof.
  revert st. induction catalog as [|[p urls] rest IH]; intros st; [reflexivity|].
  unfold eval in *. cbn [for_platforms]. unfold bind.
  rewrite for_urls_run. apply IH.
Qed.

Lemma for_platforms_step w self p urls rest st :
  exec (for_platforms
          (fun platform urls => for_urls (probe_url w self platform) urls)
          ((p, urls) :: rest)) st =
  exec (for_platforms
          (fun platform urls => for_urls (probe_url w self platform) urls) rest)
       {| social_profiles :=
            match first_match w (candidates urls) with
            | Some (u, r) =>
                <[p := profile_of self p u r]> (social_profiles st)
            | None => social_profiles st
            end;
          requested := requested st ++ tried w (candidates urls) |}.
Proof.
  unfold exec. cbn [for_platforms]. unfold bind. now rewrite for_urls_run.
Qed.

(** Platforms that are not in the catalog keep what they had. *)
Lemma for_platforms_frame w self catalog st p :
  ~ In p (platform_names catalog) ->
  social_profiles
    (exec (for_platforms
             (fun platform urls => for_urls (probe_url w self platform) urls)
             catalog) st) !! p = social_profiles st !! p.
Proof.
  revert st. induction catalog as [|[q urls] rest IH]; intros st Hp; [reflexivity|].
  rewrite for_platforms_step. rewrite IH by (intros H; apply Hp; now right).
  cbn [social_profiles].
  assert (q <> p) by (intros ->; apply Hp; now left).
  destruct (first_match w (candidates urls)) as [[u r]|]; [|reflexivity].
  now rewrite lookup_insert_ne.
Qed.

(** A platform of the catalog ends up with the profile of its first
    positive match, or with what it had. *)
Lemma for_platforms_lookup w self catalog st p urls :
  NoDup (platform_names catalog) ->
  In (p, urls) catalog ->
  social_profiles
    (exec (for_platforms
             (fun platform urls => for_urls (probe_url w self platform) urls)
             catalog) st) !! p =
    match first_match w (candidates urls) with
    | Some (u, r) => Some (profile_of self p u r)
    | None => social_profiles st !! p
    end.
Proof.
  revert st. induction catalog as [|[q urls'] rest IH]; intros st Hnd Hin;
    [destruct Hin|].
  cbn [platform_names map fst] in Hnd. apply NoDup_cons in Hnd as [Hq Hnd].
  rewrite for_platforms_step.
  destruct Hin as [[= -> ->]|Hin].
  - rewrite for_platforms_frame by (now rewrite <- list_elem_of_In).
    cbn [social_profiles].
    destruct (first_match w (candidates urls)) as [[u r]|]; [|reflexivity].
    now rewrite lookup_insert_eq.
  - rewrite (IH _ Hnd Hin). cbn [social_profiles].
    assert (q <> p).
    { intros ->. apply Hq. apply list_elem_of_In.
      change (In (fst (p, urls)) (map fst rest)). now apply in_map. }
    destruct (first_match w (candidates urls)) as [[u r]|]; [reflexivity|].
    destruct (first_match w (candidates urls')) as [[u' r']|]; [|reflexivity].
    now rewrite lookup_insert_ne.
Qed.

Lemma social_platforms_nodup self : NoDup (platform_names (social_platforms self)).
Proof.
  change (NoDup ["LinkedIn"; "Twitter"; "GitHub"; "Instagram"; "Medium"; "Dev.to";
                 "Stack Overflow"; "Behance"; "Dribbble"; "Facebook"; "YouTube";
                 "Reddit"; "Kaggle"; "PyPI"]).
  apply (bool_decide_unpack _). vm_compute. exact I.
Qed.

Lemma footprint_platforms_nodup self :
  NoDup (platform_names (footprint_platforms self)).
Proof.
  change (NoDup ["GitHub"; "LinkedIn"; "Twitter"; "Instagram"; "Facebook";
                 "Medium"; "Dev.to"; "Stack Overflow"]).
  apply (bool_decide_unpack _). vm_compute. exact I.
Qed.

Lemma set_field_status key element (profile : gmap string string) :
  key <> "status" ->
  set_field key element profile !! "status" = profile !! "status".
Proof.
  intros H. unfold set_field. destruct element; [|reflexivity].
  now rewrite lookup_insert_ne.
Qed.

(** Every recorded profile carries the status "Found". *)
Lemma profile_of_status self platform url r :
  profile_of self platform url r !! "status" = Some "Found".
Proof.
  unfold profile_of, found_profile, extract.
  destruct (String.eqb platform "GitHub");
    [|destruct (String.eqb platform "LinkedIn");
      [|destruct (String.eqb platform "Twitter")]];
    rewrite ?set_field_status by discriminate;
    rewrite !lookup_insert_ne by discriminate;
    apply lookup_insert_eq.
Qed.

Lemma discovered_lookup w self p urls :
  In (p, urls) (social_platforms self) ->
  discovered w self !! p =
    match first_match w (candidates urls) with
    | Some (u, r) => Some (profile_of self p u r)
    | None => None
    end.
Proof.
  intros Hin. unfold discovered, discover_profiles.
  rewrite (for_platforms_lookup w self _ probe_init p urls
             (social_platforms_nodup self) Hin).
  destruct (first_match w (candidates urls)) as [[u r]|]; [reflexivity|].
  apply lookup_empty.
Qed.

Lemma check_platform_run w platform url f :
  check_platform w platform url f = (Ret tt, footprint_after w platform url f).
Proof.
  unfold check_platform, footprint_after, set_entry, add_visibility,
    active_entry, not_found_entry.
  unfold_monad.
  destruct (http_get w url) as [r|]; [|reflexivity].
  destruct (status_code r =? 200); [reflexivity|]. now destruct f.
Qed.

Lemma for_each_check_run w catalog f :
  for_each (fun p => check_platform w (fst p) (snd p)) catalog f =
    (Ret tt, fold_left (fun f p => footprint_after w (fst p) (snd p) f) catalog f).
Proof.
  revert f. induction catalog as [|[p url] rest IH]; intros f; [reflexivity|].
  cbn [for_each fold_left]. unfold bind. rewrite check_platform_run. apply IH.
Qed.

Lemma footprint_after_other w q url f p :
  q <> p ->
  fp_platforms (footprint_after w q url f) !! p = fp_platforms f !! p.
Proof.
  intros H. unfold footprint_after.
  destruct (http_get w url) as [r|]; [destruct (status_code r =? 200)|];
    cbn [fp_platforms]; rewrite ?lookup_insert_ne by exact H; reflexivity.
Qed.

Lemma footprint_after_same w p url f :
  fp_platforms (footprint_after w p url f) !! p =
    checked_entry w url (fp_platforms f !! p).
Proof.
  unfold footprint_after, checked_entry.
  destruct (http_get w url) as [r|]; [destruct (status_code r =? 200)|];
    cbn [fp_platforms]; rewrite ?lookup_insert_eq; reflexivity.
Qed.

Lemma fold_check_frame w catalog f p :
  ~ In p (platform_names catalog) ->
  fp_platforms
    (fold_left (fun f p => footprint_after w (fst p) (snd p) f) catalog f) !! p =
  fp_platforms f !! p.
Proof.
  revert f. induction catalog as [|[q url] rest IH]; intros f Hp; [reflexivity|].
  cbn [fold_left fst snd]. rewrite IH by (intros H; apply Hp; now right).
  apply footprint_after_other. intros ->. apply Hp. now left.
Qed.

Lemma fold_check_lookup w catalog f p url :
  NoDup (platform_names catalog) ->
  In (p, url) catalog ->
  fp_platforms
    (fold_left (fun f p => footprint_after w (fst p) (snd p) f) catalog f) !! p =
  checked_entry w url (fp_platforms f !! p).
Proof.
  revert f. induction catalog as [|[q url'] rest IH]; intros f Hnd Hin;
    [destruct Hin|].
  cbn [platform_names map fst] in Hnd. apply NoDup_cons in Hnd as [Hq Hnd].
  cbn [fold_left fst snd]. destruct Hin as [[= -> ->]|Hin].
  - rewrite fold_check_frame by (now rewrite <- list_elem_of_In).
    apply footprint_after_same.
  - rewrite (IH _ Hnd Hin). f_equal. apply footprint_after_other.
    intros ->. apply Hq. apply list_elem_of_In.
    change (In (fst (p, url)) (map fst rest)). now apply in_map.
Qed.

(** [analyze_social_footprint] always returns, and its platform entries
    are those the loop left. *)
Lemma analyze_social_footprint_run w self :
  exists f,
    analyze_social_footprint w self = Ret f /\
    fp_platforms f = fp_platforms (footprint_checked w self).
Proof.
  unfold analyze_social_footprint, footprint_body, eval, footprint_checked.
  unfold bind at 1. rewrite for_each_check_run.
  set (g := fold_left _ _ _). unfold rate_visibility. unfold_monad.
  destruct (visibility_score g >=? 750); [|destruct (visibility_score g >=? 500)];
    eexists; split; reflexivity.
Qed.

Lemma raising_is_no_match w c : http_get w c = Raise -> positive_match w c = None.
Proof. unfold positive_match. now intros ->. Qed.

(** C3 (amended): neither probing function lets an exception out, and each
    keeps at most one result per platform, under the platform's name.  In
    [analyze_personal_info] a platform of the catalog has a result only
    when one of its candidate URLs is a positive match, and that result has
    the status "Found"; a platform whose candidates all fail has no result
    at all.  In [analyze_social_footprint] a platform whose request raises
    gets the result found = false with the status "Not found or private",
    and a platform answering 200 the result found = true. *)
Theorem probe_results_per_platform (w : World) (self : SherlockMail) :
  eval (discover_profiles w self) probe_init = Ret tt /\
  (forall p urls,
     In (p, urls) (social_platforms self) ->
     (forall profile,
        discovered w self !! p = Some profile ->
        profile !! "status" = Some "Found" /\
        exists u r, In u (candidates urls) /\ positive_match w u = Some r /\
                    profile = profile_of self p u r) /\
     (Forall (fun c => http_get w c = Raise) (candidates urls) ->
      discovered w self !! p = None)) /\
  exists f,
    analyze_social_footprint w self = Ret f /\
    forall p url,
      In (p, url) (footprint_platforms self) ->
      (http_get w url = Raise -> fp_platforms f !! p = Some not_found_entry) /\
      (forall r, http_get w url = Ret r -> status_code r = 200 ->
                 fp_platforms f !! p = Some (active_entry url)).
Proof.
  split; [apply for_platforms_run|]. split.
  - intros p urls Hin. rewrite (discovered_lookup w self p urls Hin). split.
    + intros profile H.
      destruct (first_match w (candidates urls)) as [[u r]|] eqn:E;
        [|discriminate H].
      injection H as <-. split; [apply profile_of_status|].
      apply first_match_some in E as [Hu Hr]. eauto.
    + intros Hall.
      assert (Hnone : Forall (fun c => positive_match w c = None) (candidates urls)).
      { eapply Forall_impl; [exact Hall|]. intros c. apply raising_is_no_match. }
      now destruct (first_match_none w _ Hnone) as [-> _].
  - destruct (analyze_social_footprint_run w self) as (f & Hf & Hp).
    exists f. split; [exact Hf|]. intros p url Hin. rewrite Hp.
    unfold footprint_checked.
    rewrite (fold_check_lookup w _ footprint_init p url
               (footprint_platforms_nodup self) Hin).
    unfold checked_entry. split.
    + now intros ->.
    + intros r -> ->. reflexivity.
Qed.

Lemma probe_results_per_platform_witness :
  In ("GitHub", [Some "https://github.com/john.doe";
                 Some "https://github.com/johndoe"])
     (social_platforms (investigator "john.doe" "example.com")) /\
  discovered offline (investigator "john.doe" "example.com") !! "GitHub" = None /\
  exists f,
    analyze_social_footprint offline (investigator "john.doe" "example.com") = Ret f /\
    fp_platforms f !! "Twitter" = Some not_found_entry.
Proof.
  assert (Hin : In ("GitHub", [Some "https://github.com/john.doe";
                               Some "https://github.com/johndoe"])
                  (social_platforms (investigator "john.doe" "example.com"))).
  { right. right. left. reflexivity. }
  destruct (probe_results_per_platform offline
              (investigator "john.doe" "example.com")) as (_ & Hd & f & Hf & Hfp).
  split; [exact Hin|]. split.
  - apply (proj2 (Hd _ _ Hin)). repeat constructor.
  - exists f. split; [exact Hf|].
    apply (proj1 (Hfp "Twitter" "https://twitter.com/john.doe"
                    ltac:(right; right; left; reflexivity))).
    reflexivity.
Defined.

(** C3 as stated fails: with every request raising, GitHub is in the
    catalog of [analyze_personal_info] and both its candidates fail, yet
    the function returns with no result for GitHub at all: no record with
    found = false, no error text. *)
Lemma missing_probe_result_counterexample :
  In ("GitHub", [Some "https://github.com/john.doe";
                 Some "https://github.com/johndoe"])
     (social_platforms (investigator "john.doe" "example.com")) /\
  Forall (fun c => http_get offline c = Raise)
         ["https://github.com/john.doe"; "https://github.com/johndoe"] /\
  eval (discover_profiles offline (investigator "john.doe" "example.com"))
       probe_init = Ret tt /\
  discovered offline (investigator "john.doe" "example.com") !! "GitHub" = None /\
  discovered offline (investigator "john.doe" "example.com") = ∅.
Proof.
  split; [right; right; left; reflexivity|].
  split; [repeat constructor|].
  split; [reflexivity|].
  split; vm_compute; reflexivity.
Qed.

(** For an investigator built by [__init__], [analyze_personal_info] as a
    whole returns: nothing raised inside it gets out. *)
Lemma analyze_personal_info_returns w e self :
  init e = Ret self -> exists info, analyze_personal_info w self = Ret info.
Proof.
  unfold init. destruct (split_at e 0) as [u|]; [|discriminate].
  destruct (split_at e 1) as [d|] eqn:Ed; [|discriminate].
  intros [= <-]. unfold analyze_personal_info. cbn [email].
  pose proof (for_platforms_run w
                {| email := e; username := u; domain := d |}
                (social_platforms {| email := e; username := u; domain := d |})
                probe_init) as Hrun.
  unfold eval in Hrun. unfold discover_profiles.
  destruct (for_platforms _ _ probe_init) as [[[]|] probes]; [|discriminate Hrun].
  rewrite Ed, analyze_domain_run. eauto.
Qed.

(** ** Identity derivation *)

Lemma sub_one n : (S n - n)%nat = 1%nat.
Proof. lia. Qed.

Lemma sub_four n : (S (S (S (S n))) - n)%nat = 4%nat.
Proof. lia. Qed.

(** Deleting the matches of a one-character class keeps the other
    characters. *)
Lemma sub_class p b s :
  Re.sub_from (Re.Cls p) b 0 s = filter_chars (fun c => negb (p c)) s.
Proof.
  revert b. induction s as [|c s IH]; intros b; [reflexivity|].
  cbn [Re.sub_from filter_chars]. unfold Re.match_at. cbn [Re.run].
  destruct (p c); cbn [negb].
  - cbn [String.length]. rewrite sub_one. cbn. apply IH.
  - now rewrite IH.
Qed.

(** The year pattern matches at the head of [s] exactly when the first
    four characters are a birth year. *)
Lemma match_year b s :
  Re.match_at year_pattern b s =
    if is_birth_year (take 4 s) then Some (take 4 s) else None.
Proof.
  unfold Re.match_at, year_pattern.
  destruct s as [|c1 [|c2 [|c3 [|c4 t]]]]; cbn [Re.run take is_birth_year].
  - reflexivity.
  - now destruct (Ascii.eqb c1 "1"), (Ascii.eqb c1 "2").
  - now destruct (Ascii.eqb c1 "1"), (Ascii.eqb c2 "9"),
      (Ascii.eqb c1 "2"), (Ascii.eqb c2 "0").
  - now destruct (Ascii.eqb c1 "1"), (Ascii.eqb c2 "9"),
      (Ascii.eqb c1 "2"), (Ascii.eqb c2 "0"), (is_digit c3).
  - destruct (Ascii.eqb c1 "1"), (Ascii.eqb c2 "9"),
      (Ascii.eqb c1 "2"), (Ascii.eqb c2 "0"), (is_digit c3), (is_digit c4);
      cbn [andb orb]; try reflexivity;
      cbn [String.length]; rewrite sub_four; reflexivity.
Qed.

Lemma search_year b s : Re.search_from year_pattern b s = first_year s.
Proof.
  revert b. induction s as [|c s IH]; intros b.
  - reflexivity.
  - cbn [Re.search_from first_year]. rewrite match_year.
    destruct (is_birth_year (take 4 (String c s))); [reflexivity|apply IH].
Qed.

Lemma scan_part_plain st part :
  scan_part st part =
    {| possible_birth_year :=
         match first_year part with
         | Some y => Some y
         | None => possible_birth_year st
         end;
       name_parts := name_parts st ++ option_list (name_fragment part) |}.
Proof.
  unfold scan_part, name_fragment, Re.search, Re.sub_empty.
  rewrite search_year, sub_class.
  destruct (nonempty _); cbn [option_list]; [reflexivity|].
  now rewrite app_nil_r.
Qed.

Lemma omap_cons_list {A B} (f : A -> option B) x l :
  omap f (x :: l) = option_list (f x) ++ omap f l.
Proof. cbn. now destruct (f x). Qed.

Lemma fold_scan parts st :
  fold_left scan_part parts st =
    {| possible_birth_year :=
         match last (omap first_year parts) with
         | Some y => Some y
         | None => possible_birth_year st
         end;
       name_parts := name_parts st ++ omap name_fragment parts |}.
Proof.
  revert st. induction parts as [|part parts IH]; intros st.
  - cbn. rewrite app_nil_r. now destruct st.
  - cbn [fold_left]. rewrite IH, scan_part_plain.
    cbn [possible_birth_year name_parts].
    rewrite (omap_cons_list first_year), (omap_cons_list name_fragment).
    rewrite <- app_assoc, last_app. f_equal.
    destruct (last (omap first_year parts)); [reflexivity|].
    now destruct (first_year part).
Qed.

Lemma split_not_nil c s : split c s <> [].
Proof.
  destruct s as [|a s]; cbn; [discriminate|].
  destruct (Ascii.eqb a c); [discriminate|]. now destruct (split c s).
Qed.

(** What [analyze_personal_info] derives from the username, in plain
    terms. *)
Lemma derive_basic_info_plain self :
  birth_year (derive_basic_info self) = kept_birth_year (username self) /\
  fragments (derive_basic_info self) =
    omap name_fragment (split "." (username self)).
Proof.
  unfold derive_basic_info, kept_birth_year, fragment_years.
  destruct (split "." (username self)) as [|part parts] eqn:E.
  - now apply split_not_nil in E.
  - cbn [List.length Nat.leb]. rewrite fold_scan. cbn [birth_year fragments].
    split; [now destruct (last _)|reflexivity].
Qed.

Lemma first_year_is_year s y : first_year s = Some y -> is_birth_year y = true.
Proof.
  induction s as [|c s IH]; cbn [first_year].
  - destruct (is_birth_year (take 4 EmptyString)) eqn:E; [|discriminate].
    now intros [= <-].
  - destruct (is_birth_year (take 4 (String c s))) eqn:E; [|exact IH].
    now intros [= <-].
Qed.

(** [first_year] finds the leftmost position at which a birth year is
    written. *)
Lemma first_year_leftmost s y :
  first_year s = Some y ->
  exists n, y = take 4 (drop n s) /\
            forall m, (m < n)%nat -> is_birth_year (take 4 (drop m s)) = false.
Proof.
  induction s as [|c s IH]; cbn [first_year].
  - destruct (is_birth_year (take 4 EmptyString)) eqn:E; [|discriminate].
    intros [= <-]. exists 0%nat. split; [reflexivity|lia].
  - destruct (is_birth_year (take 4 (String c s))) eqn:E.
    + intros [= <-]. exists 0%nat. split; [reflexivity|lia].
    + intros H. destruct (IH H) as (n & Hy & Hm). exists (S n).
      split; [exact Hy|]. intros [|m] Hlt; [exact E|]. apply Hm. lia.
Qed.

Lemma take_year y b : is_birth_year y = true -> take 4 (y +:+ b) = y.
Proof.
  destruct y as [|c1 [|c2 [|c3 [|c4 [|c5 t]]]]]; try discriminate. reflexivity.
Qed.

Lemma first_year_cons c s : is_Some (first_year s) -> is_Some (first_year (String c s)).
Proof.
  intros H. cbn [first_year].
  destruct (is_birth_year (take 4 (String c s))); [eauto|exact H].
Qed.

Lemma first_year_app a y b :
  is_birth_year y = true -> is_Some (first_year (a +:+ y +:+ b)).
Proof.
  intros Hy. induction a as [|c a IH].
  - rewrite append_nil_l.
    assert (E : is_birth_year (take 4 (y +:+ b)) = true)
      by now rewrite take_year.
    destruct (y +:+ b); cbn [first_year]; rewrite E; eauto.
  - rewrite append_cons. now apply first_year_cons.
Qed.

Lemma split_cons_other sep c s :
  Ascii.eqb c sep = false ->
  exists h t, split sep s = h :: t /\ split sep (String c s) = String c h :: t.
Proof.
  intros H. cbn [split]. rewrite H.
  destruct (split sep s) as [|h t] eqn:E; [now apply split_not_nil in E|eauto].
Qed.

Lemma digit_not_dot c : is_digit c = true -> Ascii.eqb c "." = false.
Proof. destruct (Ascii.eqb_spec c "."); [subst; discriminate|reflexivity]. Qed.

(** A piece of text that starts with a birth year keeps it in its first
    fragment: a year has no dot. *)
Lemma split_year_head y b :
  is_birth_year y = true ->
  exists f t, split "." (y +:+ b) = f :: t /\ is_Some (first_year f).
Proof.
  intros Hy.
  destruct y as [|c1 [|c2 [|c3 [|c4 [|c5 t]]]]]; try discriminate.
  assert (H := Hy). cbn [is_birth_year] in H.
  apply andb_prop in H as [H H4]. apply andb_prop in H as [H12 H3].
  assert (H1 : Ascii.eqb c1 "." = false).
  { destruct (Ascii.eqb_spec c1 "."); [subst; discriminate H12|reflexivity]. }
  assert (H2 : Ascii.eqb c2 "." = false).
  { destruct (Ascii.eqb_spec c2 "."); [subst|reflexivity].
    now rewrite !andb_false_r in H12. }
  apply digit_not_dot in H3, H4.
  rewrite !append_cons, append_nil_l.
  destruct (split_cons_other "." c4 b H4) as (h4 & t4 & _ & E4).
  destruct (split_cons_other "." c3 (String c4 b) H3) as (h3 & t3 & E4' & E3).
  destruct (split_cons_other "." c2 (String c3 (String c4 b)) H2)
    as (h2 & t2 & E3' & E2).
  destruct (split_cons_other "." c1 (String c2 (String c3 (String c4 b))) H1)
    as (h1 & t1 & E2' & E1).
  rewrite E4 in E4'. injection E4' as <- <-.
  rewrite E3 in E3'. injection E3' as <- <-.
  rewrite E2 in E2'. injection E2' as <- <-.
  rewrite E1. eexists _, _. split; [reflexivity|].
  apply (first_year_app EmptyString
           (String c1 (String c2 (String c3 (String c4 EmptyString)))) h4 Hy).
Qed.

(** A username in which a birth year is written has a fragment with one. *)
Lemma year_in_some_fragment a y b :
  is_birth_year y = true ->
  exists f, In f (split "." (a +:+ y +:+ b)) /\ is_Some (first_year f).
Proof.
  intros Hy. induction a as [|c a IH].
  - rewrite append_nil_l. destruct (split_year_head y b Hy) as (f & t & -> & Hf).
    exists f. split; [now left|exact Hf].
  - rewrite append_cons. destruct IH as (f & Hin & Hf).
    destruct (Ascii.eqb c ".") eqn:E.
    + exists f. cbn [split]. rewrite E. split; [now right|exact Hf].
    + destruct (split_cons_other "." c (a +:+ y +:+ b) E) as (h & t & E1 & E2).
      rewrite E2. rewrite E1 in Hin. destruct Hin as [<-|Hin].
      * exists (String c h). split; [now left|now apply first_year_cons].
      * exists f. split; [now right|exact Hf].
Qed.

(** The last element of a filtered list comes from the last element that
    passes. *)
Lemma last_omap_split {A B} (f : A -> option B) l y :
  last (omap f l) = Some y ->
  exists pre x post,
    l = pre ++ x :: post /\ f x = Some y /\ Forall (fun z => f z = None) post.
Proof.
  induction l as [|x l IH]; [discriminate|].
  rewrite omap_cons_list, last_app.
  destruct (last (omap f l)) as [y'|] eqn:E.
  - intros [= ->]. destruct (IH eq_refl) as (pre & x' & post & -> & Hx & Hp).
    exists (x :: pre), x', post. now split.
  - intros H. exists [], x, l. split; [reflexivity|].
    destruct (f x) as [fx|]; [|discriminate H]. cbn in H. split; [exact H|].
    apply last_None in E. clear -E.
    induction l as [|z l IHl]; [constructor|].
    rewrite omap_cons_list in E. destruct (f z) eqn:Ez; [discriminate E|].
    constructor; [exact Ez|now apply IHl].
Qed.

(** C2 (amended): for a username of ASCII characters, every fragment of
    the local part is searched, in order, and each match overwrites [possibleBirthYear]: it ends up as the
    leftmost birth year of the last fragment that has one, and a username
    in which a birth year is written always yields one.  Each fragment's
    own match is deleted from it, then the remaining digits and
    underscores, before the fragment is capitalised. *)
Theorem birth_year_of_last_fragment (self : SherlockMail) :
  ascii_only (username self) = true ->
  birth_year (derive_basic_info self) = kept_birth_year (username self) /\
  fragments (derive_basic_info self) =
    omap name_fragment (split "." (username self)) /\
  forall a y b,
    username self = a +:+ y +:+ b ->
    is_birth_year y = true ->
    exists pre f post y',
      split "." (username self) = pre ++ f :: post /\
      first_year f = Some y' /\
      Forall (fun g => first_year g = None) post /\
      is_birth_year y' = true /\
      birth_year (derive_basic_info self) = Some y'.
Proof.
  intros _. destruct (derive_basic_info_plain self) as [Hb Hf].
  split; [exact Hb|]. split; [exact Hf|].
  intros a y b Hu Hy.
  destruct (year_in_some_fragment a y b Hy) as (f & Hin & [yf Hyf]).
  rewrite <- Hu in Hin.
  assert (Hsome : is_Some (kept_birth_year (username self))).
  { unfold kept_birth_year, fragment_years. apply last_is_Some.
    intros Hnil.
    assert (Hel : yf ∈ omap first_year (split "." (username self))).
    { apply list_elem_of_omap. exists f. split; [now apply list_elem_of_In|exact Hyf]. }
    rewrite Hnil in Hel. inversion Hel. }
  destruct Hsome as [y' Hy'].
  destruct (last_omap_split first_year _ y' Hy') as (pre & g & post & Hs & Hg & Hp).
  exists pre, g, post, y'.
  split; [exact Hs|]. split; [exact Hg|]. split; [exact Hp|].
  split; [exact (first_year_is_year g y' Hg)|].
  now rewrite Hb.
Qed.

Lemma birth_year_of_last_fragment_witness :
  ascii_only (username (investigator "john.doe2019" "example.com")) = true /\
  username (investigator "john.doe2019" "example.com") =
    "john.doe" +:+ "2019" +:+ "" /\
  is_birth_year "2019" = true /\
  birth_year (derive_basic_info (investigator "john.doe2019" "example.com")) =
    Some "2019" /\
  fragments (derive_basic_info (investigator "john.doe2019" "example.com")) =
    ["John"; "Doe"] /\
  exists pre f post y',
    split "." "john.doe2019" = pre ++ f :: post /\
    first_year f = Some y' /\
    Forall (fun g => first_year g = None) post /\
    is_birth_year y' = true /\
    birth_year (derive_basic_info (investigator "john.doe2019" "example.com")) =
      Some y'.
Proof.
  split; [reflexivity|]. split; [reflexivity|]. split; [reflexivity|].
  destruct (birth_year_of_last_fragment
              (investigator "john.doe2019" "example.com") eq_refl)
    as (Hb & Hf & Hy).
  split; [rewrite Hb; reflexivity|]. split; [rewrite Hf; reflexivity|].
  apply (Hy "john.doe" "2019" ""); reflexivity.
Defined.

(** C2 as stated fails: in [john1985.doe2019] the first birth year in
    fragment order is 1985, but the search goes on through the second
    fragment and the program is left with 2019. *)
Lemma birth_year_counterexample :
  split "." (username (investigator "john1985.doe2019" "example.com")) =
    ["john1985"; "doe2019"] /\
  claimed_birth_year (username (investigator "john1985.doe2019" "example.com")) =
    Some "1985" /\
  birth_year (derive_basic_info (investigator "john1985.doe2019" "example.com")) =
    Some "2019".
Proof. repeat split. Qed.

(** ** The command line *)

Lemma plus_loop_app {A} p s t (k k' : string -> option A) :
  (forall x, is_Some (k x) -> is_Some (k' (x +:+ t))) ->
  is_Some (Re.plus_loop p s k) -> is_Some (Re.plus_loop p (s +:+ t) k').
Proof.
  intros Hk. induction s as [|c s IH]; cbn [Re.plus_loop].
  - intros [x Hx]. discriminate Hx.
  - rewrite append_cons. cbn [Re.plus_loop].
    destruct (p c); [|intros [x Hx]; discriminate Hx].
    destruct (Re.plus_loop p s k) as [r|] eqn:E.
    + intros _. destruct (IH (ex_intro _ r eq_refl)) as [r' ->]. eauto.
    + intros H. apply Hk in H.
      destruct (Re.plus_loop p (s +:+ t) k'); [eauto|exact H].
Qed.

(** A pattern without [$] that matches a string matches every extension of
    it: nothing in it looks at where the string ends. *)
Lemma run_app {A} r t :
  eol_free r = true ->
  forall b s (k k' : bool -> string -> option A),
    (forall b' x, is_Some (k b' x) -> is_Some (k' b' (x +:+ t))) ->
    is_Some (Re.run r b s k) -> is_Some (Re.run r b (s +:+ t) k').
Proof.
  induction r as [c|p|r1 IH1 r2 IH2|r1 IH1 r2 IH2|p| |]; cbn [eol_free];
    intros Hfree b s k k' Hk; cbn [Re.run].
  - destruct s as [|a s]; [intros [x Hx]; discriminate Hx|].
    rewrite append_cons. destruct (Ascii.eqb a c); [apply Hk|].
    intros [x Hx]; discriminate Hx.
  - destruct s as [|a s]; [intros [x Hx]; discriminate Hx|].
    rewrite append_cons. destruct (p a); [apply Hk|].
    intros [x Hx]; discriminate Hx.
  - apply andb_prop in Hfree as [H1 H2].
    apply (IH1 H1). intros b' x. now apply (IH2 H2).
  - apply andb_prop in Hfree as [H1 H2].
    destruct (Re.run r1 b s k) as [x|] eqn:E.
    + intros _.
      destruct (IH1 H1 b s k k' Hk) as [x' ->]; [rewrite E|]; eauto.
    + intros H. apply (IH2 H2 b s k k' Hk) in H.
      destruct (Re.run r1 b (s +:+ t) k'); [eauto|exact H].
  - apply plus_loop_app. apply Hk.
  - destruct b; [apply Hk|]. intros [x Hx]; discriminate Hx.
  - discriminate Hfree.
Qed.

Lemma matched_is_Some (m : option string) : Re.matched m = true <-> is_Some m.
Proof.
  destruct m; cbn; split; eauto; intros H; [discriminate|].
  destruct H as [x Hx]; discriminate Hx.
Qed.

Lemma match_extends r s t :
  eol_free r = true ->
  Re.matched (Re.match_ r s) = true -> Re.matched (Re.match_ r (s +:+ t)) = true.
Proof.
  intros Hfree. rewrite !matched_is_Some. unfold Re.match_, Re.match_at.
  intros H.
  assert (Hs : is_Some (Re.run r true s (fun _ rest => Some rest))).
  { destruct (Re.run r true s _); [eauto|].
    destruct H as [x Hx]; discriminate Hx. }
  destruct (run_app r t Hfree true s _ (fun _ rest => Some rest)
              (fun _ _ _ => ltac:(eauto)) Hs) as [x ->].
  eauto.
Qed.

(** [e.split('@')]: the text before the first [@], then the pieces of what
    follows it. *)
Lemma split_at_span e :
  split "@" e =
    fst (span not_at e) ::
    match snd (span not_at e) with
    | EmptyString => []
    | String _ rest => split "@" rest
    end.
Proof.
  induction e as [|c e IH]; [reflexivity|].
  cbn [split span].
  replace (not_at c) with (negb (Ascii.eqb c "@")) by reflexivity.
  destruct (Ascii.eqb c "@"); cbn [negb fst snd]; [reflexivity|].
  now rewrite IH.
Qed.

Lemma no_at_in_run s : has_char "@" (fst (span not_at s)) = false.
Proof.
  unfold has_char. induction s as [|c s IH]; [reflexivity|].
  cbn [span].
  replace (not_at c) with (negb (Ascii.eqb c "@")) by reflexivity.
  rewrite (Ascii.eqb_sym c "@").
  destruct (Ascii.eqb "@" c) eqn:E; cbn [negb fst any_char]; [reflexivity|].
  now rewrite E.
Qed.

(** An accepted address has a non-empty text before its first [@]. *)
Lemma accepted_has_at e :
  accepted e = true ->
  nonempty (local_part e) = true /\
  exists rest, snd (span not_at e) = String "@" rest.
Proof.
  unfold accepted, Re.match_, Re.match_at, email_pattern, local_part.
  cbn [Re.run]. rewrite plus_loop_stop.
  - destruct (nonempty (fst (span not_at e))); [|discriminate].
    destruct (snd (span not_at e)) as [|c rest]; [discriminate|].
    destruct (Ascii.eqb_spec c "@") as [->|]; [eauto|discriminate].
  - intros c t Hc. unfold not_at in Hc. now destruct (Ascii.eqb c "@").
Qed.

Lemma init_accepted e :
  accepted e = true ->
  init e = Ret {| email := e; username := local_part e; domain := host_part e |}.
Proof.
  intros H. destruct (accepted_has_at e H) as (_ & rest & Hrest).
  unfold init, split_at, local_part, host_part, after_at.
  rewrite split_at_span, Hrest. cbn [nth_error].
  now rewrite (split_at_span rest).
Qed.

Lemma address_shape e :
  accepted e = true ->
  exists rest,
    e = local_part e +:+ "@" +:+ host_part e +:+ rest /\
    (rest = EmptyString \/ exists rest', rest = String "@" rest').
Proof.
  intros H. destruct (accepted_has_at e H) as (_ & tail & Htail).
  unfold local_part, host_part, after_at. rewrite Htail.
  exists (snd (span not_at tail)). split.
  - rewrite <- (span_app not_at e) at 1. rewrite Htail.
    now rewrite append_cons, append_nil_l, span_app.
  - destruct (snd (span not_at tail)) as [|c rest'] eqn:E; [now left|right].
    exists rest'. f_equal.
    assert (Hc : not_at c = false).
    { clear -E. induction tail as [|a tail IH]; [discriminate E|].
      cbn [span] in E. destruct (not_at a) eqn:Ea; cbn [snd] in E.
      - now apply IH.
      - now injection E as <- _. }
    unfold not_at in Hc. now destruct (Ascii.eqb_spec c "@").
Qed.

Lemma has_at_span e : has_char "@" e = nonempty (snd (span not_at e)).
Proof.
  unfold has_char. induction e as [|c e IH]; [reflexivity|].
  cbn [any_char span].
  replace (not_at c) with (negb (Ascii.eqb c "@")) by reflexivity.
  rewrite (Ascii.eqb_sym "@" c).
  destruct (Ascii.eqb c "@"); cbn [negb orb snd]; [reflexivity|exact IH].
Qed.

(** A successful greedy run splits the subject into a non-empty run of
    class characters and a rest on which the continuation succeeds. *)
Lemma plus_loop_split {A} p s (k : string -> option A) :
  is_Some (Re.plus_loop p s k) ->
  exists pre post,
    s = pre +:+ post /\ nonempty pre = true /\ all_chars p pre = true /\
    is_Some (k post).
Proof.
  induction s as [|c s IH]; cbn [Re.plus_loop].
  - intros [x Hx]. discriminate Hx.
  - destruct (p c) eqn:Ec; [|intros [x Hx]; discriminate Hx].
    destruct (Re.plus_loop p s k) as [r|] eqn:E.
    + intros _. destruct (IH (ex_intro _ r eq_refl)) as (pre & post & -> & _ & Hall & Hk).
      exists (String c pre), post. cbn [all_chars nonempty]. rewrite Ec, Hall.
      now rewrite append_cons.
    + intros Hk. exists (String c EmptyString), s. cbn [all_chars nonempty].
      now rewrite Ec.
Qed.

Lemma span_app_all p a b :
  all_chars p a = true ->
  span p (a +:+ b) = (a +:+ fst (span p b), snd (span p b)).
Proof.
  induction a as [|c a IH]; cbn [all_chars].
  - intros _. rewrite !append_nil_l. now destruct (span p b).
  - intros H. apply andb_prop in H as [Hc Ha]. rewrite !append_cons.
    cbn [span]. rewrite Hc, (IH Ha). reflexivity.
Qed.

Lemma has_char_app c a b : has_char c (a +:+ b) = has_char c a || has_char c b.
Proof.
  unfold has_char. induction a as [|x a IH]; [reflexivity|].
  rewrite append_cons. cbn [any_char]. now rewrite IH, orb_assoc.
Qed.

Lemma string_length_app a b :
  String.length (a +:+ b) = (String.length a + String.length b)%nat.
Proof. induction a as [|x a IH]; [reflexivity|]. rewrite append_cons. cbn. now rewrite IH. Qed.

(** The host of an accepted address holds a dot with text on both sides. *)
Lemma accepted_host e :
  accepted e = true ->
  has_char "." (host_part e) = true /\ 3 <= len (host_part e).
Proof.
  intros Hacc. destruct (accepted_has_at e Hacc) as (_ & rest & Hrest).
  unfold host_part, after_at. rewrite Hrest.
  unfold accepted, Re.match_, Re.match_at, email_pattern in Hacc.
  cbn [Re.run] in Hacc. rewrite plus_loop_stop in Hacc.
  2:{ intros c t Hc. unfold not_at in Hc. now destruct (Ascii.eqb c "@"). }
  destruct (nonempty (fst (span not_at e))); [|discriminate Hacc].
  rewrite Hrest in Hacc. cbn in Hacc.
  match type of Hacc with
  | Re.matched match ?X with _ => _ end = true =>
      assert (Hs : is_Some X) by (destruct X; [eauto|discriminate Hacc])
  end.
  apply plus_loop_split in Hs as (pre & post & -> & Hne & Hall & Hk).
  destruct post as [|d post]; [destruct Hk as [x Hx]; discriminate Hx|].
  destruct (Ascii.eqb_spec d ".") as [->|]; [|destruct Hk as [x Hx]; discriminate Hx].
  apply plus_loop_split in Hk as (pre2 & post2 & -> & Hne2 & Hall2 & _).
  assert (Hrun : all_chars not_at (pre +:+ String "." pre2) = true).
  { clear -Hall Hall2. induction pre as [|c pre IH].
    - rewrite append_nil_l. cbn [all_chars]. now rewrite Hall2.
    - rewrite append_cons. cbn [all_chars] in *.
      apply andb_prop in Hall as [-> Hall]. now apply IH. }
  replace (pre +:+ String "." (pre2 +:+ post2))
    with ((pre +:+ String "." pre2) +:+ post2).
  2:{ clear. induction pre as [|c pre IH]; [reflexivity|].
      rewrite !append_cons. now rewrite IH. }
  rewrite (span_app_all _ _ _ Hrun). cbn [fst].
  split.
  - rewrite !has_char_app. cbn. now rewrite orb_true_r.
  - unfold len. rewrite !string_length_app. cbn [String.length].
    destruct pre; [discriminate Hne|]. destruct pre2; [discriminate Hne2|].
    cbn [String.length]. lia.
Qed.

Lemma at_free_all s : has_char "@" s = false <-> all_chars not_at s = true.
Proof.
  unfold has_char. induction s as [|c s IH]; cbn [any_char all_chars]; [tauto|].
  unfold not_at at 1. rewrite (Ascii.eqb_sym c "@").
  destruct (Ascii.eqb "@" c); cbn [negb orb andb]; [split; discriminate|exact IH].
Qed.

(** A greedy run gives back what it must: whenever the subject starts with
    a non-empty text of the class after which the continuation succeeds,
    the run succeeds. *)
Lemma plus_loop_complete {A} p pre post (k : string -> option A) :
  nonempty pre = true -> all_chars p pre = true -> is_Some (k post) ->
  is_Some (Re.plus_loop p (pre +:+ post) k).
Proof.
  induction pre as [|c pre IH]; [discriminate|].
  intros _ Hall Hk. cbn [all_chars] in Hall. apply andb_prop in Hall as [Hc Hall].
  rewrite append_cons. cbn [Re.plus_loop]. rewrite Hc.
  destruct pre as [|c' pre].
  - rewrite append_nil_l. destruct (Re.plus_loop p post k); [eauto|exact Hk].
  - destruct (IH eq_refl Hall Hk) as [r ->]. eauto.
Qed.

(** [re.match] with the pattern of [main] succeeds exactly on the addresses
    described in words by [address_prefix]. *)
Lemma accepted_prefix e : accepted e = true <-> address_prefix e.
Proof.
  split.
  - intros Hacc. destruct (accepted_has_at e Hacc) as (Hu & rest & Hrest).
    pose proof (span_app not_at e) as He. rewrite Hrest in He.
    unfold accepted, Re.match_, Re.match_at, email_pattern in Hacc.
    cbn [Re.run] in Hacc. rewrite plus_loop_stop in Hacc.
    2:{ intros c t Hc. unfold not_at in Hc. now destruct (Ascii.eqb c "@"). }
    destruct (nonempty (fst (span not_at e))); [|discriminate Hacc].
    rewrite Hrest in Hacc. cbn in Hacc.
    match type of Hacc with
    | Re.matched match ?X with _ => _ end = true =>
        assert (Hs : is_Some X) by (destruct X; [eauto|discriminate Hacc])
    end.
    apply plus_loop_split in Hs as (pre & post & -> & Hne & Hall & Hk).
    destruct post as [|d post]; [destruct Hk as [x Hx]; discriminate Hx|].
    destruct (Ascii.eqb_spec d ".") as [->|];
      [|destruct Hk as [x Hx]; discriminate Hx].
    apply plus_loop_split in Hk as (pre2 & post2 & -> & Hne2 & Hall2 & _).
    exists (local_part e), pre, pre2, post2.
    split; [rewrite !append_cons, !append_nil_l; symmetry; exact He|].
    unfold at_free.
    split; [exact Hu|]. split; [apply no_at_in_run|].
    split; [exact Hne|]. split; [now apply at_free_all|].
    split; [exact Hne2|]. now apply at_free_all.
  - intros (u & h & t & rest & -> & Hu & Hfu & Hh & Hfh & Ht & Hft).
    unfold accepted. apply matched_is_Some.
    unfold Re.match_, Re.match_at, email_pattern.
    match goal with
    | |- is_Some match ?X with _ => _ end =>
        assert (Hs : is_Some X); [|destruct Hs as [x ->]; eauto]
    end.
    cbn [Re.run].
    unfold at_free in *.
    apply plus_loop_complete; [exact Hu|now apply at_free_all|].
    rewrite append_cons, append_nil_l. cbn [Ascii.eqb Bool.eqb].
    apply plus_loop_complete; [exact Hh|now apply at_free_all|].
    rewrite append_cons, append_nil_l. cbn [Ascii.eqb Bool.eqb].
    apply plus_loop_complete; [exact Ht|now apply at_free_all|]. eauto.
Qed.

Lemma construct_accepted l e :
  accepted e = true ->
  construct l e =
    match load_models l with
    | Ret _ => Ret {| email := e; username := local_part e; domain := host_part e |}
    | Raise => Raise
    end.
Proof.
  intros H. unfold construct. rewrite (init_accepted _ H). reflexivity.
Qed.

Lemma not_accepted e : accepted e = false <-> ~ address_prefix e.
Proof.
  rewrite <- accepted_prefix. destruct (accepted e); split; intros H;
    first [discriminate | reflexivity | now elim H | idtac].
Qed.

(** C10 (amended): [main] calls [sys.exit(1)] exactly when [sys.argv] does
    not hold one argument or the argument has no prefix of the shape
    text [@] text [.] text, the three texts non-empty and without [@]:
    this is what [re.match] with [[^@]+@[^@]+\.[^@]+] tests.  The process
    ends with status 1 in these cases and also when an exception leaves
    the constructor, which loads the models, or the investigation; it ends
    with status 0 otherwise.  The pattern has no right anchor: whatever is
    appended to an accepted address, a second [@] included, is accepted
    too; the investigator is then built with the text before the first [@]
    as username and the text between the first and the second [@] as
    domain, the rest being left aside. *)
Theorem cli_validation (l : Loader) (investigate : SherlockMail -> outcome unit)
        (argv : list string) :
  (forall e, Re.matched (Re.match_ email_pattern e) = true <-> address_prefix e) /\
  (main l argv = SysExit 1 <->
   List.length argv <> 2%nat \/ ~ address_prefix (nth 1 argv EmptyString)) /\
  (exit_status l investigate argv = 1 <->
   List.length argv <> 2%nat \/ ~ address_prefix (nth 1 argv EmptyString) \/
   load_models l = Raise \/
   investigate {| email := nth 1 argv EmptyString;
                  username := local_part (nth 1 argv EmptyString);
                  domain := host_part (nth 1 argv EmptyString) |} = Raise) /\
  (exit_status l investigate argv = 0 \/ exit_status l investigate argv = 1) /\
  forall prog e,
    argv = [prog; e] ->
    address_prefix e ->
    main l argv =
      match load_models l with
      | Ret _ =>
          RunInvestigation
            {| email := e; username := local_part e; domain := host_part e |}
      | Raise => Uncaught
      end /\
    at_free (local_part e) /\
    at_free (host_part e) /\
    (exists rest,
       e = local_part e +:+ "@" +:+ host_part e +:+ rest /\
       (rest = EmptyString \/ exists rest', rest = String "@" rest')) /\
    forall t, address_prefix (e +:+ t) /\
              Re.matched (Re.match_ email_pattern (e +:+ t)) = true.
Proof.
  split; [exact accepted_prefix|].
  set (e0 := nth 1 argv EmptyString).
  assert (Hmain : main l argv =
            if negb (Nat.eqb (List.length argv) 2) then SysExit 1
            else if negb (accepted e0) then SysExit 1
            else match load_models l with
                 | Ret _ => RunInvestigation
                              {| email := e0; username := local_part e0;
                                 domain := host_part e0 |}
                 | Raise => Uncaught
                 end).
  { unfold main. fold e0. fold (accepted e0).
    destruct (negb (Nat.eqb (List.length argv) 2)); [reflexivity|].
    destruct (accepted e0) eqn:Hacc; cbn [negb]; [|reflexivity].
    rewrite (construct_accepted _ _ Hacc). now destruct (load_models l). }
  unfold exit_status. rewrite Hmain.
  pose proof (not_accepted e0) as Hno.
  pose proof (accepted_prefix e0) as Hyes.
  repeat split.
  - destruct (Nat.eqb_spec (List.length argv) 2) as [Hlen|Hlen]; cbn [negb];
      [|now left].
    destruct (accepted e0); cbn [negb]; [|intros _; right; now apply Hno].
    destruct (load_models l); discriminate.
  - intros [Hlen|Hbad].
    + destruct (Nat.eqb_spec (List.length argv) 2); [now elim Hlen|reflexivity].
    + apply Hno in Hbad. rewrite Hbad.
      now destruct (negb (Nat.eqb (List.length argv) 2)).
  - destruct (Nat.eqb_spec (List.length argv) 2) as [Hlen|Hlen]; cbn [negb];
      [|now left].
    destruct (accepted e0); cbn [negb];
      [|intros _; right; left; now apply Hno].
    destruct (load_models l) as [[]|]; [|intros _; right; right; now left].
    destruct (investigate _); [discriminate|].
    intros _. right; right; now right.
  - destruct (Nat.eqb_spec (List.length argv) 2) as [Hlen|Hlen]; cbn [negb];
      [|reflexivity].
    destruct (accepted e0) eqn:Hacc; cbn [negb]; [|reflexivity].
    intros [H|[H|[H|H]]].
    + now elim H.
    + elim H. now apply Hyes.
    + now rewrite H.
    + destruct (load_models l); [now rewrite H|reflexivity].
  - destruct (negb (Nat.eqb (List.length argv) 2)); [now right|].
    destruct (negb (accepted e0)); [now right|].
    destruct (load_models l); [|now right].
    destruct (investigate _); [now left|now right].
  - subst argv. unfold e0 in *. cbn [List.length Nat.eqb negb nth] in *.
    match goal with
    | Hp : address_prefix _ |- _ => apply accepted_prefix in Hp; rewrite Hp
    end.
    reflexivity.
  - apply no_at_in_run.
  - apply no_at_in_run.
  - apply address_shape. now apply accepted_prefix.
  - apply accepted_prefix. apply match_extends; [reflexivity|].
    now apply accepted_prefix.
  - apply match_extends; [reflexivity|]. now apply accepted_prefix.
Qed.

Lemma cli_validation_witness :
  address_prefix "john@example.com" /\
  address_prefix "john@example.com@evil.org" /\
  main ready ["sherlock_mail.py"; "john@example.com@evil.org"] =
    RunInvestigation
      {| email := "john@example.com@evil.org";
         username := "john"; domain := "example.com" |}.
Proof.
  assert (H1 : address_prefix "john@example.com").
  { exists "john", "example", "com", "". repeat split. }
  assert (H2 : address_prefix "john@example.com@evil.org").
  { apply (proj2 (proj2 (proj2 (proj2
             (cli_validation ready (fun _ => Ret tt)
                ["sherlock_mail.py"; "john@example.com"]))))
             "sherlock_mail.py" "john@example.com" eq_refl H1). }
  split; [exact H1|]. split; [exact H2|].
  apply (proj2 (proj2 (proj2 (proj2
           (cli_validation ready (fun _ => Ret tt)
              ["sherlock_mail.py"; "john@example.com@evil.org"]))))
           "sherlock_mail.py" "john@example.com@evil.org" eq_refl H2).
Defined.

(** C10 as stated fails: with one argument that passes the test, the
    process still ends with status 1 when the spaCy model is not installed,
    the exception of [spacy.load] leaving the constructor and [main]; the
    same command line ends with status 0 where everything loads.  It ends
    with status 1 as well when the investigation raises, as it does for
    [a/b@example.com] once [open] is given the report name
    [report_a/b_....json] in a directory without [report_a]. *)
Lemma uncaught_exit_counterexample :
  List.length ["sherlock_mail.py"; "john@example.com"] = 2%nat /\
  Re.matched (Re.match_ email_pattern "john@example.com") = true /\
  main missing_model ["sherlock_mail.py"; "john@example.com"] = Uncaught /\
  exit_status missing_model (fun _ => Ret tt)
    ["sherlock_mail.py"; "john@example.com"] = 1 /\
  exit_status ready (fun _ => Ret tt)
    ["sherlock_mail.py"; "john@example.com"] = 0 /\
  Re.matched (Re.match_ email_pattern "a/b@example.com") = true /\
  exit_status ready (fun _ => Raise) ["sherlock_mail.py"; "a/b@example.com"] = 1.
Proof. repeat split. Qed.

(** * Further properties of the code *)

(** ** [__init__] and [main] *)

(** What [split('@')] gives [__init__]: it raises exactly on an address
    without [@]. *)
Lemma init_run e :
  (init e = Raise <-> has_char "@" e = false) /\
  (forall self,
     init e = Ret self ->
     email self = e /\ username self = local_part e /\ domain self = host_part e).
Proof.
  unfold init, split_at, local_part, host_part, after_at.
  rewrite has_at_span, split_at_span. cbn [nth_error].
  destruct (snd (span not_at e)) as [|c rest]; cbn [nonempty nth_error].
  - split; [split; reflexivity|discriminate].
  - rewrite (split_at_span rest). cbn [nth_error]. split.
    + split; discriminate.
    + intros self [= <-]. repeat split.
Qed.

Lemma ensure_resource_raises l resource package :
  ensure_resource l resource package = Raise <->
  resource_fails l resource package.
Proof.
  unfold ensure_resource, resource_fails.
  destruct (nltk_data_find l resource); split.
  - discriminate.
  - intros [H|[H _]]; discriminate H.
  - intros H. right. now split.
  - now intros [H|[_ H]]; [discriminate H|].
  - intros _. now left.
  - reflexivity.
Qed.

Lemma load_models_raises l :
  load_models l = Raise <->
  pipeline l "sentiment-analysis" = Raise \/
  spacy_load l "en_core_web_sm" = Raise \/
  resource_fails l "tokenizers/punkt" "punkt" \/
  resource_fails l "corpora/stopwords" "stopwords".
Proof.
  rewrite <- !ensure_resource_raises. unfold load_models, and_then.
  destruct (pipeline l _); [|split; [now left|reflexivity]].
  destruct (spacy_load l _); [|split; [right; now left|reflexivity]].
  destruct (ensure_resource l "tokenizers/punkt" "punkt");
    [|split; [right; right; now left|reflexivity]].
  split; [intros H; right; right; now right|].
  intros [H|[H|[H|H]]]; first [discriminate H | exact H].
Qed.

(** X1: the constructor raises exactly when the address holds no [@] (the
    [IndexError] of [split('@')[1]]) or the models cannot be loaded, that
    is when the sentiment pipeline or the spaCy model raises, or an NLTK
    resource is missing and its download raises, or looking it up fails
    with another exception.  When it returns, the username is the text
    before the first [@] and the domain the text between the first and the
    second. *)
Theorem constructor_raises_exactly_when (l : Loader) (e : string) :
  (construct l e = Raise <-> has_char "@" e = false \/ load_models l = Raise) /\
  (load_models l = Raise <->
   pipeline l "sentiment-analysis" = Raise \/
   spacy_load l "en_core_web_sm" = Raise \/
   resource_fails l "tokenizers/punkt" "punkt" \/
   resource_fails l "corpora/stopwords" "stopwords") /\
  (forall self,
     construct l e = Ret self ->
     email self = e /\ username self = local_part e /\ domain self = host_part e).
Proof.
  destruct (init_run e) as [Hraise Hret].
  split; [|split; [apply load_models_raises|]].
  - unfold construct, and_then. destruct (init e) as [self|].
    + destruct (load_models l); split.
      * discriminate.
      * intros [H|H]; [|discriminate H]. apply Hraise in H. discriminate H.
      * intros _. now right.
      * reflexivity.
    + split; [intros _; left; now apply Hraise|reflexivity].
  - intros self. unfold construct, and_then.
    destruct (init e) as [self'|]; [|discriminate].
    destruct (load_models l); [|discriminate].
    intros [= <-]. now apply Hret.
Qed.

Lemma constructor_raises_exactly_when_witness :
  construct ready "john.doe" = Raise /\
  construct no_network "john@example.com" = Raise /\
  construct ready "john@example.com@evil.org" =
    Ret {| email := "john@example.com@evil.org";
           username := "john"; domain := "example.com" |}.
Proof.
  split; [apply (proj2 (proj1 (constructor_raises_exactly_when ready "john.doe")));
          left; reflexivity|].
  split.
  { apply (proj2 (proj1 (constructor_raises_exactly_when no_network
                           "john@example.com"))).
    right.
    apply (proj2 (proj1 (proj2 (constructor_raises_exactly_when no_network
                                  "john@example.com")))).
    right; right; left. right. split; reflexivity. }
  destruct (construct ready "john@example.com@evil.org") as [self|] eqn:E.
  - destruct (proj2 (proj2 (constructor_raises_exactly_when ready
                              "john@example.com@evil.org")) self E)
      as (H1 & H2 & H3).
    destruct self as [e u d]. cbn in H1, H2, H3. now subst.
  - apply (proj1 (proj1 (constructor_raises_exactly_when ready
                           "john@example.com@evil.org"))) in E.
    destruct E as [E|E]; discriminate E.
Defined.

(** X2: [main] ends in one of three ways.  It exits with code 1; or the
    address passed the test and loading the models raised, an exception
    that nothing catches; or the models loaded and it starts the
    investigation, with a non-empty username without [@] and a domain of at
    least three characters that holds a dot.  After the test,
    [split('@')[1]] never raises. *)
Theorem main_exits_or_investigates (l : Loader) (argv : list string) :
  main l argv = SysExit 1 \/
  (main l argv = Uncaught /\
   Re.matched (Re.match_ email_pattern (nth 1 argv EmptyString)) = true /\
   load_models l = Raise) \/
  exists investigator,
    main l argv = RunInvestigation investigator /\
    load_models l = Ret tt /\
    init (nth 1 argv EmptyString) = Ret investigator /\
    nonempty (username investigator) = true /\
    has_char "@" (username investigator) = false /\
    has_char "." (domain investigator) = true /\
    3 <= len (domain investigator).
Proof.
  unfold main. destruct (Nat.eqb (List.length argv) 2); cbn [negb]; [|now left].
  fold (accepted (nth 1 argv EmptyString)).
  destruct (accepted (nth 1 argv EmptyString)) eqn:Hacc; cbn [negb]; [|now left].
  right. unfold construct, and_then. rewrite (init_accepted _ Hacc).
  destruct (load_models l) as [[]|]; [right|now left].
  eexists. split; [reflexivity|]. split; [reflexivity|]. split; [reflexivity|].
  cbn [username domain].
  split; [apply (accepted_has_at _ Hacc)|].
  split; [apply no_at_in_run|]. now apply accepted_host.
Qed.

(** ** The catalog of candidate URLs *)

(** Cutting a string at a character and joining the pieces with it gives
    the string back. *)
Lemma join_split sep s : join (String sep EmptyString) (split sep s) = s.
Proof.
  induction s as [|c s IH]; [reflexivity|].
  cbn [split]. destruct (Ascii.eqb_spec c sep) as [->|Hc].
  - destruct (split sep s) as [|h t] eqn:E; [now apply split_not_nil in E|].
    cbn [join] in *. now rewrite IH.
  - destruct (split sep s) as [|h t] eqn:E; [now apply split_not_nil in E|].
    destruct t as [|h' t]; cbn [join] in *.
    + now rewrite IH.
    + rewrite append_cons. now rewrite IH.
Qed.

(** X3: Facebook's derived candidate, when it exists, is its primary candidate
    once more: the username cut at its dots and joined with dots again. *)
Theorem facebook_variant_is_primary (self : SherlockMail) (urls : list (option string)) :
  In ("Facebook", urls) (social_platforms self) ->
  Forall (fun c => c = "https://www.facebook.com/" +:+ username self)
         (candidates urls).
Proof.
  intros H. unfold social_platforms in H. cbn [In] in H.
  catalog_cases H. injection H as <-.
  rewrite (join_split "." (username self)). unfold if_many.
  destruct (1 <? List.length (split "." (username self)))%nat;
    repeat constructor.
Qed.

Lemma facebook_variant_is_primary_witness :
  Forall (fun c => c = "https://www.facebook.com/john.doe")
         ["https://www.facebook.com/john.doe"; "https://www.facebook.com/john.doe"].
Proof.
  apply (facebook_variant_is_primary (investigator "john.doe" "example.com")
           [Some "https://www.facebook.com/john.doe";
            Some "https://www.facebook.com/john.doe"]).
  do 9 right. left. reflexivity.
Defined.

(** X4: For a username without a dot no derived variant is built: every
    platform has its primary URL as only candidate, except LinkedIn, whose
    joined form repeats the primary URL. *)
Theorem dotless_username_primary_only (self : SherlockMail)
        (p : string) (urls : list (option string)) :
  has_char "." (username self) = false ->
  In (p, urls) (social_platforms self) ->
  exists c,
    head urls = Some (Some c) /\
    ((p = "LinkedIn" /\ candidates urls = [c; c]) \/
     (p <> "LinkedIn" /\ candidates urls = [c])).
Proof.
  intros Hdot H. unfold social_platforms in H.
  rewrite (split_no_sep _ _ Hdot) in H. cbn [In] in H.
  repeat (destruct H as [H|H];
          [injection H as <- <-; eexists; split; [reflexivity|];
           first [left; split; reflexivity | right; split; [discriminate|reflexivity]]|]).
  destruct H.
Qed.

Lemma dotless_username_primary_only_witness :
  exists c,
    head [Some "https://github.com/johndoe"; None] = Some (Some c) /\
    (("GitHub" = "LinkedIn" /\
      candidates [Some "https://github.com/johndoe"; None] = [c; c]) \/
     ("GitHub" <> "LinkedIn" /\
      candidates [Some "https://github.com/johndoe"; None] = [c])).
Proof.
  apply (dotless_username_primary_only (investigator "johndoe" "example.com")
           "GitHub" [Some "https://github.com/johndoe"; None]); [reflexivity|].
  do 2 right. left. reflexivity.
Defined.

(** ** The requests of [analyze_personal_info] *)

Lemma for_platforms_requested w self catalog st :
  requested
    (exec (for_platforms
             (fun platform urls => for_urls (probe_url w self platform) urls)
             catalog) st) =
  requested st ++ concat (map (fun p => tried w (candidates (snd p))) catalog).
Proof.
  revert st. induction catalog as [|[p urls] rest IH]; intros st.
  - cbn. now rewrite app_nil_r.
  - rewrite for_platforms_step, IH. cbn [requested map concat snd].
    now rewrite app_assoc.
Qed.

Lemma tried_length w cands :
  (List.length (tried w cands) <= List.length cands)%nat /\
  (cands <> [] -> 1 <= List.length (tried w cands))%nat.
Proof.
  induction cands as [|c cands [IH1 IH2]]; [split; [reflexivity|congruence]|].
  cbn [tried]. destruct (positive_match w c); cbn [List.length]; split; lia.
Qed.

Lemma requests_between w (catalog : list (string * list (option string))) :
  Forall (fun p => candidates (snd p) <> []) catalog ->
  (List.length catalog
   <= List.length (concat (map (fun p => tried w (candidates (snd p))) catalog))
   <= List.length (concat (map (fun p => candidates (snd p)) catalog)))%nat.
Proof.
  induction 1 as [|p catalog Hp _ IH]; [cbn; lia|].
  cbn [map concat List.length]. rewrite !length_app.
  destruct (tried_length w (candidates (snd p))) as [H1 H2].
  specialize (H2 Hp). lia.
Qed.

(** X5: [analyze_personal_info] makes at least one request per platform and
    never more than 29; for a username without a dot never more than 15. *)
Theorem request_count_bounds (w : World) (self : SherlockMail) :
  (14 <= List.length (requests_made w self) <= 29)%nat /\
  (has_char "." (username self) = false ->
   List.length (requests_made w self) <= 15)%nat.
Proof.
  unfold requests_made, discover_profiles.
  rewrite for_platforms_requested. cbn [requested probe_init app].
  assert (Hne : Forall (fun p : string * list (option string) =>
                          candidates (snd p) <> [])
                       (social_platforms self))
    by (repeat constructor; discriminate).
  pose proof (requests_between w _ Hne) as Hb.
  assert (Hdot : has_char "." (username self) = false ->
                 (1 <? List.length (split "." (username self)))%nat = false).
  { intros H. now rewrite (split_no_sep _ _ H). }
  revert Hb Hdot.
  generalize (concat (map (fun p => tried w (candidates (snd p)))
                        (social_platforms self))) as reqs.
  intros reqs. unfold social_platforms, if_many.
  destruct (1 <? List.length (split "." (username self)))%nat;
    cbn [map concat snd candidates omap List.length app id mbind option_bind];
    intros [Hlo Hhi] Hdot; simpl in Hhi; (split; [lia|]); intros H;
    first [lia | specialize (Hdot H); discriminate Hdot].
Qed.

Lemma set_field_other key k element (profile : gmap string string) :
  key <> k -> set_field key element profile !! k = profile !! k.
Proof.
  intros H. unfold set_field. destruct element; [|reflexivity].
  now rewrite lookup_insert_ne.
Qed.

Lemma profile_of_url self platform url r :
  profile_of self platform url r !! "url" = Some url.
Proof.
  unfold profile_of, found_profile, extract.
  destruct (String.eqb platform "GitHub");
    [|destruct (String.eqb platform "LinkedIn");
      [|destruct (String.eqb platform "Twitter")]];
    rewrite ?set_field_other by discriminate;
    rewrite !lookup_insert_ne by discriminate;
    apply lookup_insert_eq.
Qed.

Lemma profile_of_username self platform url r :
  profile_of self platform url r !! "username" = Some (username self).
Proof.
  unfold profile_of, found_profile, extract.
  destruct (String.eqb platform "GitHub");
    [|destruct (String.eqb platform "LinkedIn");
      [|destruct (String.eqb platform "Twitter")]];
    rewrite ?set_field_other by discriminate;
    rewrite !lookup_insert_ne by discriminate;
    apply lookup_insert_eq.
Qed.

Lemma positive_match_200 w u r : positive_match w u = Some r -> answers_200 w u = true.
Proof.
  unfold positive_match, answers_200, is_profile_page.
  destruct (http_get w u) as [r'|]; [|discriminate].
  now destruct (status_code r' =? 200).
Qed.

(** X6: Whatever [analyze_personal_info] records sits under the name of a
    catalog platform, and holds under "url" a candidate of that platform
    that answered 200 and under "username" the username. *)
Theorem recorded_profile_fields (w : World) (self : SherlockMail)
        (p : string) (profile : gmap string string) :
  discovered w self !! p = Some profile ->
  exists urls u,
    In (p, urls) (social_platforms self) /\
    In u (candidates urls) /\
    answers_200 w u = true /\
    profile !! "url" = Some u /\
    profile !! "username" = Some (username self).
Proof.
  intros H.
  destruct (decide (p ∈ platform_names (social_platforms self))) as [Hin|Hout].
  - apply list_elem_of_In, in_map_iff in Hin as ([q urls] & Hq & Hin).
    cbn in Hq. subst q.
    rewrite (discovered_lookup w self p urls Hin) in H.
    destruct (first_match w (candidates urls)) as [[u r]|] eqn:E; [|discriminate H].
    injection H as <-. apply first_match_some in E as [Hu Hr].
    exists urls, u. split; [exact Hin|]. split; [exact Hu|].
    split; [exact (positive_match_200 w u r Hr)|].
    split; [apply profile_of_url|apply profile_of_username].
  - unfold discovered, discover_profiles in H.
    rewrite for_platforms_frame in H by (now rewrite <- list_elem_of_In).
    cbn in H. rewrite lookup_empty in H. discriminate H.
Qed.

Lemma recorded_profile_fields_witness :
  exists urls u,
    In ("GitHub", urls) (social_platforms (investigator "john.doe" "example.com")) /\
    In u (candidates urls) /\
    answers_200 all_found u = true /\
    profile_of (investigator "john.doe" "example.com") "GitHub"
      "https://github.com/john.doe"
      (page 200 profile_html (Some (Some "Profile"))) !! "url" = Some u /\
    profile_of (investigator "john.doe" "example.com") "GitHub"
      "https://github.com/john.doe"
      (page 200 profile_html (Some (Some "Profile"))) !! "username" =
      Some "john.doe".
Proof.
  apply (recorded_profile_fields all_found (investigator "john.doe" "example.com")
           "GitHub").
  vm_compute. reflexivity.
Defined.

(** ** [analyze_social_footprint] *)

Lemma footprint_after_score w p url f :
  visibility_score (footprint_after w p url f) =
    visibility_score f + (if answers_200 w url then 125 else 0) /\
  fp_risk_level (footprint_after w p url f) = fp_risk_level f /\
  fp_recommendations (footprint_after w p url f) = fp_recommendations f.
Proof.
  unfold footprint_after, answers_200.
  destruct (http_get w url) as [r|]; [destruct (status_code r =? 200)|];
    cbn; repeat split; lia.
Qed.

Lemma fold_check_score w catalog f :
  let g := fold_left (fun f p => footprint_after w (fst p) (snd p) f) catalog f in
  visibility_score g =
    visibility_score f +
    125 * Z.of_nat (List.length (List.filter (fun p => answers_200 w (snd p)) catalog)) /\
  fp_risk_level g = fp_risk_level f /\
  fp_recommendations g = fp_recommendations f.
Proof.
  revert f. induction catalog as [|[p url] rest IH]; intros f.
  - cbn. repeat split. lia.
  - cbn [fold_left fst snd List.filter]. cbv zeta in *.
    destruct (IH (footprint_after w p url f)) as (-> & -> & ->).
    destruct (footprint_after_score w p url f) as (-> & -> & ->).
    repeat split. destruct (answers_200 w url); cbn [List.length]; lia.
Qed.

(** X7: The visibility score (in tenths of a point) is 12.5 points per platform
    that answered 200, hence between 0 and 100 points; the level is High
    from six such platforms on, Medium for four or five, Low below, and
    exactly one recommendation is given. *)
Theorem visibility_by_active_count (w : World) (self : SherlockMail) :
  exists f,
    analyze_social_footprint w self = Ret f /\
    0 <= active_count w self <= 8 /\
    visibility_score f = 125 * active_count w self /\
    fp_risk_level f =
      (if 6 <=? active_count w self then High
       else if 4 <=? active_count w self then Medium else Low) /\
    List.length (fp_recommendations f) = 1%nat.
Proof.
  unfold analyze_social_footprint, footprint_body, eval.
  unfold bind at 1. rewrite for_each_check_run.
  destruct (fold_check_score w (footprint_platforms self) footprint_init)
    as (Hs & Hl & Hr).
  cbv zeta in Hs, Hl, Hr. fold (active_count w self) in Hs.
  set (g := fold_left _ _ _) in *. cbn [visibility_score footprint_init] in Hs.
  assert (Hc : 0 <= active_count w self <= 8).
  { unfold active_count. split; [lia|].
    pose proof (filter_length (fun p => answers_200 w (snd p))
                  (footprint_platforms self)) as H.
    cbn [footprint_platforms List.length] in H.
    change (filter (fun p => answers_200 w (snd p)) ?l)
      with (List.filter (fun p => answers_200 w (snd p)) l) in H.
    cbn [footprint_platforms]. lia. }
  unfold rate_visibility. unfold_monad.
  destruct (visibility_score g >=? 750) eqn:E1;
    [|destruct (visibility_score g >=? 500) eqn:E2];
    eexists; (split; [reflexivity|]); cbn [visibility_score fp_risk_level
      fp_recommendations]; rewrite ?Hr, ?Hl; cbn [footprint_init
      fp_recommendations fp_risk_level app List.length];
    (split; [exact Hc|]); (split; [lia|]); (split; [|reflexivity]).
  - destruct (6 <=? active_count w self) eqn:E; [reflexivity|lia].
  - destruct (6 <=? active_count w self) eqn:E; [lia|].
    destruct (4 <=? active_count w self) eqn:E'; [reflexivity|lia].
  - destruct (6 <=? active_count w self) eqn:E; [lia|].
    destruct (4 <=? active_count w self) eqn:E'; [lia|reflexivity].
Qed.

(** X8: A platform that answers, but not with 200, gets no entry at all:
    neither found nor not found. *)
Theorem non_200_leaves_no_entry (w : World) (self : SherlockMail)
        (p url : string) (r : response) :
  In (p, url) (footprint_platforms self) ->
  http_get w url = Ret r ->
  status_code r <> 200 ->
  exists f, analyze_social_footprint w self = Ret f /\ fp_platforms f !! p = None.
Proof.
  intros Hin Hget Hstatus.
  destruct (analyze_social_footprint_run w self) as (f & Hf & Hp).
  exists f. split; [exact Hf|]. rewrite Hp. unfold footprint_checked.
  rewrite (fold_check_lookup w _ footprint_init p url
             (footprint_platforms_nodup self) Hin).
  unfold checked_entry. rewrite Hget.
  destruct (Z.eqb_spec (status_code r) 200); [contradiction|].
  apply lookup_empty.
Qed.

Lemma non_200_leaves_no_entry_witness :
  exists f,
    analyze_social_footprint all_missing (investigator "john.doe" "example.com") =
      Ret f /\
    fp_platforms f !! "Twitter" = None.
Proof.
  apply (non_200_leaves_no_entry all_missing
           (investigator "john.doe" "example.com") "Twitter"
           "https://twitter.com/john.doe"
           (page 404 missing_html (Some (Some "Not Found")))).
  - do 2 right. left. reflexivity.
  - reflexivity.
  - discriminate.
Defined.

(** ** The scores together *)

Lemma analyze_email_reputation_run w self :
  analyze_email_reputation w self =
    Ret {| rep_score := Z.min (reputation_sum w self) 100;
           rep_factor_list := reputation_factor_list w self;
           rep_risk_level := reputation_risk_level (reputation_sum w self) |}.
Proof.
  unfold analyze_email_reputation, reputation_body, reputation_sum,
    reputation_factor_list, known_domain_age, add_reputation,
    reputation_risk_level.
  unfold_monad.
  destruct (whois w (domain self)) as [e|]; simpl;
    [destruct (creation_truthy (creation_date e)); simpl;
     [destruct (first_date (creation_date e)) as [cd|]; simpl;
      [destruct (days_since (now w) cd) as [age|]; simpl;
       [destruct (age >? 365); simpl|]|]|]|];
    destruct (Re.matched (Re.match_ professional_email_pattern (username self)));
    simpl;
    try destruct (Re.matched (Re.match_ simple_email_pattern (username self)));
    simpl;
    destruct ((6 <=? len (username self)) && (len (username self) <=? 24));
    simpl; reflexivity.
Qed.

Lemma analyze_security_risks_run w self :
  analyze_security_risks w self =
    Ret {| sec_risks := security_risk_list w self;
           sec_level := security_level_of w self;
           sec_recommendations := recommendations_for (security_risk_list w self) |}.
Proof.
  unfold analyze_security_risks, security_body, security_rules,
    security_init, rule_short_username, rule_contains_numbers, rule_full_name,
    rule_domain_age, add_risk, set_level, security_risk_list, security_level_of,
    domain_age_verdict, recommendations_for.
  abstract_security_tests w self. intros c3 c2 c1.
  unfold_monad.
  destruct (whois w (domain self)) as [e|]; simpl;
    [destruct (creation_truthy (creation_date e)); simpl;
     [destruct (first_date (creation_date e)) as [cd|]; simpl;
      [destruct (days_since (now w) cd) as [age|]; simpl;
       [destruct (age <? 365); simpl|]|]|]|];
    destruct c1, c2, c3; reflexivity.
Qed.

(** X9: The reputation score never goes down when the domain gets older: of
    two runs that differ in the domain's known age only, the one with the
    older domain scores at least as much. *)
Theorem reputation_monotone_in_age (w1 w2 : World) (self : SherlockMail)
        (age1 age2 : Z) :
  known_domain_age w1 (domain self) = Some age1 ->
  known_domain_age w2 (domain self) = Some age2 ->
  age1 <= age2 ->
  exists r1 r2,
    analyze_email_reputation w1 self = Ret r1 /\
    analyze_email_reputation w2 self = Ret r2 /\
    rep_score r1 <= rep_score r2.
Proof.
  intros H1 H2 Hle. rewrite !analyze_email_reputation_run.
  eexists _, _. split; [reflexivity|]. split; [reflexivity|].
  cbn [rep_score]. unfold reputation_sum. rewrite H1, H2.
  destruct (age1 >? 365) eqn:E1, (age2 >? 365) eqn:E2; lia.
Qed.

Lemma reputation_monotone_in_age_witness :
  exists r1 r2,
    analyze_email_reputation (aged 365) (investigator "john.doe" "example.com") =
      Ret r1 /\
    analyze_email_reputation (aged 366) (investigator "john.doe" "example.com") =
      Ret r2 /\
    rep_score r1 <= rep_score r2.
Proof.
  apply (reputation_monotone_in_age (aged 365) (aged 366)
           (investigator "john.doe" "example.com") 365 366);
    [reflexivity|reflexivity|lia].
Defined.

(** X10: Around the one-year mark: the reputation counts the domain's age only
    above 365 days and the security analysis flags it only below, so a
    domain exactly 365 days old gets neither the bonus nor the flag. *)
Theorem domain_age_boundary (w : World) (self : SherlockMail) (age : Z) :
  known_domain_age w (domain self) = Some age ->
  exists r s,
    analyze_email_reputation w self = Ret r /\
    analyze_security_risks w self = Ret s /\
    (In ("Domain age: " +:+ str_of_int age +:+ " days") (rep_factor_list r) <->
     365 < age) /\
    (In risk_young_domain (sec_risks s) <-> age < 365).
Proof.
  intros Hage. rewrite analyze_email_reputation_run, analyze_security_risks_run.
  eexists _, _. split; [reflexivity|]. split; [reflexivity|].
  cbn [rep_factor_list sec_risks]. split.
  - unfold reputation_factor_list. rewrite Hage.
    abstract_reputation_tests self. intros c3 c2 c1.
    destruct (Z.gtb_spec age 365).
    + split; [lia|]. intros _. now left.
    + split; [|lia]. cbn [app]. rewrite in_app_iff, in_app_iff.
      destruct c1, c2, c3; cbn; rewrite ?append_cons; intuition discriminate.
  - unfold security_risk_list, domain_age_verdict.
    unfold known_domain_age in Hage.
    abstract_security_tests w self. intros c3 c2 c1.
    destruct (whois w (domain self)) as [e|]; [|discriminate Hage].
    destruct (creation_truthy (creation_date e)); [|discriminate Hage].
    destruct (first_date (creation_date e)) as [cd|]; [|discriminate Hage].
    destruct (days_since (now w) cd) as [a|]; [|discriminate Hage].
    injection Hage as ->.
    destruct (Z.ltb_spec age 365).
    + split; [lia|]. intros _. rewrite !in_app_iff. do 3 right. now left.
    + split; [|lia]. rewrite !in_app_iff.
      destruct c1, c2, c3; cbn; intuition discriminate.
Qed.

Lemma domain_age_boundary_witness :
  exists r s,
    analyze_email_reputation (aged 365) (investigator "john.doe" "example.com") =
      Ret r /\
    analyze_security_risks (aged 365) (investigator "john.doe" "example.com") =
      Ret s /\
    ~ In "Domain age: 365 days" (rep_factor_list r) /\
    ~ In risk_young_domain (sec_risks s).
Proof.
  destruct (domain_age_boundary (aged 365)
              (investigator "john.doe" "example.com") 365 eq_refl)
    as (r & s & Hr & Hs & Hbonus & Hflag).
  exists r, s. split; [exact Hr|]. split; [exact Hs|]. split.
  - intros H. apply Hbonus in H. lia.
  - intros H. apply Hflag in H. lia.
Defined.

(** X11: The professional score lies between 0 and 80, and the level is High
    exactly when the username has the full-name format, the domain is one
    of the four providers, the characters are clean and no digit occurs. *)
Theorem professional_high_needs_all (self : SherlockMail) :
  exists r,
    analyze_professional_score self = Ret r /\
    0 <= prof_score r <= 80 /\
    (prof_level r = High <->
     raw_full_name_format self = true /\
     existsb (String.eqb (domain self)) professional_domains = true /\
     Re.matched (Re.match_ clean_pattern (username self)) = true /\
     any_char is_digit (username self) = false).
Proof.
  unfold analyze_professional_score, eval. fold professional_init.
  rewrite professional_body_run. cbv zeta. cbn [fst].
  eexists. split; [reflexivity|]. cbn [prof_score prof_level].
  unfold professional_level.
  abstract_professional_tests self. intros c4 c3 c2.
  destruct (raw_full_name_format self), c2, c3, c4,
    (any_char is_digit (username self)); cbn;
    (split; [lia|]); split; intuition discriminate.
Qed.

(** X12: The same dot that earns the full-name award of the professional score
    is a risk for the security analysis: whenever the award is given, the
    flag "Contains full name" is raised and the risk level is at least
    Medium. *)
Theorem full_name_award_is_a_risk (w : World) (self : SherlockMail) :
  raw_full_name_format self = true ->
  exists p s,
    analyze_professional_score self = Ret p /\
    analyze_security_risks w self = Ret s /\
    In "Full name format (firstname.lastname)" (prof_factors p) /\
    In risk_full_name (sec_risks s) /\
    level_le Medium (sec_level s) = true.
Proof.
  intros Hraw. unfold analyze_professional_score, eval. fold professional_init.
  rewrite professional_body_run, analyze_security_risks_run. cbv zeta. cbn [fst].
  eexists _, _. split; [reflexivity|]. split; [reflexivity|].
  cbn [prof_factors sec_risks sec_level].
  split; [now apply full_name_factor_iff|].
  pose proof (raw_full_name_needs_dot self) as Hdot. rewrite Hraw in Hdot.
  rewrite andb_true_r in Hdot.
  unfold security_risk_list, security_level_of. rewrite Hdot. split.
  - rewrite !in_app_iff. right. right. left. now left.
  - rewrite orb_true_r. now destruct (domain_age_verdict w (domain self)).
Qed.

Lemma full_name_award_is_a_risk_witness :
  exists p s,
    analyze_professional_score (investigator "john.doe" "gmail.com") = Ret p /\
    analyze_security_risks (aged 4000) (investigator "john.doe" "gmail.com") = Ret s /\
    In "Full name format (firstname.lastname)" (prof_factors p) /\
    In risk_full_name (sec_risks s) /\
    level_le Medium (sec_level s) = true.
Proof.
  apply (full_name_award_is_a_risk (aged 4000) (investigator "john.doe" "gmail.com")).
  reflexivity.
Defined.

(** X13: For a username of ASCII characters, the security analysis finds nothing, and recommends "Good security
    practices detected" at level Low, exactly when the username has at
    least 6 characters, no digit and no dot, and the look at the domain's
    age neither failed nor found the domain younger than 365 days. *)
Theorem no_risk_exactly_when (w : World) (self : SherlockMail) :
  ascii_only (username self) = true ->
  exists s,
    analyze_security_risks w self = Ret s /\
    (sec_risks s = [] <->
     6 <= len (username self) /\
     any_char is_digit (username self) = false /\
     has_char "." (username self) = false /\
     domain_age_verdict w (domain self) = Settled) /\
    (sec_risks s = [] <->
     sec_recommendations s = ["Good security practices detected"]) /\
    (sec_risks s = [] -> sec_level s = Low).
Proof.
  intros _. rewrite analyze_security_risks_run. eexists. split; [reflexivity|].
  cbn [sec_risks sec_level sec_recommendations].
  unfold security_risk_list, security_level_of, recommendations_for.
  destruct (Z.ltb_spec (len (username self)) 6),
    (any_char is_digit (username self)), (has_char "." (username self)),
    (domain_age_verdict w (domain self)); cbn;
    repeat split; intros; try discriminate; try lia;
    repeat match goal with H : _ /\ _ |- _ => destruct H end;
    try discriminate; try lia; try reflexivity.
Qed.

(** X14: A WHOIS answer whose creation date is an empty list is read three
    ways: the domain analysis takes it for a failure and keeps only the
    error record, the security analysis raises no flag about the domain,
    and the reputation gives no age bonus. *)
Theorem empty_creation_date_list (w : World) (self : SherlockMail) (e : whois_entry) :
  whois w (domain self) = Ret e ->
  creation_date e = DateList [] ->
  analyze_domain w (domain self) =
    Ret (DomainError (domain self) "Could not fetch domain information") /\
  exists r s,
    analyze_email_reputation w self = Ret r /\
    analyze_security_risks w self = Ret s /\
    known_domain_age w (domain self) = None /\
    ~ In risk_young_domain (sec_risks s) /\
    ~ In risk_unverified_domain (sec_risks s).
Proof.
  intros Hw Hd. split.
  - rewrite analyze_domain_run, Hw, Hd. reflexivity.
  - rewrite analyze_email_reputation_run, analyze_security_risks_run.
    eexists _, _. split; [reflexivity|]. split; [reflexivity|].
    cbn [sec_risks]. unfold known_domain_age, security_risk_list, domain_age_verdict.
    rewrite Hw, Hd. cbn [creation_truthy]. split; [reflexivity|].
    abstract_security_tests w self. intros c3 c2 c1.
    destruct c1, c2, c3; cbn; intuition discriminate.
Qed.

Lemma empty_creation_date_list_witness :
  analyze_domain dateless "example.com" =
    Ret (DomainError "example.com" "Could not fetch domain information") /\
  exists r s,
    analyze_email_reputation dateless (investigator "johndoe" "example.com") = Ret r /\
    analyze_security_risks dateless (investigator "johndoe" "example.com") = Ret s /\
    known_domain_age dateless "example.com" = None /\
    ~ In risk_young_domain (sec_risks s) /\
    ~ In risk_unverified_domain (sec_risks s).
Proof.
  apply (empty_creation_date_list dateless (investigator "johndoe" "example.com")
           {| creation_date := DateList []; org := None; country := None |});
    reflexivity.
Defined.

(** ** The identity derived from the username *)

Lemma starts_with_take p s : starts_with p s = true -> take (String.length p) s = p.
Proof.
  revert s. induction p as [|a p IH]; intros [|b s]; cbn; try discriminate;
    [reflexivity|reflexivity|].
  intros H. apply andb_prop in H as [Hab Hp].
  apply Ascii.eqb_eq in Hab as ->. now rewrite (IH _ Hp).
Qed.

(** Deleting the occurrences of a text made of characters that a filter
    drops anyway does not change what the filter keeps. *)
Lemma filter_delete_from dq old s skip :
  nonempty old = true ->
  all_chars dq old = true ->
  all_chars dq (take skip s) = true ->
  filter_chars (fun c => negb (dq c)) (delete_from old skip s) =
  filter_chars (fun c => negb (dq c)) s.
Proof.
  intros Hne Hold. revert skip. induction s as [|c s IH]; intros skip Hskip;
    [reflexivity|].
  cbn [delete_from]. destruct skip as [|k].
  - destruct (starts_with old (String c s)) eqn:E.
    + destruct old as [|o old']; [discriminate Hne|].
      cbn [starts_with] in E. apply andb_prop in E as [Ho E].
      apply Ascii.eqb_eq in Ho as ->.
      cbn [all_chars] in Hold. apply andb_prop in Hold as [Hc Hold'].
      cbn [String.length Nat.pred filter_chars]. rewrite Hc. cbn [negb].
      apply IH. now rewrite (starts_with_take _ _ E).
    + cbn [filter_chars]. rewrite (IH 0%nat eq_refl). reflexivity.
  - cbn [take all_chars] in Hskip. apply andb_prop in Hskip as [Hc Hk].
    cbn [filter_chars]. rewrite Hc. cbn [negb]. now apply IH.
Qed.

Lemma birth_year_digits y : is_birth_year y = true -> all_chars is_digit y = true.
Proof.
  destruct y as [|c1 [|c2 [|c3 [|c4 [|c5 t]]]]]; try discriminate.
  cbn [is_birth_year all_chars]. intros H.
  apply andb_prop in H as [H H4]. apply andb_prop in H as [H12 H3].
  rewrite H3, H4.
  apply orb_prop in H12 as [H|H]; apply andb_prop in H as [H1 H2];
    apply Ascii.eqb_eq in H1 as ->; apply Ascii.eqb_eq in H2 as ->; reflexivity.
Qed.

Lemma all_chars_impl (p q : ascii -> bool) s :
  (forall c, p c = true -> q c = true) ->
  all_chars p s = true -> all_chars q s = true.
Proof.
  intros Hpq. induction s as [|c s IH]; [reflexivity|]. cbn [all_chars].
  intros H. apply andb_prop in H as [Hc Hs]. now rewrite (Hpq _ Hc), IH.
Qed.

(** Deleting the matched year is invisible in the result: digits are
    dropped from the piece anyway. *)
Lemma name_fragment_plain part : name_fragment part = plain_fragment part.
Proof.
  unfold name_fragment, plain_fragment, stripped.
  destruct (first_year part) as [y|] eqn:E; [|reflexivity].
  pose proof (first_year_is_year _ _ E) as Hy.
  unfold delete_all. rewrite filter_delete_from; [reflexivity| | |reflexivity].
  - now destruct y.
  - apply (all_chars_impl is_digit); [|now apply birth_year_digits].
    intros c Hc. unfold is_digit_or_underscore. now rewrite Hc.
Qed.

Lemma derive_basic_info_record self :
  derive_basic_info self =
    {| birth_year := kept_birth_year (username self);
       fragments := omap plain_fragment (split "." (username self));
       name_guess :=
         name_of_fragments (omap plain_fragment (split "." (username self))) |}.
Proof.
  unfold derive_basic_info, kept_birth_year, fragment_years, name_of_fragments.
  destruct (split "." (username self)) as [|part parts] eqn:E;
    [now apply split_not_nil in E|].
  cbn [List.length Nat.leb]. rewrite fold_scan. cbn [possible_birth_year name_parts app].
  rewrite (list_omap_ext name_fragment plain_fragment (part :: parts) (part :: parts)).
  - f_equal. now destruct (last (omap first_year (part :: parts))).
  - apply Forall2_same_length_lookup_2; [reflexivity|].
    intros i x y Hx Hy. rewrite Hx in Hy. injection Hy as <-.
    apply name_fragment_plain.
Qed.

(** X15: For a username of ASCII characters, the name fragments are the pieces of the username between dots, each
    with its digits and underscores dropped and then capitalised, the
    pieces left empty being skipped: deleting the matched birth year first
    never changes a fragment. *)
Theorem year_deletion_is_invisible (self : SherlockMail) :
  ascii_only (username self) = true ->
  fragments (derive_basic_info self) =
    omap plain_fragment (split "." (username self)) /\
  name_guess (derive_basic_info self) =
    name_of_fragments (fragments (derive_basic_info self)).
Proof. intros _. rewrite derive_basic_info_record. split; reflexivity. Qed.

Lemma year_deletion_is_invisible_witness :
  fragments (derive_basic_info (investigator "john1985.doe_2019" "example.com")) =
    omap plain_fragment ["john1985"; "doe_2019"] /\
  name_guess (derive_basic_info (investigator "john1985.doe_2019" "example.com")) =
    name_of_fragments ["John"; "Doe"].
Proof.
  destruct (year_deletion_is_invisible
              (investigator "john1985.doe_2019" "example.com") eq_refl)
    as [Hf Hn].
  split; [exact Hf|]. rewrite Hn, Hf. reflexivity.
Defined.

Lemma case_keeps_class c :
  is_digit_or_underscore (to_upper c) = is_digit_or_underscore c /\
  is_digit_or_underscore (to_lower c) = is_digit_or_underscore c.
Proof. destruct c as [[] [] [] [] [] [] [] []]; split; reflexivity. Qed.

Lemma case_idempotent c :
  to_upper (to_upper c) = to_upper c /\ to_lower (to_lower c) = to_lower c.
Proof. destruct c as [[] [] [] [] [] [] [] []]; split; reflexivity. Qed.

Lemma alpha_is_kept c : is_alpha c = true -> is_digit_or_underscore c = false.
Proof.
  destruct c as [[] [] [] [] [] [] [] []]; vm_compute; intros H;
    first [reflexivity | discriminate H].
Qed.

Lemma lower_keeps_class s :
  any_char is_digit_or_underscore (lower s) = any_char is_digit_or_underscore s.
Proof.
  unfold lower. induction s as [|c s IH]; [reflexivity|].
  cbn [map_chars any_char]. now rewrite IH, (proj2 (case_keeps_class c)).
Qed.

Lemma capitalize_keeps_class s :
  any_char is_digit_or_underscore (capitalize s) =
  any_char is_digit_or_underscore s.
Proof.
  destruct s as [|c s]; [reflexivity|]. cbn [capitalize any_char].
  now rewrite lower_keeps_class, (proj1 (case_keeps_class c)).
Qed.

Lemma lower_idempotent s : lower (lower s) = lower s.
Proof.
  unfold lower. induction s as [|c s IH]; [reflexivity|].
  cbn [map_chars]. now rewrite IH, (proj2 (case_idempotent c)).
Qed.

Lemma capitalize_idempotent s : capitalize (capitalize s) = capitalize s.
Proof.
  destruct s as [|c s]; [reflexivity|]. cbn [capitalize].
  now rewrite lower_idempotent, (proj1 (case_idempotent c)).
Qed.

Lemma stripped_clean part : any_char is_digit_or_underscore (stripped part) = false.
Proof.
  unfold stripped. induction part as [|c part IH]; [reflexivity|].
  cbn [filter_chars]. destruct (is_digit_or_underscore c) eqn:E; cbn [negb];
    [exact IH|]. cbn [any_char]. now rewrite E, IH.
Qed.

Lemma capitalize_nonempty s : nonempty (capitalize s) = nonempty s.
Proof. now destruct s. Qed.

Lemma plain_fragment_some part f :
  plain_fragment part = Some f ->
  nonempty f = true /\ any_char is_digit_or_underscore f = false /\
  capitalize f = f.
Proof.
  unfold plain_fragment. destruct (nonempty (stripped part)) eqn:E; [|discriminate].
  intros [= <-]. split; [now rewrite capitalize_nonempty|]. split.
  - rewrite capitalize_keeps_class. apply stripped_clean.
  - apply capitalize_idempotent.
Qed.

Lemma omap_length_le {A B} (f : A -> option B) l :
  (List.length (omap f l) <= List.length l)%nat.
Proof.
  induction l as [|x l IH]; [reflexivity|]. rewrite omap_cons_list, length_app.
  destruct (f x); cbn; lia.
Qed.

(** X16: For a username of ASCII characters, every name fragment is non-empty, free of digits and underscores, and
    capitalised; there are at most as many fragments as pieces between the
    dots of the username. *)
Theorem name_fragments_are_clean (self : SherlockMail) :
  ascii_only (username self) = true ->
  Forall (fun f => nonempty f = true /\
                   any_char is_digit_or_underscore f = false /\
                   capitalize f = f)
         (fragments (derive_basic_info self)) /\
  (List.length (fragments (derive_basic_info self))
   <= List.length (split "." (username self)))%nat.
Proof.
  intros _.
  rewrite derive_basic_info_record. cbn [fragments]. split; [|apply omap_length_le].
  apply Forall_forall. intros f Hf.
  apply list_elem_of_omap in Hf as (part & _ & Hpart).
  now apply plain_fragment_some in Hpart.
Qed.

Lemma name_fragments_are_clean_witness :
  fragments (derive_basic_info (investigator "john_1985..DOE" "example.com")) =
    ["John"; "Doe"] /\
  (List.length (fragments (derive_basic_info
                             (investigator "john_1985..DOE" "example.com")))
   <= 3)%nat /\
  capitalize "John" = "John".
Proof.
  destruct (name_fragments_are_clean
              (investigator "john_1985..DOE" "example.com") eq_refl)
    as [Hall Hlen].
  split; [reflexivity|]. split; [exact Hlen|].
  apply Forall_inv in Hall. apply Hall.
Defined.

Lemma stripped_empty part :
  nonempty (stripped part) = negb (all_chars is_digit_or_underscore part).
Proof.
  unfold stripped. induction part as [|c part IH]; [reflexivity|].
  cbn [filter_chars all_chars]. destruct (is_digit_or_underscore c); cbn; [exact IH|reflexivity].
Qed.

Lemma pieces_nameless u :
  forallb (all_chars is_digit_or_underscore) (split "." u) =
  all_chars is_nameless u.
Proof.
  unfold is_nameless. induction u as [|c u IH]; [reflexivity|].
  cbn [split all_chars]. destruct (Ascii.eqb c ".") eqn:E.
  - cbn [forallb all_chars andb]. rewrite orb_true_r. exact IH.
  - rewrite orb_false_r.
    destruct (split "." u) as [|h t] eqn:Es; [now apply split_not_nil in Es|].
    cbn [forallb all_chars] in *. rewrite <- IH. now rewrite andb_assoc.
Qed.

Lemma fragments_nil parts :
  omap plain_fragment parts = [] <->
  forallb (all_chars is_digit_or_underscore) parts = true.
Proof.
  induction parts as [|part parts IH]; [now split|].
  rewrite omap_cons_list. cbn [forallb]. unfold plain_fragment at 1.
  rewrite stripped_empty.
  destruct (all_chars is_digit_or_underscore part); cbn [negb option_list app andb].
  - exact IH.
  - split; discriminate.
Qed.

(** X17: For a username of ASCII characters, no name is guessed exactly
    when the username is made of digits,
    underscores and dots only (the empty username included). *)
Theorem no_name_exactly_when (self : SherlockMail) :
  ascii_only (username self) = true ->
  name_guess (derive_basic_info self) = None <->
  all_chars is_nameless (username self) = true.
Proof.
  intros _. rewrite derive_basic_info_record. cbn [name_guess].
  rewrite <- pieces_nameless, <- fragments_nil. unfold name_of_fragments.
  destruct (omap plain_fragment (split "." (username self))); split;
    try reflexivity; discriminate.
Qed.

Lemma no_name_exactly_when_witness :
  name_guess (derive_basic_info (investigator "2019_01" "example.com")) = None.
Proof.
  apply (proj2 (no_name_exactly_when (investigator "2019_01" "example.com")
                  eq_refl)).
  reflexivity.
Defined.

Lemma alpha_not_dot c : is_alpha c = true -> Ascii.eqb c "." = false.
Proof. destruct (Ascii.eqb_spec c "."); [subst; discriminate|reflexivity]. Qed.

Lemma no_class_char (p : ascii -> bool) c s :
  p c = false -> all_chars p s = true -> has_char c s = false.
Proof.
  intros Hc. unfold has_char. induction s as [|a s IH]; [reflexivity|].
  cbn [all_chars any_char]. intros H. apply andb_prop in H as [Ha Hs].
  destruct (Ascii.eqb_spec c a) as [->|]; [congruence|]. now apply IH.
Qed.

Lemma split_app_sep sep a b :
  has_char sep a = false ->
  split sep (a +:+ String sep b) = a :: split sep b.
Proof.
  unfold has_char. induction a as [|c a IH]; intros H.
  - rewrite append_nil_l. cbn [split]. now rewrite Ascii.eqb_refl.
  - cbn [any_char] in H. apply orb_false_elim in H as [Hc Ha].
    rewrite append_cons. cbn [split]. rewrite (Ascii.eqb_sym c sep), Hc.
    now rewrite (IH Ha).
Qed.

Lemma filter_chars_all p s : all_chars p s = true -> filter_chars p s = s.
Proof.
  induction s as [|c s IH]; [reflexivity|]. cbn [all_chars filter_chars].
  intros H. apply andb_prop in H as [-> Hs]. now rewrite (IH Hs).
Qed.

Lemma stripped_alpha s : all_chars is_alpha s = true -> stripped s = s.
Proof.
  intros H. apply filter_chars_all. revert H. apply all_chars_impl.
  intros c Hc. now rewrite (alpha_is_kept _ Hc).
Qed.

Lemma digit_free_no_year s : any_char is_digit s = false -> first_year s = None.
Proof.
  induction s as [|c s IH]; [reflexivity|]. cbn [any_char first_year].
  intros H. apply orb_false_elim in H as [Hc Hs].
  destruct (is_birth_year (take 4 (String c s))) eqn:E; [|now apply IH].
  apply birth_year_digits in E. cbn [take all_chars] in E.
  rewrite Hc in E. discriminate E.
Qed.

Lemma alpha_digit_free s : all_chars is_alpha s = true -> any_char is_digit s = false.
Proof.
  induction s as [|c s IH]; [reflexivity|]. cbn [all_chars any_char].
  intros H. apply andb_prop in H as [Hc Hs]. rewrite (IH Hs), orb_false_r.
  apply alpha_is_kept in Hc. unfold is_digit_or_underscore in Hc.
  now apply orb_false_elim in Hc as [-> _].
Qed.

Lemma plain_fragment_alpha s : isalpha s = true -> plain_fragment s = Some (capitalize s).
Proof.
  unfold isalpha, plain_fragment. intros H. apply andb_prop in H as [Hne Hall].
  now rewrite (stripped_alpha _ Hall), Hne.
Qed.

(** X18: For a username of the shape [first.last], two non-empty words of
    letters, the identity is exactly the two words capitalised, with no
    birth year. *)
Theorem first_last_identity (self : SherlockMail) (a b : string) :
  username self = a +:+ "." +:+ b ->
  isalpha a = true ->
  isalpha b = true ->
  derive_basic_info self =
    {| birth_year := None;
       fragments := [capitalize a; capitalize b];
       name_guess :=
         Some {| pn_first := capitalize a;
                 pn_last := Some (capitalize b);
                 pn_full := capitalize a +:+ " " +:+ capitalize b |} |}.
Proof.
  intros Hu Ha Hb. rewrite derive_basic_info_record, Hu.
  assert (Ha' := Ha). assert (Hb' := Hb). unfold isalpha in Ha', Hb'.
  apply andb_prop in Ha' as [_ Haa]. apply andb_prop in Hb' as [_ Hbb].
  unfold kept_birth_year, fragment_years.
  rewrite append_cons, append_nil_l.
  rewrite split_app_sep by (apply (no_class_char is_alpha); [reflexivity|exact Haa]).
  rewrite (split_no_sep "." b)
    by (apply (no_class_char is_alpha); [reflexivity|exact Hbb]).
  rewrite !omap_cons_list.
  rewrite (plain_fragment_alpha _ Ha), (plain_fragment_alpha _ Hb).
  rewrite (digit_free_no_year a (alpha_digit_free _ Haa)).
  rewrite (digit_free_no_year b (alpha_digit_free _ Hbb)).
  reflexivity.
Qed.

Lemma first_last_identity_witness :
  derive_basic_info (investigator "john.doe" "example.com") =
    {| birth_year := None;
       fragments := ["John"; "Doe"];
       name_guess :=
         Some {| pn_first := "John"; pn_last := Some "Doe"; pn_full := "John Doe" |} |}.
Proof.
  apply (first_last_identity (investigator "john.doe" "example.com") "john" "doe");
    reflexivity.
Defined.

Lemma take_drop n s : take n s +:+ drop n s = s.
Proof.
  revert s. induction n as [|n IH]; intros [|c s]; try reflexivity.
  cbn [take drop]. now rewrite append_cons, IH.
Qed.

Lemma append_assoc_s a b c : (a +:+ b) +:+ c = a +:+ b +:+ c.
Proof.
  induction a as [|x a IH]; [reflexivity|]. now rewrite !append_cons, IH.
Qed.

Lemma first_year_sub s y : first_year s = Some y -> exists a b, s = a +:+ y +:+ b.
Proof.
  intros H. destruct (first_year_leftmost s y H) as (n & -> & _).
  exists (take n s), (drop 4 (drop n s)). now rewrite !take_drop.
Qed.

Lemma split_head_prefix sep s h t : split sep s = h :: t -> exists b, s = h +:+ b.
Proof.
  revert h t. induction s as [|c s IH]; intros h t.
  - intros [= <- <-]. now exists EmptyString.
  - cbn [split]. destruct (Ascii.eqb c sep).
    + intros [= <- _]. now exists (String c s).
    + destruct (split sep s) as [|h' t'] eqn:E; [now apply split_not_nil in E|].
      intros [= <- <-]. destruct (IH h' t' eq_refl) as [b ->].
      now exists b.
Qed.

(** Every piece of a split is written in the string. *)
Lemma split_sub sep s f : In f (split sep s) -> exists a b, s = a +:+ f +:+ b.
Proof.
  revert f. induction s as [|c s IH]; intros f.
  - intros [<-|[]]. now exists EmptyString, EmptyString.
  - cbn [split]. destruct (Ascii.eqb c sep).
    + intros [<-|Hin]; [now exists EmptyString, (String c s)|].
      destruct (IH f Hin) as (a & b & ->). now exists (String c a), b.
    + destruct (split sep s) as [|h t] eqn:E; [now apply split_not_nil in E|].
      intros [<-|Hin].
      * destruct (split_head_prefix sep s h t E) as [b ->].
        now exists EmptyString, b.
      * destruct (IH f (or_intror Hin)) as (a & b & ->).
        now exists (String c a), b.
Qed.

Lemma is_Some_None {A} (o : option A) : ~ is_Some o -> o = None.
Proof. destruct o; [intros H; elim H; eauto|reflexivity]. Qed.

(** X19: For a username of ASCII characters, the birth year is absent exactly when no 19xx or 20xx is written
    anywhere in the username, and a birth year that is reported is written
    in the username. *)
Theorem birth_year_exactly_when_written (self : SherlockMail) :
  ascii_only (username self) = true ->
  (birth_year (derive_basic_info self) = None <->
   forall a y b, username self = a +:+ y +:+ b -> is_birth_year y = false) /\
  (forall y,
     birth_year (derive_basic_info self) = Some y ->
     is_birth_year y = true /\ exists a b, username self = a +:+ y +:+ b).
Proof.
  intros _. rewrite derive_basic_info_record. cbn [birth_year].
  unfold kept_birth_year, fragment_years.
  assert (Hsome : forall y,
             last (omap first_year (split "." (username self))) = Some y ->
             is_birth_year y = true /\ exists a b, username self = a +:+ y +:+ b).
  { intros y Hy.
    destruct (last_omap_split first_year _ y Hy) as (pre & f & post & Hs & Hf & _).
    split; [exact (first_year_is_year f y Hf)|].
    destruct (first_year_sub f y Hf) as (a' & b' & ->).
    destruct (split_sub "." (username self) (a' +:+ y +:+ b')) as (a & b & Hu).
    { rewrite Hs. apply in_elt. }
    exists (a +:+ a'), (b' +:+ b). rewrite Hu.
    now rewrite !append_assoc_s. }
  split; [|exact Hsome]. split.
  - intros Hnone a y b Hu. destruct (is_birth_year y) eqn:Hy; [|reflexivity].
    destruct (year_in_some_fragment a y b Hy) as (f & Hin & [yf Hyf]).
    rewrite <- Hu in Hin.
    assert (Hel : yf ∈ omap first_year (split "." (username self))).
    { apply list_elem_of_omap. exists f. split; [now apply list_elem_of_In|exact Hyf]. }
    apply last_None in Hnone. rewrite Hnone in Hel. inversion Hel.
  - intros Hall.
    destruct (last (omap first_year (split "." (username self)))) as [y|] eqn:E;
      [|reflexivity].
    destruct (Hsome y eq_refl) as (Hy & a & b & Hu).
    rewrite (Hall a y b Hu) in Hy. discriminate Hy.
Qed.

Lemma birth_year_exactly_when_written_witness :
  birth_year (derive_basic_info (investigator "john.doe" "example.com")) = None /\
  is_birth_year "1985" = true /\
  exists a b, "john1985.doe" = a +:+ "1985" +:+ b.
Proof.
  split; [reflexivity|].
  apply (proj2 (birth_year_exactly_when_written
                  (investigator "john1985.doe" "example.com") eq_refl) "1985").
  reflexivity.
Defined.

(** ** [analyze_name_patterns] *)

Lemma fold_keep_name parts acc :
  fold_left keep_name parts acc =
    acc ++ List.filter (fun part => isalpha part && (len part >? 2)) parts.
Proof.
  revert acc. induction parts as [|part parts IH]; intros acc.
  - cbn. now rewrite app_nil_r.
  - cbn [fold_left List.filter]. rewrite IH. unfold keep_name.
    destruct (isalpha part && (len part >? 2)); [|reflexivity].
    now rewrite <- app_assoc.
Qed.

Lemma fold_keep_entity l acc :
  fold_left keep_entity l acc =
    acc ++ List.filter
             (fun ent => existsb (String.eqb (ent_label ent)) ["PERSON"; "ORG"]) l.
Proof.
  revert acc. induction l as [|ent l IH]; intros acc.
  - cbn. now rewrite app_nil_r.
  - cbn [fold_left List.filter]. rewrite IH. unfold keep_entity.
    destruct (existsb (String.eqb (ent_label ent)) ["PERSON"; "ORG"]);
      [|reflexivity].
    now rewrite <- app_assoc.
Qed.

(** X20: The name analysis fails only with the language model.  For a
    username of ASCII characters, each possible name it returns is a word of at least three letters and, capitalised,
    one of the name fragments of the identity; each entity it keeps is a
    person or an organisation. *)
Theorem possible_names_are_fragments (m : Models) (self : SherlockMail) :
  (analyze_name_patterns m self = Raise <->
   nlp m (dots_to_spaces (username self)) = Raise) /\
  forall info,
    ascii_only (username self) = true ->
    analyze_name_patterns m self = Ret info ->
    Forall (fun name =>
              isalpha name = true /\ 3 <= len name /\
              In (capitalize name) (fragments (derive_basic_info self)))
           (possible_names info) /\
    Forall (fun ent => ent_label ent = "PERSON" \/ ent_label ent = "ORG")
           (entities info).
Proof.
  unfold analyze_name_patterns, and_then.
  destruct (nlp m (dots_to_spaces (username self))) as [doc|].
  - split; [split; discriminate|]. intros info _ [= <-].
    cbn [possible_names entities]. rewrite fold_keep_name, fold_keep_entity.
    cbn [app]. split.
    + apply Forall_forall. intros name Hname.
      apply list_elem_of_In, filter_In in Hname as [Hin Hp].
      apply andb_prop in Hp as [Halpha Hlen].
      split; [exact Halpha|]. split; [lia|].
      rewrite derive_basic_info_record. cbn [fragments].
      apply list_elem_of_In, list_elem_of_omap. exists name.
      split; [now apply list_elem_of_In|now apply plain_fragment_alpha].
    + apply Forall_forall. intros ent Hent.
      apply list_elem_of_In, filter_In in Hent as [_ Hl]. cbn [existsb] in Hl.
      destruct (String.eqb_spec (ent_label ent) "PERSON"); [now left|].
      destruct (String.eqb_spec (ent_label ent) "ORG"); [now right|discriminate Hl].
  - split; [split; reflexivity|discriminate].
Qed.

Lemma possible_names_are_fragments_witness :
  analyze_name_patterns plain_models (investigator "john.doe2019" "example.com") =
    Ret {| entities := []; possible_names := ["john"]; language_pattern := "en" |} /\
  In "John" (fragments (derive_basic_info (investigator "john.doe2019" "example.com"))).
Proof.
  split; [reflexivity|].
  destruct (proj2 (possible_names_are_fragments plain_models
                     (investigator "john.doe2019" "example.com")) _ eq_refl eq_refl)
    as [Hnames _].
  apply Forall_inv in Hnames. apply Hnames.
Defined.

(** ** [extract_keywords] *)



(** ** [analyze_social_presence] *)

Lemma record_items_urls items d :
  pd_urls (snd (for_each record_item items d)) = pd_urls d.
Proof.
  revert d. induction items as [|item items IH]; intros d; [reflexivity|].
  cbn [for_each]. unfold bind at 1. unfold record_item, set_profile_data.
  unfold_monad.
  destruct (subscript (item_login item)); [|reflexivity].
  destruct (subscript (item_html_url item)); [|reflexivity].
  destruct (subscript (item_type item)); [|reflexivity].
  cbn. now rewrite IH.
Qed.

(** One visit returns, and adds the URL exactly when it answered 200,
    whatever happens to the analysis of the page afterwards. *)
Lemma visit_url_run m w platform url d :
  exists d',
    visit_url m w platform url d = (Ret tt, d') /\
    pd_urls d' = pd_urls d ++ (if answers_200 w url then [url] else []).
Proof.
  unfold visit_url, answers_200, append_url, set_sentiment, set_keywords,
    set_errors.
  unfold try_except, bind at 1, lift.
  destruct (http_get w url) as [r|]; [|eexists; split; [reflexivity|cbn; now rewrite app_nil_r]].
  unfold when. destruct (status_code r =? 200);
    [|eexists; split; [reflexivity|cbn; now rewrite app_nil_r]].
  unfold bind, lift, modify, ret.
  destruct (extract_keywords m (get_text m r)) as [kw|];
    [|eexists; split; [reflexivity|reflexivity]].
  destruct (String.eqb platform "GitHub" && contains "api" url);
    [|eexists; split; [reflexivity|reflexivity]].
  destruct (json m r) as [data|]; [|eexists; split; [reflexivity|reflexivity]].
  destruct (default 0 (total_count data) >? 0);
    [|eexists; split; [reflexivity|reflexivity]].
  destruct (subscript (items data)) as [its|];
    [|eexists; split; [reflexivity|reflexivity]].
  match goal with
  | |- context [for_each record_item its ?d0] =>
      pose proof (record_items_urls its d0) as Hu;
      destruct (for_each record_item its d0) as [[[]|] d1]
  end; cbn [snd] in Hu; eexists; (split; [reflexivity|]); cbn [pd_urls] in *;
    exact Hu.
Qed.

Lemma visit_urls_run m w platform urls d :
  exists d',
    for_each (visit_url m w platform) urls d = (Ret tt, d') /\
    pd_urls d' = pd_urls d ++ List.filter (answers_200 w) urls.
Proof.
  revert d. induction urls as [|url urls IH]; intros d.
  - exists d. split; [reflexivity|]. cbn. now rewrite app_nil_r.
  - destruct (visit_url_run m w platform url d) as (d1 & H1 & Hu1).
    destruct (IH d1) as (d2 & H2 & Hu2).
    exists d2. cbn [for_each]. unfold bind. rewrite H1. split; [exact H2|].
    rewrite Hu2, Hu1. cbn [List.filter].
    destruct (answers_200 w url); [now rewrite <- app_assoc|now rewrite app_nil_r].
Qed.

Lemma visit_platform_run m w acc p :
  exists d,
    pd_urls d = List.filter (answers_200 w) (snd p) /\
    visit_platform m w acc p =
      Ret match List.filter (answers_200 w) (snd p) with
          | _ :: _ => <[fst p := d]> acc
          | [] => acc
          end.
Proof.
  destruct (visit_urls_run m w (fst p) (snd p) platform_data_init)
    as (d & Hrun & Hu).
  cbn [pd_urls platform_data_init app] in Hu.
  exists d. split; [exact Hu|]. unfold visit_platform. now rewrite Hrun, Hu.
Qed.

Lemma visit_platforms_run m w catalog acc :
  NoDup (platform_names catalog) ->
  exists result,
    visit_platforms m w catalog acc = Ret result /\
    (forall p, ~ In p (platform_names catalog) -> result !! p = acc !! p) /\
    (forall p urls,
       In (p, urls) catalog ->
       match List.filter (answers_200 w) urls with
       | _ :: _ =>
           exists d, result !! p = Some d /\
                     pd_urls d = List.filter (answers_200 w) urls
       | [] => result !! p = acc !! p
       end).
Proof.
  revert acc. induction catalog as [|[q urls'] rest IH]; intros acc Hnd.
  - exists acc. split; [reflexivity|]. split; [reflexivity|]. intros p urls [].
  - cbn [platform_names map fst] in Hnd. apply NoDup_cons in Hnd as [Hq Hnd].
    destruct (visit_platform_run m w acc (q, urls')) as (d & Hd & Hv).
    cbn [fst snd] in Hd, Hv. cbn [visit_platforms]. rewrite Hv. cbn [and_then].
    destruct (IH (match List.filter (answers_200 w) urls' with
                  | _ :: _ => <[q := d]> acc
                  | [] => acc
                  end) Hnd) as (result & Hres & Hframe & Hlook).
    exists result. split; [exact Hres|]. split.
    + intros p Hp. rewrite Hframe by (intros H; apply Hp; now right).
      assert (q <> p) by (intros ->; apply Hp; now left).
      destruct (List.filter (answers_200 w) urls'); [reflexivity|].
      now rewrite lookup_insert_ne.
    + intros p urls [[= -> ->]|Hin].
      * rewrite Hframe by (now rewrite <- list_elem_of_In).
        destruct (List.filter (answers_200 w) urls) eqn:E; [reflexivity|].
        exists d. rewrite lookup_insert_eq. now split.
      * specialize (Hlook p urls Hin).
        assert (q <> p).
        { intros ->. apply Hq. apply list_elem_of_In.
          change (In (fst (p, urls)) (map fst rest)). now apply in_map. }
        destruct (List.filter (answers_200 w) urls); [|exact Hlook].
        rewrite Hlook. destruct (List.filter (answers_200 w) urls'); [reflexivity|].
        now rewrite lookup_insert_ne.
Qed.

Lemma presence_platforms_nodup self : NoDup (platform_names (presence_platforms self)).
Proof.
  change (NoDup ["Twitter"; "Instagram"; "LinkedIn"; "GitHub"; "Medium"]).
  apply (bool_decide_unpack _). vm_compute. exact I.
Qed.

(** X22: The social analysis always returns.  A platform is in the result
    exactly when one of its URLs answered 200, and then its "urls" are the
    URLs that answered 200, in order, whether or not the analysis of their
    pages failed; nothing is kept under any other name. *)
Theorem presence_exactly_when_200 (m : Models) (w : World) (self : SherlockMail) :
  exists result,
    analyze_social_presence m w self = Ret result /\
    (forall p, ~ In p (platform_names (presence_platforms self)) ->
               result !! p = None) /\
    (forall p urls,
       In (p, urls) (presence_platforms self) ->
       match List.filter (answers_200 w) urls with
       | _ :: _ =>
           exists d, result !! p = Some d /\
                     pd_urls d = List.filter (answers_200 w) urls
       | [] => result !! p = None
       end).
Proof.
  destruct (visit_platforms_run m w (presence_platforms self) ∅
              (presence_platforms_nodup self)) as (result & Hres & Hframe & Hlook).
  exists result. split; [exact Hres|]. split.
  - intros p Hp. rewrite (Hframe p Hp). apply lookup_empty.
  - intros p urls Hin. specialize (Hlook p urls Hin).
    destruct (List.filter (answers_200 w) urls); [|exact Hlook].
    rewrite Hlook. apply lookup_empty.
Qed.

Lemma presence_exactly_when_200_witness :
  exists result,
    analyze_social_presence broken_models all_found
      (investigator "john.doe" "example.com") = Ret result /\
    exists d, result !! "GitHub" = Some d /\
              pd_urls d = ["https://github.com/john.doe";
                           "https://api.github.com/search/users?q=john.doe@example.com"].
Proof.
  destruct (presence_exactly_when_200 broken_models all_found
              (investigator "john.doe" "example.com"))
    as (result & Hres & _ & Hlook).
  exists result. split; [exact Hres|].
  apply (Hlook "GitHub" ["https://github.com/john.doe";
                         "https://api.github.com/search/users?q=john.doe@example.com"]).
  do 3 right. left. reflexivity.
Defined.

(** ** [run_investigation] and [create_detailed_report] *)

Lemma analyze_social_presence_returns m w self :
  exists social, analyze_social_presence m w self = Ret social.
Proof.
  destruct (visit_platforms_run m w (presence_platforms self) ∅
              (presence_platforms_nodup self)) as (result & Hres & _).
  now exists result.
Qed.

(** X23: For an investigator built by [__init__], the loop over the four tasks
    always ends, with only the name analysis able to fail: the confidence
    reads 100 when it returned and 99 when it raised, the sources count the
    keys of the result dictionaries (3, 3, one per platform kept, 7), and
    the personal information is stored under its task's description. *)
Theorem confidence_after_tasks (m : Models) (str_lines : task_result -> Z)
        (w : World) (e : string) (self : SherlockMail) :
  init e = Ret self ->
  exists social info st,
    analyze_social_presence m w self = Ret social /\
    analyze_personal_info w self = Ret info /\
    run_tasks m str_lines w self run_init = (Ret tt, st) /\
    stat_confidence st =
      match analyze_name_patterns m self with Ret _ => 100 | Raise => 99 end /\
    stat_sources st =
      match analyze_name_patterns m self with Ret _ => 3 | Raise => 0 end
      + 3 + Z.of_nat (size social) + 7 /\
    results st !! "👥 Gathering personal information..." = Some (PersonalResult info).
Proof.
  intros Hinit.
  destruct (analyze_social_presence_returns m w self) as [social Hsocial].
  destruct (analyze_personal_info_returns w e self Hinit) as [info Hinfo].
  exists social, info.
  unfold run_tasks, tasks, run_task, record_result, as_task, and_then.
  rewrite analyze_email_reputation_run, Hsocial, Hinfo.
  cbn [for_each fst snd]. unfold_monad.
  destruct (analyze_name_patterns m self) as [names|]; cbn;
    eexists; (split; [reflexivity|]); (split; [reflexivity|]);
    (split; [reflexivity|]); cbn; (split; [reflexivity|]);
    (split; [lia|]); apply lookup_insert_eq.
Qed.

Lemma confidence_after_tasks_witness :
  exists social info st,
    analyze_social_presence broken_models offline
      (investigator "john.doe" "example.com") = Ret social /\
    analyze_personal_info offline (investigator "john.doe" "example.com") = Ret info /\
    run_tasks broken_models (fun _ => 1) offline
      (investigator "john.doe" "example.com") run_init = (Ret tt, st) /\
    stat_confidence st = 99 /\
    stat_sources st = 0 + 3 + Z.of_nat (size social) + 7 /\
    results st !! "👥 Gathering personal information..." = Some (PersonalResult info).
Proof.
  apply (confidence_after_tasks broken_models (fun _ => 1) offline
           "john.doe@example.com" (investigator "john.doe" "example.com")).
  reflexivity.
Defined.

(** X24: The detailed report fails only with the name analysis, that is with
    the language model: the four other analyses it gathers always return,
    and it holds their results unchanged. *)
Theorem detailed_report_needs_nlp (m : Models) (w : World) (self : SherlockMail) :
  (create_detailed_report m w self = Raise <->
   nlp m (dots_to_spaces (username self)) = Raise) /\
  forall report,
    create_detailed_report m w self = Ret report ->
    analyze_professional_score self = Ret (dr_professional_score report) /\
    analyze_security_risks w self = Ret (dr_security_analysis report) /\
    analyze_social_footprint w self = Ret (dr_social_footprint report) /\
    analyze_name_patterns m self = Ret (dr_name_analysis report) /\
    analyze_email_reputation w self = Ret (dr_reputation report).
Proof.
  unfold create_detailed_report.
  destruct (analyze_social_footprint_run w self) as (f & Hf & _).
  assert (Hp : exists p, analyze_professional_score self = Ret p).
  { unfold analyze_professional_score, eval. fold professional_init.
    rewrite professional_body_run. cbv zeta. eauto. }
  destruct Hp as [p Hp].
  rewrite Hp, analyze_security_risks_run, Hf, analyze_email_reputation_run.
  cbn [and_then]. unfold analyze_name_patterns, and_then.
  destruct (nlp m (dots_to_spaces (username self))) as [doc|].
  - split; [split; discriminate|]. intros report [= <-]. repeat split.
  - split; [split; reflexivity|discriminate].
Qed.

Lemma detailed_report_needs_nlp_witness :
  create_detailed_report broken_models offline
    (investigator "john.doe" "example.com") = Raise /\
  exists report,
    create_detailed_report plain_models offline
      (investigator "john.doe" "example.com") = Ret report /\
    analyze_security_risks offline (investigator "john.doe" "example.com") =
      Ret (dr_security_analysis report).
Proof.
  split.
  - apply (proj1 (detailed_report_needs_nlp broken_models offline
                    (investigator "john.doe" "example.com"))).
    reflexivity.
  - destruct (create_detailed_report plain_models offline
                (investigator "john.doe" "example.com")) as [report|] eqn:E.
    + exists report. split; [reflexivity|].
      apply (proj2 (detailed_report_needs_nlp plain_models offline
                      (investigator "john.doe" "example.com")) report E).
    + apply (proj1 (detailed_report_needs_nlp plain_models offline
                      (investigator "john.doe" "example.com"))) in E.
      discriminate E.
Defined.

(** ** Instances of the bounds and equivalences above *)

Lemma request_count_bounds_witness :
  (14 <= List.length (requests_made offline (investigator "johndoe" "example.com")) <= 29)%nat /\
  (List.length (requests_made offline (investigator "johndoe" "example.com")) <= 15)%nat.
Proof.
  destruct (request_count_bounds offline (investigator "johndoe" "example.com"))
    as [Hrange Hdotless].
  split; [exact Hrange|]. apply Hdotless. reflexivity.
Defined.

Lemma professional_high_needs_all_witness :
  exists r,
    analyze_professional_score (investigator "john.doe" "gmail.com") = Ret r /\
    prof_level r = High.
Proof.
  destruct (professional_high_needs_all (investigator "john.doe" "gmail.com"))
    as (r & Hr & _ & Hhigh).
  exists r. split; [exact Hr|]. apply Hhigh.
  repeat split; vm_compute; reflexivity.
Defined.

Lemma no_risk_exactly_when_witness :
  exists s,
    analyze_security_risks (aged 400) (investigator "johndoe" "example.com") = Ret s /\
    sec_risks s = [] /\
    sec_recommendations s = ["Good security practices detected"] /\
    sec_level s = Low.
Proof.
  destruct (no_risk_exactly_when (aged 400) (investigator "johndoe" "example.com")
              eq_refl)
    as (s & Hs & Hnone & Hrec & Hlow).
  assert (Hrisks : sec_risks s = []).
  { apply Hnone. repeat split; vm_compute; first [reflexivity | discriminate]. }
  exists s. split; [exact Hs|]. split; [exact Hrisks|].
  split; [apply Hrec, Hrisks | apply Hlow, Hrisks].
Defined.
